(** * Trade lifecycle engine of the Capital.com trading bot

    A shallow embedding of the parts of [bot1.py], [bot3.py], [bot4.py],
    [strategies.py] and [api_client.py] that decide the properties of the
    specification, and the theorems that settle them.

    Python floats are IEEE binary64 values: they are embedded as Rocq's
    primitive floats, whose operations are the same IEEE operations.
    Exceptions are explicit ([result]), mutable process state and the broker
    are an explicit [world] that is threaded through every call. *)

From Stdlib Require Import ZArith List String Bool Lia Floats.
From stdpp Require Import base option strings gmap.
Import ListNotations.

Set Warnings "-inexact-float,-register-all".
#[local] Open Scope string_scope.
#[local] Open Scope Z_scope.

(** ** Python's float arithmetic *)

Module PyFloat.

(** [n / d] rounded to the nearest integer, ties to the even one
    ([0 <= n], [0 < d]). *)
Definition div_half_even (n d : Z) : Z :=
  let q := n / d in
  let r := n mod d in
  match 2 * r ?= d with
  | Lt => q
  | Gt => q + 1
  | Eq => if Z.even q then q else q + 1
  end.

(** [m * 2^e] for [0 <= m <= 2^53], exactly when it is a binary64 value and
    infinity when it is too large. *)
Definition of_mantissa_exp (m e : Z) : float :=
  Z.ldexp (PrimFloat.of_uint63 (Uint63.of_Z m)) e.

(** The binary64 value nearest to the positive rational [n / d], ties to
    even: what the correctly rounded conversions of CPython ([strtod],
    int to float) return. *)
Definition nearest_float (n d : Z) : float :=
  let k := Z.log2 n - Z.log2 d in
  let scaled e := if 0 <=? e then (n, d * 2 ^ e) else (n * 2 ^ (- e), d) in
  let e0 := k - 53 in
  let e1 := if (let (a, b) := scaled e0 in b * 2 ^ 53 <=? a) then e0 + 1 else e0 in
  let e := Z.max e1 (-1074) in
  let (a, b) := scaled e in
  of_mantissa_exp (div_half_even a b) e.

(** [float(i)] for a Python int. *)
Definition of_int (z : Z) : float :=
  match z with
  | Z0 => 0%float
  | Zpos _ => nearest_float z 1
  | Zneg p => PrimFloat.opp (nearest_float (Zpos p) 1)
  end.

(** [round(x, 2)], CPython's [float.__round__] with [ndigits = 2]: a NaN or
    an infinity rounds to itself; a finite [x] is converted to the decimal
    with two fractional digits nearest to its exact value (ties to even,
    [_Py_dg_dtoa] mode 3), which is converted back to the nearest float
    ([_Py_dg_strtod]); the sign of [x] is kept. *)
Definition round2 (x : float) : float :=
  match Prim2SF x with
  | S754_finite s m e =>
      let n := if 0 <=? e then Zpos m * 100 * 2 ^ e
               else div_half_even (Zpos m * 100) (2 ^ (- e)) in
      let r := if n =? 0 then 0%float else nearest_float n 100 in
      if s then PrimFloat.opp r else r
  | _ => x
  end.

(** [numpy.rint]: the nearest integer, ties to the even one, with the sign
    of [x]; a NaN, an infinity and a float that is an integer already are
    returned as they are. *)
Definition rint (x : float) : float :=
  match Prim2SF x with
  | S754_finite s m e =>
      if 0 <=? e then x else
      let r := of_int (div_half_even (Zpos m) (2 ^ (- e))) in
      if s then PrimFloat.opp r else r
  | _ => x
  end.

(** [round(x, 2)] on a [numpy.float64]: numpy multiplies by [10 ** 2],
    rounds to the nearest integer and divides again ([PyArray_Round]). *)
Definition numpy_round2 (x : float) : float := (rint (x * 100) / 100)%float.

(** The two kinds of float a price can be: Python's own [float] (what
    [float(...)] returns) and [numpy.float64] (what pandas returns for a
    cell).  Their arithmetic is the same; [round(x, 2)] is not, and the
    result of an operation with a [numpy.float64] is one again. *)
Inductive kind : Type := builtin | numpy.

Definition round2_as (k : kind) (x : float) : float :=
  match k with
  | builtin => round2 x
  | numpy => numpy_round2 x
  end.

(** Python's [x == y], [x < y], [x <= y], [x > y], [x >= y] on floats. *)
Definition eqb (x y : float) : bool := PrimFloat.eqb x y.
Definition ltb (x y : float) : bool := PrimFloat.ltb x y.
Definition leb (x y : float) : bool := PrimFloat.leb x y.
Definition gtb (x y : float) : bool := PrimFloat.ltb y x.
Definition geb (x y : float) : bool := PrimFloat.leb y x.

(** Truth value of a float: everything but a zero, NaN included. *)
Definition truthy (x : float) : bool := negb (PrimFloat.eqb x 0%float).

End PyFloat.

(** ** Python values, exceptions and the process state *)

Module Py.

(** What [json.loads] (and [response.json()], [request.get_json()]) returns. *)
Inductive jval : Type :=
  | JNull
  | JBool (b : bool)
  | JInt (z : Z)
  | JFloat (f : float)
  | JStr (s : string)
  | JList (l : list jval)
  | JDict (d : list (string * jval)).

Inductive exn : Type :=
  | KeyError (key : string)
  | IndexError
  | TypeError
  | ValueError
  | AttributeError
  | OverflowError
  | UnboundLocalError
  | RecursionError
  | ConnectionError
  | RetryError
  | InvalidJSONError
  | BadRequest.

Inductive result (A : Type) : Type :=
  | Return (a : A)
  | Raise (e : exn).
Arguments Return {A} a.
Arguments Raise {A} e.

(** [d.get(key)] on the items of a dict. *)
Fixpoint dict_get (key : string) (d : list (string * jval)) : option jval :=
  match d with
  | [] => None
  | (k, v) :: rest => if String.eqb k key then Some v else dict_get key rest
  end.

(** [key in d]. *)
Definition dict_has (key : string) (d : list (string * jval)) : bool :=
  match dict_get key d with Some _ => true | None => false end.

(** [d[key]]. *)
Definition dict_item (key : string) (d : list (string * jval)) : result jval :=
  match dict_get key d with Some v => Return v | None => Raise (KeyError key) end.

(** [d.get(key, default)]. *)
Definition dict_get_default (key : string) (default : jval)
    (d : list (string * jval)) : jval :=
  match dict_get key d with Some v => v | None => default end.

(** [bool(v)]: [None], [False], zeros and empty containers are false. *)
Definition truthy (v : jval) : bool :=
  match v with
  | JNull => false
  | JBool b => b
  | JInt z => negb (z =? 0)
  | JFloat f => PyFloat.truthy f
  | JStr s => negb (String.eqb s "")
  | JList l => match l with [] => false | _ => true end
  | JDict d => match d with [] => false | _ => true end
  end.

(** [v == s] for a string literal [s]. *)
Definition eq_str (v : jval) (s : string) : bool :=
  match v with JStr t => String.eqb t s | _ => false end.

(** What the interpreter and the standard library supply and this
    development leaves open: [float] on a [str], [str] of a value that is
    not a [str], and the value [random.uniform(0.1, 0.5)] draws. *)
Record runtime : Type := mk_runtime {
  float_of_str : string -> option float;
  repr_ : jval -> string;
  uniform_01_05 : float
}.

(** [float(v)]. *)
Definition float_ (rt : runtime) (v : jval) : result float :=
  match v with
  | JNull => Raise TypeError
  | JBool b => Return (if b then 1%float else 0%float)
  | JInt z =>
      let f := PyFloat.of_int z in
      if PyFloat.eqb (PrimFloat.abs f) infinity then Raise OverflowError
      else Return f
  | JFloat f => Return f
  | JStr s =>
      match float_of_str rt s with
      | Some f => Return f
      | None => Raise ValueError
      end
  | JList _ => Raise TypeError
  | JDict _ => Raise TypeError
  end.

(** [str(v)], as an f-string inserts it. *)
Definition str_ (rt : runtime) (v : jval) : string :=
  match v with JStr s => s | _ => repr_ rt v end.

(** [s in t] on strings. *)
Fixpoint is_substring (s t : string) : bool :=
  String.prefix s t
  || match t with
     | EmptyString => false
     | String _ t' => is_substring s t'
     end.

(** [key in v]. *)
Definition contains (key : string) (v : jval) : result bool :=
  match v with
  | JDict d => Return (dict_has key d)
  | JList l => Return (existsb (fun x => eq_str x key) l)
  | JStr s => Return (is_substring key s)
  | _ => Raise TypeError
  end.

(** [v[key]] for a string [key]. *)
Definition item (key : string) (v : jval) : result jval :=
  match v with
  | JDict d => dict_item key d
  | _ => Raise TypeError
  end.

(** [v.get(key)]: [None] for a missing key, [AttributeError] when [v] is
    not a dict. *)
Definition get (key : string) (v : jval) : result jval :=
  match v with
  | JDict d => Return (dict_get_default key JNull d)
  | _ => Raise AttributeError
  end.

(** [v.get(key, default)]. *)
Definition get_default (key : string) (default : jval) (v : jval) : result jval :=
  match v with
  | JDict d => Return (dict_get_default key default d)
  | _ => Raise AttributeError
  end.

(** The values [for x in v] runs through. *)
Definition iter_ (v : jval) : result (list jval) :=
  match v with
  | JList l => Return l
  | JDict d => Return (map (fun kv => JStr (fst kv)) d)
  | JStr s =>
      Return (map (fun c => JStr (String c EmptyString)) (list_ascii_of_string s))
  | _ => Raise TypeError
  end.

(** [not cst or not x_security] on two tokens that are a [str] or [None]. *)
Definition no_tokens (cst x_security : option string) : bool :=
  match cst, x_security with
  | Some c, Some x => String.eqb c "" || String.eqb x ""
  | _, _ => true
  end.

(** *** HTTP exchanges and the world *)

Record request : Type := mk_request {
  rq_method : string;
  rq_url : string;
  rq_json : option jval
}.

(** A response: its status code, its headers and what [response.json()]
    returns ([None] when the body is not JSON and [json()] raises). *)
Record response : Type := mk_response {
  status_code : Z;
  headers : list (string * string);
  json : option jval
}.

(** What the network does with one physical request. *)
Inductive reply : Type :=
  | Reply (r : response)
  | NoReply.

Inductive level : Type := INFO | WARNING | ERROR.

(** A started [threading.Thread(target=trade_action, args=...)]. *)
Record thread : Type := mk_thread {
  th_symbol : jval;
  th_action : jval;
  th_price : float;
  th_mode : string
}.

(** The state a call runs in: for each method and URL the replies the
    broker will give to the next physical requests there (in order; none
    left is a connection failure), the physical requests sent so far, the log, the clock read by [time.time()],
    the threads started, and the module's [api_cache].  The cache is one
    dict in the source; its keys are ["auth_tokens"], ["min_distance_" + symbol]
    and ["market_data_" + symbol], kept here as three typed maps, each entry
    with its [expiry]. *)
Record world : Type := mk_world {
  broker : gmap (string * string) (list reply);
  sent : list request;
  log : list (level * string);
  clock : float;
  threads : list thread;
  auth_tokens : option (option string * option string * float);
  min_distance : gmap string (float * float);
  market_data : gmap string (jval * float)
}.

Definition set_broker (b : gmap (string * string) (list reply)) (w : world) : world :=
  mk_world b (sent w) (log w) (clock w) (threads w)
    (auth_tokens w) (min_distance w) (market_data w).
Definition set_sent (s : list request) (w : world) : world :=
  mk_world (broker w) s (log w) (clock w) (threads w)
    (auth_tokens w) (min_distance w) (market_data w).
Definition set_log (l : list (level * string)) (w : world) : world :=
  mk_world (broker w) (sent w) l (clock w) (threads w)
    (auth_tokens w) (min_distance w) (market_data w).
Definition set_clock (c : float) (w : world) : world :=
  mk_world (broker w) (sent w) (log w) c (threads w)
    (auth_tokens w) (min_distance w) (market_data w).
Definition set_threads (t : list thread) (w : world) : world :=
  mk_world (broker w) (sent w) (log w) (clock w) t
    (auth_tokens w) (min_distance w) (market_data w).
Definition set_auth_tokens (a : option (option string * option string * float))
    (w : world) : world :=
  mk_world (broker w) (sent w) (log w) (clock w) (threads w)
    a (min_distance w) (market_data w).
Definition set_min_distance (m : gmap string (float * float)) (w : world) : world :=
  mk_world (broker w) (sent w) (log w) (clock w) (threads w)
    (auth_tokens w) m (market_data w).
Definition set_market_data (m : gmap string (jval * float)) (w : world) : world :=
  mk_world (broker w) (sent w) (log w) (clock w) (threads w)
    (auth_tokens w) (min_distance w) m.

(** Computations that read and change the world and may raise.  The world
    an exception leaves behind is kept. *)
Definition M (A : Type) : Type := world -> result A * world.

Definition ret {A} (a : A) : M A := fun w => (Return a, w).
Definition raise {A} (e : exn) : M A := fun w => (Raise e, w).
Definition bind {A B} (c : M A) (k : A -> M B) : M B :=
  fun w => match c w with
           | (Return a, w') => k a w'
           | (Raise e, w') => (Raise e, w')
           end.
(** [try: c  except Exception as e: handler(e)]. *)
Definition try_except {A} (c : M A) (handler : exn -> M A) : M A :=
  fun w => match c w with
           | (Return a, w') => (Return a, w')
           | (Raise e, w') => handler e w'
           end.
Definition lift {A} (r : result A) : M A := fun w => (r, w).

Definition get_world : M world := fun w => (Return w, w).
Definition modify (f : world -> world) : M unit := fun w => (Return tt, f w).

Definition logging (l : level) (msg : string) : M unit :=
  modify (fun w => set_log (log w ++ [(l, msg)]) w).
Definition time_time : M float := fun w => (Return (clock w), w).
Definition time_sleep (seconds : float) : M unit :=
  modify (fun w => set_clock (PrimFloat.add (clock w) seconds) w).
Definition thread_start (t : thread) : M unit :=
  modify (fun w => set_threads (threads w ++ [t]) w).

(** [name.lower()] on the ASCII letters, the characters header names are
    made of. *)
Definition lower_ascii (c : Ascii.ascii) : Ascii.ascii :=
  let n := Ascii.N_of_ascii c in
  if ((65 <=? n) && (n <=? 90))%N then Ascii.ascii_of_N (n + 32) else c.

Fixpoint lower (s : string) : string :=
  match s with
  | EmptyString => EmptyString
  | String c rest => String (lower_ascii c) (lower rest)
  end.

(** The values of the header fields called [name], whatever the case of
    the letters, in the order received. *)
Fixpoint header_values (name : string) (h : list (string * string)) : list string :=
  match h with
  | [] => []
  | (k, v) :: rest =>
      if String.eqb (lower k) (lower name) then v :: header_values name rest
      else header_values name rest
  end.

(** [response.headers.get(name)]: the headers of a response are a
    case-insensitive dict, in which the values of fields with the same name
    are joined by [", "]. *)
Definition header_get (name : string) (h : list (string * string)) : option string :=
  match header_values name h with
  | [] => None
  | v :: more => Some (fold_left (fun joined x => joined ++ ", " ++ x) more v)
  end.

(** Whether [json.dumps(v, allow_nan=False)], with which [requests] encodes
    a [json=] body, accepts [v]: it refuses a NaN and an infinity. *)
Fixpoint encodable (v : jval) : bool :=
  match v with
  | JFloat f => PrimFloat.is_finite f
  | JList l =>
      (fix all (l : list jval) : bool :=
         match l with
         | [] => true
         | x :: l' => encodable x && all l'
         end) l
  | JDict d =>
      (fix all (d : list (string * jval)) : bool :=
         match d with
         | [] => true
         | (_, x) :: d' => encodable x && all d'
         end) d
  | _ => true
  end.

Definition encodable_body (rq : request) : bool :=
  match rq_json rq with
  | Some v => encodable v
  | None => true
  end.

(** One physical request: it is recorded and answered by the next reply of
    the broker for its method and URL. *)
Definition transmit (rq : request) : M reply :=
  fun w =>
    let w' := set_sent (sent w ++ [rq]) w in
    let endpoint := (rq_method rq, rq_url rq) in
    match broker w !! endpoint with
    | Some (r :: rest) => (Return r, set_broker (<[endpoint := rest]> (broker w)) w')
    | _ => (Return NoReply, w')
    end.

(** [requests.get/post/put/delete] without retries: a body that cannot
    be encoded raises before anything is sent; else one physical request, a
    connection failure raises. *)
Definition requests_send (rq : request) : M response :=
  if negb (encodable_body rq) then raise InvalidJSONError else
  bind (transmit rq) (fun r =>
    match r with
    | Reply resp => ret resp
    | NoReply => raise ConnectionError
    end).

(** [response.json()]. *)
Definition response_json (r : response) : M jval :=
  match json r with Some v => ret v | None => raise ValueError end.

(** [urllib3.util.retry.Retry(total, status_forcelist, allowed_methods)]
    mounted on a [requests.Session]. *)
Record Retry : Type := mk_Retry {
  total : nat;
  status_forcelist : list Z;
  allowed_methods : list string
}.

Definition in_forcelist (cfg : Retry) (status : Z) : bool :=
  existsb (Z.eqb status) (status_forcelist cfg).
Definition is_allowed (cfg : Retry) (method : string) : bool :=
  existsb (String.eqb method) (allowed_methods cfg).

(** A request through the mounted adapter: a reply whose status is in
    [status_forcelist], for a method in [allowed_methods], is answered by
    sending the request again while retries are left, and by [RetryError]
    when they are used up; a connection failure is retried the same way and
    ends in [ConnectionError].  [left] is the number of retries left. *)
Fixpoint send_with_retries (cfg : Retry) (left : nat) (rq : request) : M response :=
  bind (transmit rq) (fun r =>
    match r with
    | Reply resp =>
        if is_allowed cfg (rq_method rq) && in_forcelist cfg (status_code resp)
        then match left with
             | O => raise RetryError
             | S left' => send_with_retries cfg left' rq
             end
        else ret resp
    | NoReply =>
        match left with
        | O => raise ConnectionError
        | S left' => send_with_retries cfg left' rq
        end
    end).

(** A request through a session of [create_session]: the body is encoded
    before the adapter and its retries are reached. *)
Definition session_send (cfg : Retry) (rq : request) : M response :=
  if negb (encodable_body rq) then raise InvalidJSONError else
  send_with_retries cfg (total cfg) rq.

End Py.

Declare Scope py_scope.
Delimit Scope py_scope with py.
Notation "x <- c ;; k" := (Py.bind c (fun x => k))
  (at level 100, c at next level, right associativity) : py_scope.
Notation "c ;; k" := (Py.bind c (fun _ => k))
  (at level 100, right associativity) : py_scope.

#[local] Open Scope py_scope.

(** ** bot1.py *)

Module Bot1.
Import Py.

Definition CAPITAL_API_URL : string :=
  "https://demo-api-capital.backend-capital.com/api/v1".

Definition TRADE_INTERVAL : float := 300%float.
Definition TP_MOVE_PERCENT : float := (0.5 / 100)%float.
Definition BREAKEVEN_TRIGGER : float := (1 / 100)%float.

Definition LOT_SIZES : list (string * jval) :=
  [("BTCUSD", JFloat 0.001); ("ETHUSD", JFloat 0.01); ("ADAUSD", JFloat 0.5);
   ("XRPUSD", JInt 100); ("LTCUSD", JInt 1); ("SOLUSD", JInt 10);
   ("DOGEUSD", JInt 1000); ("DOTUSD", JInt 10); ("MATICUSD", JInt 100);
   ("BNBUSD", JInt 1)].
Definition DEFAULT_LOT_SIZE : jval := JFloat 0.01.

(** [create_session()]: the session every request of this module goes
    through. *)
Definition create_session : Retry :=
  {| total := 3;
     status_forcelist := [429; 500; 502; 503; 504];
     allowed_methods := ["GET"; "POST"; "PUT"; "DELETE"] |}.

(** The [error_data] block: [response.json()] and, when that fails,
    [response.text]; only the log line is kept. *)
Definition log_failure (msg : string) : M unit := logging ERROR msg.

(** [TP & SL with min distance check] of [trade_action] (the arithmetic
    between the distance lookup and the payload).  [k] is the kind of the
    [price]: a Python float from the webhook and from the monitoring loop,
    a [numpy.float64] from [main], which passes the last close of a pandas
    column; every [round] below is applied to a float of that kind. *)
Definition protective_levels (k : PyFloat.kind) (action : jval)
    (price min_distance : float) : float * float :=
  let round := PyFloat.round2_as k in
  let tp := round (price * (if eq_str action "BUY" then 1.005 else 0.995))%float in
  let sl := round (price * (if eq_str action "BUY" then 0.995 else 1.005))%float in
  let tp :=
    if PyFloat.ltb (PrimFloat.abs (tp - price)) min_distance
    then round (price + (if eq_str action "BUY" then min_distance else - min_distance))%float
    else tp in
  let sl :=
    if PyFloat.ltb (PrimFloat.abs (sl - price)) min_distance
    then round (price - (if eq_str action "BUY" then min_distance else - min_distance))%float
    else sl in
  (tp, sl).

(** The [payload] of [trade_action]. *)
Definition order_payload (symbol action lot_size : jval) (tp sl : float) : jval :=
  JDict [("epic", symbol); ("direction", action); ("size", lot_size);
         ("stopLevel", JFloat sl); ("profitLevel", JFloat tp);
         ("guaranteedStop", JBool false); ("trailingStop", JBool false);
         ("forceOpen", JBool true)].

(** The take-profit [set_take_profit_after_open] (and
    [fix_missing_take_profits]) computes, for the distance it got; the
    entry price is a Python float there ([float(...)] of a level). *)
Definition take_profit_after_open (direction : jval) (entry_price min_distance : float)
    : float :=
  let tp :=
    PyFloat.round2 (entry_price * (if eq_str direction "SELL" then 0.995 else 1.005))%float in
  if PyFloat.ltb (PrimFloat.abs (tp - entry_price)) min_distance
  then PyFloat.round2
         (entry_price + (if eq_str direction "BUY" then min_distance else - min_distance))%float
  else tp.

Section WithRuntime.
Variable rt : runtime.

(** The verification chain [trade_action] starts after an accepted order;
    what it does is left open, no property below depends on it. *)
Variable verify_position_and_orders : jval -> option string -> option string -> M unit.
Variable verify_tp : jval -> float -> M unit.

(** [authenticate()]: the cached tokens while they are fresh, else a new
    session from the broker; [(None, None)] when that fails. *)
Definition authenticate : M (option string * option string) :=
  w <- get_world ;;
  let fresh :=
    match auth_tokens w with
    | Some (cst, x_security, expiry) =>
        if PyFloat.ltb (clock w) expiry then Some (cst, x_security) else None
    | None => None
    end in
  match fresh with
  | Some tokens => ret tokens
  | None =>
      time_sleep (uniform_01_05 rt) ;;
      try_except
        (response <- session_send create_session
                       (mk_request "POST" (CAPITAL_API_URL ++ "/session")
                          (Some (JDict [("identifier", JStr "CAPITAL_IDENTIFIER");
                                        ("password", JStr "CAPITAL_API_PASSWORD")]))) ;;
         if status_code response =? 200 then
           let cst := header_get "CST" (headers response) in
           let x_security := header_get "X-SECURITY-TOKEN" (headers response) in
           now <- time_time ;;
           modify (set_auth_tokens (Some (cst, x_security, (now + 600)%float))) ;;
           ret (cst, x_security)
         else
           log_failure "Authentication Failed" ;;
           (if status_code response =? 429
            then logging WARNING "Rate limited" ;; time_sleep 5%float
            else ret tt) ;;
           ret (None, None))
        (fun _ => logging ERROR "Authentication Exception" ;; ret (None, None))
  end.

(** [get_min_distance(symbol)]: [None] when the distance cannot be
    fetched. *)
Definition get_min_distance (symbol : jval) : M (option float) :=
  w <- get_world ;;
  let fresh :=
    match min_distance w !! str_ rt symbol with
    | Some (distance, expiry) =>
        if PyFloat.ltb (clock w) expiry then Some distance else None
    | None => None
    end in
  match fresh with
  | Some distance => ret (Some distance)
  | None =>
      tokens <- authenticate ;;
      let '(cst, x_security) := tokens in
      if no_tokens cst x_security then ret None else
      try_except
        (response <- session_send create_session
                       (mk_request "GET" (CAPITAL_API_URL ++ "/markets/" ++ str_ rt symbol)
                          None) ;;
         if status_code response =? 200 then
           market_data <- response_json response ;;
           fallback <- lift (get_default "minStopDistance" (JInt 1) market_data) ;;
           found <- lift (get_default "minNormalStopOrLimitDistance" fallback market_data) ;;
           distance <- lift (float_ rt found) ;;
           now <- time_time ;;
           modify (fun w => set_min_distance
                              (<[str_ rt symbol := (distance, (now + 3600)%float)]>
                                 (min_distance w)) w) ;;
           ret (Some distance)
         else
           log_failure "Failed to fetch min distance" ;;
           ret None)
        (fun _ => logging ERROR "Min distance exception" ;; ret None)
  end.

(** [update_tp(deal_id, new_tp)]. *)
Definition update_tp (deal_id new_tp : jval) : M unit :=
  tokens <- authenticate ;;
  let '(cst, x_security) := tokens in
  if no_tokens cst x_security then ret tt else
  try_except
    (response <- session_send create_session
                   (mk_request "PUT" (CAPITAL_API_URL ++ "/positions/" ++ str_ rt deal_id)
                      (Some (JDict [("profitLevel", new_tp); ("profitAmount", JNull)]))) ;;
     if status_code response =? 200
     then logging INFO "Take Profit updated"
     else log_failure "Failed to update Take Profit")
    (fun _ => logging ERROR "Update TP exception").

(** A call [update_tp(...)] with the given positional arguments:
    [update_tp] is declared with two parameters, any other number of
    arguments is a [TypeError] raised by the call itself. *)
Definition call_update_tp (args : list jval) : M unit :=
  match args with
  | [deal_id; new_tp] => update_tp deal_id new_tp
  | _ => raise TypeError
  end.

Definition token (t : option string) : jval :=
  match t with Some s => JStr s | None => JNull end.

(** [LOT_SIZES.get(symbol, DEFAULT_LOT_SIZE)]: a list or a dict is not
    hashable. *)
Definition lot_size_of (symbol : jval) : result jval :=
  match symbol with
  | JStr s => Return (dict_get_default s DEFAULT_LOT_SIZE LOT_SIZES)
  | JList _ | JDict _ => Raise TypeError
  | _ => Return DEFAULT_LOT_SIZE
  end.

(** [trade_action(symbol, action, price, mode)], for a [price] of kind
    [k]. *)
Definition trade_action (symbol action : jval) (k : PyFloat.kind) (price : float)
    (mode : string) : M unit :=
  tokens <- authenticate ;;
  let '(cst, x_security) := tokens in
  if no_tokens cst x_security
  then logging ERROR "Authentication failed. Cannot execute trade." else
  if eq_str action "UPDATE_TP"
  then call_update_tp [symbol; JFloat price; token cst; token x_security] else
  lot_size <- lift (lot_size_of symbol) ;;
  found <- get_min_distance symbol ;;
  match found with
  | None => logging ERROR "Failed to get minimum TP/SL distance. Skipping trade."
  | Some min_distance =>
      let '(tp, sl) := protective_levels k action price min_distance in
      let payload := order_payload symbol action lot_size tp sl in
      logging INFO "Sending trade request" ;;
      try_except
        (response <- session_send create_session
                       (mk_request "POST" (CAPITAL_API_URL ++ "/positions")
                          (Some payload)) ;;
         if status_code response =? 200 then
           response_data <- response_json response ;;
           logging INFO "Trade Executed" ;;
           logging INFO "Response" ;;
           deal_reference <- lift (get "dealReference" response_data) ;;
           (if truthy deal_reference
            then verify_position_and_orders deal_reference cst x_security
            else logging WARNING "No deal reference returned. Cannot verify position.") ;;
           deal_id <- lift (get "dealId" response_data) ;;
           verify_tp deal_id tp
         else
           log_failure "Trade Execution Failed")
        (fun _ => logging ERROR "Trade execution exception")
  end.

(** *** The webhook *)

Inductive message : Type :=
  | MissingRequiredFields
  | InvalidPriceValue
  | TradeRequestReceived (action symbol : jval) (price : float)
  | InternalServerError (e : exn).

(** [jsonify({"status": ..., "message": ...}), code]. *)
Record http_reply : Type := mk_http_reply {
  code : Z;
  status : string;
  text : message
}.

(** [webhook()]; [body] is what [request.get_json()] finds, [None] when
    the request carries no JSON ([get_json] then raises or returns [None],
    and both end in the handler of the outer [try]). *)
Definition webhook (body : option jval) : M http_reply :=
  try_except
    (data <- match body with Some v => ret v | None => raise BadRequest end ;;
     symbol <- lift (get "symbol" data) ;;
     action <- lift (get "action" data) ;;
     if negb (truthy symbol) || negb (truthy action)
     then ret (mk_http_reply 400 "error" MissingRequiredFields) else
     raw <- lift (get_default "price" (JInt 0) data) ;;
     match float_ rt raw with
     | Raise ValueError | Raise TypeError =>
         ret (mk_http_reply 400 "error" InvalidPriceValue)
     | Raise e => raise e
     | Return price =>
         logging INFO "Webhook received" ;;
         thread_start (mk_thread symbol action price "SCALP") ;;
         ret (mk_http_reply 200 "success" (TradeRequestReceived action symbol price))
     end)
    (fun e =>
       logging ERROR "Webhook error" ;;
       ret (mk_http_reply 500 "error" (InternalServerError e))).

(** *** The monitoring loop *)

(** The body of [for trade in positions_data["positions"]], inside its
    [try]. *)
Definition adjust_take_profit (trade : jval) : M unit :=
  symbol <- lift (item "epic" trade) ;;
  level_ <- lift (item "level" trade) ;;
  entry_price <- lift (float_ rt level_) ;;
  limit_level <- lift (get_default "limitLevel" (JInt 0) trade) ;;
  current_tp <- lift (float_ rt limit_level) ;;
  direction <- lift (get "direction" trade) ;;
  if eq_str direction "BUY" then
    let new_tp := PyFloat.round2 (entry_price * (1 + TP_MOVE_PERCENT))%float in
    if PyFloat.gtb new_tp current_tp
    then logging INFO "Updating TP" ;;
         trade_action symbol (JStr "UPDATE_TP") PyFloat.builtin new_tp ""
    else ret tt
  else if eq_str direction "SELL" then
    let new_tp := PyFloat.round2 (entry_price * (1 - TP_MOVE_PERCENT))%float in
    if PyFloat.ltb new_tp current_tp
    then logging INFO "Updating TP" ;;
         trade_action symbol (JStr "UPDATE_TP") PyFloat.builtin new_tp ""
    else ret tt
  else ret tt.

(** One position of the loop, with its [except Exception] handler, whose
    log line evaluates [trade.get('dealId')]. *)
Definition monitor_position (trade : jval) : M unit :=
  try_except (adjust_take_profit trade)
    (fun _ => lift (get "dealId" trade) ;; logging ERROR "Error processing position").

Fixpoint monitor_positions (trades : list jval) : M unit :=
  match trades with
  | [] => ret tt
  | trade :: rest => monitor_position trade ;; monitor_positions rest
  end.

(** One pass of [monitor_trades]: the body of its [while True]. *)
Definition monitor_trades_pass : M unit :=
  try_except
    (tokens <- authenticate ;;
     let '(cst, x_security) := tokens in
     if no_tokens cst x_security then ret tt else
     response <- session_send create_session
                   (mk_request "GET" (CAPITAL_API_URL ++ "/positions") None) ;;
     if status_code response =? 200 then
       positions_data <- response_json response ;;
       listed <- lift (contains "positions" positions_data) ;;
       if listed then
         positions <- lift (item "positions" positions_data) ;;
         trades <- lift (iter_ positions) ;;
         monitor_positions trades
       else logging INFO "No open positions found"
     else log_failure "Failed to fetch positions")
    (fun _ => logging ERROR "Monitor trades exception") ;;
  time_sleep TRADE_INTERVAL.

(** *** Market analysis *)

(** A [pandas.DataFrame] built from records: its rows, each with the
    cells it has; the columns are the keys that occur in some row, a key
    a row lacks is a missing cell of that row. *)
Definition frame : Type := list (list (string * jval)).

(** What pandas and talib compute and this development leaves open:
    [talib.ATR(high, low, close, timeperiod=14)], [Series.mean()], and
    [pd.DataFrame] on a dict of columns. *)
Variable talib_ATR : list float -> list float -> list float -> result (list float).
Variable series_mean : list float -> float.
Variable DataFrame_of_columns : list (string * jval) -> result frame.

Fixpoint records (l : list jval) : option frame :=
  match l with
  | [] => Some []
  | JDict d :: rest =>
      match records rest with Some rows => Some (d :: rows) | None => None end
  | _ :: _ => None
  end.

(** [pd.DataFrame(prices)].  A list with an element that is not a record
    gives no frame with named price columns (pandas raises, or builds
    positional columns that fail the column check): both are the [HOLD] of
    the caller, modelled as the exception.  A scalar or a string is
    refused by the constructor. *)
Definition DataFrame (prices : jval) : result frame :=
  match prices with
  | JList l =>
      match records l with Some rows => Return rows | None => Raise TypeError end
  | JDict d => DataFrame_of_columns d
  | _ => Raise ValueError
  end.

Definition columns (df : frame) : list string := flat_map (map fst) df.

(** [x.get("bid", 0) if isinstance(x, dict) else 0] on a cell (a missing
    cell is a NaN, not a dict). *)
Definition bid_of (cell : option jval) : jval :=
  match cell with
  | Some (JDict d) => dict_get_default "bid" (JInt 0) d
  | _ => JInt 0
  end.

(** A value of a numeric column: [None] is a missing value (a [None] or a
    NaN); a value that is no number makes the comparisons of the column
    raise. *)
Definition number (v : jval) : result (option float) :=
  match v with
  | JNull => Return None
  | JBool b => Return (Some (if b then 1%float else 0%float))
  | JInt z =>
      let f := PyFloat.of_int z in
      if PyFloat.eqb (PrimFloat.abs f) infinity then Raise OverflowError
      else Return (Some f)
  | JFloat f => Return (if PrimFloat.is_nan f then None else Some f)
  | _ => Raise TypeError
  end.

Fixpoint numbers (l : list jval) : result (list (option float)) :=
  match l with
  | [] => Return []
  | v :: rest =>
      match number v, numbers rest with
      | Return x, Return xs => Return (x :: xs)
      | Raise e, _ => Raise e
      | _, Raise e => Raise e
      end
  end.

(** [Series.max()] and [Series.min()]: missing values are skipped, a
    series without values gives NaN. *)
Definition series_max (l : list (option float)) : float :=
  fold_left (fun acc x =>
               match x with
               | Some f => if PrimFloat.is_nan acc || PyFloat.ltb acc f then f else acc
               | None => acc
               end) l nan.
Definition series_min (l : list (option float)) : float :=
  fold_left (fun acc x =>
               match x with
               | Some f => if PrimFloat.is_nan acc || PyFloat.ltb f acc then f else acc
               | None => acc
               end) l nan.

(** A cell [dropna] counts as missing. *)
Definition missing (cell : option jval) : bool :=
  match cell with
  | None => true
  | Some JNull => true
  | Some (JFloat f) => PrimFloat.is_nan f
  | Some _ => false
  end.

(** The rows [df.dropna()] keeps, with their [high], [low] and [close]. *)
Fixpoint dropna (cols : list string) (df : frame) (high low close : list (option float))
    : list (float * float * float) :=
  match df, high, low, close with
  | row :: df', h :: high', l :: low', c :: close' =>
      let rest := dropna cols df' high' low' close' in
      match h, l, c with
      | Some h, Some l, Some c =>
          if existsb (fun col => missing (dict_get col row)) cols then rest
          else (h, l, c) :: rest
      | _, _, _ => rest
      end
  | _, _, _, _ => []
  end.

Definition HOLD : string * option float * option string := ("HOLD", None, None).

(** [get_market_data(symbol)]. *)
Definition get_market_data (symbol : jval) : M (option jval) :=
  w <- get_world ;;
  let fresh :=
    match market_data w !! str_ rt symbol with
    | Some (data, expiry) => if PyFloat.ltb (clock w) expiry then Some data else None
    | None => None
    end in
  match fresh with
  | Some data => ret (Some data)
  | None =>
      tokens <- authenticate ;;
      let '(cst, x_security) := tokens in
      if no_tokens cst x_security then ret None else
      try_except
        (response <- session_send create_session
                       (mk_request "GET"
                          (CAPITAL_API_URL ++ "/prices/" ++ str_ rt symbol
                             ++ "?resolution=MINUTE_5&max=100") None) ;;
         if status_code response =? 200 then
           data <- response_json response ;;
           now <- time_time ;;
           modify (fun w => set_market_data
                              (<[str_ rt symbol := (data, (now + 60)%float)]>
                                 (market_data w)) w) ;;
           ret (Some data)
         else
           log_failure "Failed to fetch market data" ;;
           ret None)
        (fun _ => logging ERROR "Market data exception" ;; ret None)
  end.

(** [analyze_market(symbol)] from the point where [get_market_data] has
    returned [data]. *)
Definition analyze (data : option jval) : M (string * option float * option string) :=
  match data with
  | None => logging WARNING "No market data available" ;; ret HOLD
  | Some data =>
      if negb (truthy data)
      then logging WARNING "No market data available" ;; ret HOLD else
      listed <- lift (contains "prices" data) ;;
      prices <- (if listed then lift (item "prices" data) else ret JNull) ;;
      if negb listed || negb (truthy prices)
      then logging WARNING "Empty price data" ;; ret HOLD else
      try_except
        (df <- lift (DataFrame prices) ;;
         if negb (forallb (fun col => existsb (String.eqb col) (columns df))
                    ["highPrice"; "lowPrice"; "closePrice"])
         then logging ERROR "Missing column in market data" ;; ret HOLD else
         high <- lift (numbers (map (fun row => bid_of (dict_get "highPrice" row)) df)) ;;
         if PyFloat.leb (series_max high) 0
         then logging ERROR "Invalid price values" ;; ret HOLD else
         low <- lift (numbers (map (fun row => bid_of (dict_get "lowPrice" row)) df)) ;;
         if PyFloat.leb (series_min low) 0
         then logging ERROR "Invalid price values" ;; ret HOLD else
         close <- lift (numbers (map (fun row => bid_of (dict_get "closePrice" row)) df)) ;;
         if PyFloat.leb (series_max close) 0
         then logging ERROR "Invalid price values" ;; ret HOLD else
         let kept := dropna (columns df) df high low close in
         if (length kept <? 14)%nat
         then logging WARNING "Insufficient data points for ATR calculation" ;; ret HOLD else
         let closes := map snd kept in
         atr <- lift (talib_ATR (map (fun r => fst (fst r)) kept)
                        (map (fun r => snd (fst r)) kept) closes) ;;
         match last closes, last atr with
         | Some latest_price, Some atr_value =>
             logging INFO "ATR, Latest Price" ;;
             let price_mean := series_mean closes in
             let trend := if PyFloat.gtb latest_price price_mean then "BUY" else "SELL" in
             ret (trend, Some latest_price, Some "SCALP")
         | _, _ => raise IndexError
         end)
        (fun _ => logging ERROR "Analysis error" ;; ret HOLD)
  end.

Definition analyze_market (symbol : jval) : M (string * option float * option string) :=
  data <- get_market_data symbol ;;
  analyze data.

End WithRuntime.
End Bot1.

(** ** strategies.py *)

Module Strategies.
Import Py.

(** The signal dict [get_signal] returns. *)
Record signal : Type := mk_signal {
  action : string;
  quantity : float;
  reason : string
}.

(** [TrendFollowingStrategy]: the tracked positions and the thresholds set
    by [__init__]. *)
Record TrendFollowingStrategy : Type := mk_strategy {
  positions : gmap string float
}.

Definition init : TrendFollowingStrategy := {| positions := ∅ |}.
Definition rsi_oversold : float := 30%float.
Definition rsi_overbought : float := 70%float.

(** [update_position(symbol, action, quantity)]. *)
Definition update_position (self : TrendFollowingStrategy) (symbol action : string)
    (quantity : float) : TrendFollowingStrategy :=
  if String.eqb action "BUY" then {| positions := <[symbol := quantity]> (positions self) |}
  else if String.eqb action "SELL" then {| positions := delete symbol (positions self) |}
  else self.

(** [a[-1]] and [a[-2]] on an array. *)
Definition last1 (a : list float) : result float :=
  match rev a with
  | x :: _ => Return x
  | _ => Raise IndexError
  end.
Definition last2 (a : list float) : result float :=
  match rev a with
  | _ :: x :: _ => Return x
  | _ => Raise IndexError
  end.

Section Indicators.
(** The indicator library ([technical_indicators]), which is not part of
    the sources at hand: each function returns a numpy array of float64,
    or raises. *)
Variable calculate_atr : list float -> list float -> list float -> result (list float).
Variable calculate_moving_averages : list float -> result (list float * list float).
Variable calculate_rsi : list float -> result (list float).

(** The body of the [try] of [get_signal].  The arithmetic is numpy's on
    float64: a division by zero is an infinity or a NaN, not an
    exception. *)
Definition get_signal_try (self : TrendFollowingStrategy) (symbol : string)
    (current_price : float) (price_history : list float) (account_balance : float)
    : result (option signal) :=
  let prices := price_history in
  let highs := map (fun p => p * 1.001)%float prices in
  let lows := map (fun p => p * 0.999)%float prices in
  match calculate_atr highs lows prices with
  | Raise e => Raise e
  | Return atr =>
  match calculate_moving_averages prices with
  | Raise e => Raise e
  | Return (sma_short, sma_long) =>
  match calculate_rsi prices with
  | Raise e => Raise e
  | Return rsi =>
      if (length atr <? 2)%nat || (length sma_short <? 2)%nat
         || (length sma_long <? 2)%nat || (length rsi <? 2)%nat
      then Return None else
      match last1 atr, last1 rsi, last1 sma_short, last1 sma_long,
            last2 sma_short, last2 sma_long with
      | Return current_atr, Return current_rsi, Return short1, Return long1,
        Return short2, Return long2 =>
          match positions self !! symbol with
          | None =>
              if PyFloat.gtb short1 long1 && PyFloat.leb short2 long2
                 && PyFloat.ltb current_rsi rsi_overbought
              then
                let risk_amount := (account_balance * 0.02)%float in
                let stop_loss := (current_price - current_atr * 2)%float in
                let position_size := (risk_amount / (current_price - stop_loss))%float in
                Return (Some (mk_signal "BUY" position_size
                                "SMA crossover with RSI confirmation"))
              else Return None
          | Some held =>
              if PyFloat.ltb short1 long1 && PyFloat.geb short2 long2
                 || PyFloat.gtb current_rsi rsi_overbought
              then Return (Some (mk_signal "SELL" held
                                   "Exit signal: trend reversal or overbought"))
              else Return None
          end
      | _, _, _, _, _, _ => Raise IndexError
      end
  end end end.

(** [get_signal]: any exception of the body is logged and answered by
    [None]. *)
Definition get_signal (self : TrendFollowingStrategy) (symbol : string)
    (current_price : float) (price_history : list float) (account_balance : float)
    : result (option signal) :=
  match get_signal_try self symbol current_price price_history account_balance with
  | Return s => Return s
  | Raise _ => Return None
  end.
End Indicators.
End Strategies.

(** ** bot3.py *)

Module Bot3.
Import Py.

Definition TRADE_INTERVAL : float := 300%float.

(** [update_price_history]: the new price is appended and the last 100
    prices are kept. *)
Definition update_price_history (history : list float) (price : float) : list float :=
  let appended := (history ++ [price])%list in
  if (100 <? length appended)%nat
  then skipn (length appended - 100)%nat appended
  else appended.

Section Indicators.
Variable calculate_atr : list float -> list float -> list float -> result (list float).
Variable calculate_moving_averages : list float -> result (list float * list float).
Variable calculate_rsi : list float -> result (list float).

(** The signal [monitor_trades] gets for a symbol whose price has been
    fetched and appended to [price_history]: the strategy is asked only
    when 20 prices are there, and without a signal nothing is traded. *)
Definition signal_of (strategy : Strategies.TrendFollowingStrategy) (symbol : string)
    (current_price : float) (price_history : list float) (account_balance : float)
    : result (option Strategies.signal) :=
  if (20 <=? length price_history)%nat
  then Strategies.get_signal calculate_atr calculate_moving_averages calculate_rsi
         strategy symbol current_price price_history account_balance
  else Return None.
End Indicators.
End Bot3.

(** ** api_client.py *)

Module ApiClient.
Import Py.

(** [CapitalComClient]: the fields the requests depend on.  The session
    headers (tokens, timestamp, signature) are not part of a modelled
    request and are left out. *)
Record CapitalComClient : Type := mk_client {
  identifier : string;
  password : option string;
  base_url : string
}.

Definition BASE_URL : string := "https://api-capital.backend-capital.com/api/v1".

(** [_generate_signature]: whether a digest is produced; computing it
    raises without a password, and the call then logs the error and
    returns [None]. *)
Definition _generate_signature (self : CapitalComClient) : M bool :=
  match password self with
  | Some _ => ret true
  | None => logging ERROR "Error generating signature" ;; ret false
  end.

(** [next((acc for acc in accounts if acc.get('accountType') == 'DEMO'),
    accounts[0])]. *)
Fixpoint first_demo (accounts : list jval) (default : jval) : result jval :=
  match accounts with
  | [] => Return default
  | acc :: rest =>
      match get "accountType" acc with
      | Raise e => Raise e
      | Return t => if eq_str t "DEMO" then Return acc else first_demo rest default
      end
  end.

(** [_authenticate()]: it answers every exception itself and returns
    nothing. *)
Definition _authenticate (self : CapitalComClient) : M unit :=
  try_except
    (signed <- _generate_signature self ;;
     if negb signed
     then logging ERROR "Failed to generate signature" else
     logging INFO "Attempting authentication" ;;
     logging INFO "Auth headers" ;;
     logging INFO "Auth data" ;;
     response <- requests_send
                   (mk_request "POST" (base_url self ++ "/session")
                      (Some (JDict [("identifier", JStr (identifier self));
                                    ("password",
                                     match password self with
                                     | Some p => JStr p
                                     | None => JNull
                                     end);
                                    ("encryptedPassword", JBool false)]))) ;;
     logging INFO "Auth response status" ;;
     logging INFO "Auth response headers" ;;
     logging INFO "Auth response body" ;;
     if status_code response =? 200 then
       let cst := header_get "CST" (headers response) in
       let security_token := header_get "X-SECURITY-TOKEN" (headers response) in
       if no_tokens cst security_token
       then logging ERROR "Security tokens not found in response" else
       accounts_response <- requests_send
                              (mk_request "GET" (base_url self ++ "/accounts") None) ;;
       (if status_code accounts_response =? 200 then
          accounts_data <- response_json accounts_response ;;
          logging INFO "Accounts data" ;;
          listed <- lift (contains "accounts" accounts_data) ;;
          accounts <- (if listed then lift (item "accounts" accounts_data) else ret JNull) ;;
          if listed && truthy accounts then
            demo_account <-
              match accounts with
              | JList (first :: rest) => lift (first_demo (first :: rest) first)
              | _ => raise TypeError
              end ;;
            account_id <- lift (item "accountId" demo_account) ;;
            logging INFO "Using account ID" ;;
            switch_response <- requests_send
                                 (mk_request "PUT" (base_url self ++ "/session")
                                    (Some (JDict [("accountId", account_id)]))) ;;
            if status_code switch_response =? 200
            then logging INFO "Successfully switched to demo account"
            else logging ERROR "Failed to switch account"
          else logging ERROR "No accounts found"
        else logging ERROR "Failed to get accounts") ;;
       logging INFO "Authentication completed" ;;
       logging INFO "Final headers"
     else logging ERROR "Authentication failed")
    (fun _ => logging ERROR "Authentication error").

Section Interpreter.
(** What the call in whose frame the interpreter's stack runs out still
    does before the [RecursionError] arises (nothing when it arises on
    entry; a request, a log line when it arises in a call further down the
    frame); it is left open. *)
Variable stack_overflow : M unit.

(** [_make_request(method, endpoint, data)].  [depth] is the number of
    nested calls that find the stack they need; the call after them ends
    in [RecursionError], which the [except] of that frame or of the
    calling one answers like any other exception. *)
Fixpoint _make_request (depth : nat) (self : CapitalComClient) (method endpoint : string)
    (data : option jval) : M (option response) :=
  match depth with
  | O => stack_overflow ;; raise RecursionError
  | S depth' =>
      try_except
        (_generate_signature self ;;
         let url := base_url self ++ endpoint in
         response <-
           (if String.eqb method "GET" then requests_send (mk_request "GET" url None)
            else if String.eqb method "POST" then requests_send (mk_request "POST" url data)
            else if String.eqb method "PUT" then requests_send (mk_request "PUT" url data)
            else if String.eqb method "DELETE"
                 then requests_send (mk_request "DELETE" url None)
            else raise UnboundLocalError) ;;
         if status_code response =? 401 then
           logging INFO "Token expired, refreshing authentication..." ;;
           _authenticate self ;;
           _make_request depth' self method endpoint data
         else ret (Some response))
        (fun _ => logging ERROR "Request error" ;; ret None)
  end.

(** [place_market_order(symbol, direction, quantity)]: the order's data, or
    [None]; [quantity] is the text [str(quantity)]. *)
Definition place_market_order (depth : nat) (self : CapitalComClient)
    (symbol direction quantity : string) : M (option jval) :=
  try_except
    (let payload :=
       JDict [("epic", JStr symbol); ("direction", JStr direction); ("size", JStr quantity);
              ("orderType", JStr "MARKET"); ("guaranteedStop", JBool false);
              ("forceOpen", JBool true)] in
     response <- _make_request depth self "POST" "/positions" (Some payload) ;;
     match response with
     | Some r =>
         if (status_code r <? 400) && (status_code r =? 200) then
           data <- response_json r ;;
           logging INFO "Order placed successfully" ;;
           ret (Some data)
         else logging ERROR "Failed to place order" ;; ret None
     | None => logging ERROR "Failed to place order" ;; ret None
     end)
    (fun _ => logging ERROR "Error placing market order" ;; ret None).

End Interpreter.
End ApiClient.

(** ** bot4.py *)

Module Bot4.
Import Py.

Definition CAPITAL_API_URL : string :=
  "https://demo-api-capital.backend-capital.com/api/v1".
Definition TRADE_INTERVAL : float := 300%float.
Definition TP_MOVE_PERCENT : float := (0.5 / 100)%float.
Definition BREAKEVEN_TRIGGER : float := (1 / 100)%float.

Definition create_session : Retry :=
  {| total := 3;
     status_forcelist := [429; 500; 502; 503; 504];
     allowed_methods := ["GET"; "POST"; "PUT"; "DELETE"] |}.

Inductive message : Type :=
  | InvalidWebhookData
  | InvalidWebhookParameters
  | TradeExecuted (action symbol : jval) (price : float)
  | WebhookProcessingError.

Record http_reply : Type := mk_http_reply {
  code : Z;
  status : string;
  text : message
}.

Section WithRuntime.
Variable rt : runtime.

(** The functions of this module the loop and the webhook call and whose
    bodies no property below depends on.  [get_latest_price] returns [0]
    when it has no price. *)
Variable authenticate : M (option string * option string).
Variable get_latest_price : jval -> M float.
Variable set_stop_loss : jval -> float -> M unit.
Variable trade_action : jval -> jval -> float -> string -> M unit.

(** [update_tp(deal_id, new_tp)]. *)
Definition update_tp (deal_id : jval) (new_tp : float) : M unit :=
  tokens <- authenticate ;;
  let '(cst, x_security) := tokens in
  if no_tokens cst x_security then ret tt else
  try_except
    (response <- session_send create_session
                   (mk_request "PUT" (CAPITAL_API_URL ++ "/positions/" ++ str_ rt deal_id)
                      (Some (JDict [("limitLevel", JFloat new_tp)]))) ;;
     if status_code response =? 200
     then logging INFO "Take Profit updated"
     else logging ERROR "Failed to update Take Profit")
    (fun _ => logging ERROR "Update TP exception").

(** [webhook()]. *)
Definition webhook (body : option jval) : M http_reply :=
  try_except
    (data <- match body with Some v => ret v | None => raise BadRequest end ;;
     if negb (truthy data)
     then logging ERROR "Webhook received empty payload" ;;
          ret (mk_http_reply 400 "error" InvalidWebhookData) else
     symbol <- lift (get "symbol" data) ;;
     action <- lift (get "action" data) ;;
     price <- lift (get "price" data) ;;
     if negb (truthy symbol) || negb (truthy action)
        || match price with JNull => true | _ => false end
     then logging ERROR "Invalid webhook data" ;;
          ret (mk_http_reply 400 "error" InvalidWebhookParameters) else
     price <- lift (float_ rt price) ;;
     logging INFO "Webhook Triggered" ;;
     trade_action symbol action price "SCALP" ;;
     ret (mk_http_reply 200 "success" (TradeExecuted action symbol price)))
    (fun _ =>
       logging ERROR "Webhook processing error" ;;
       ret (mk_http_reply 500 "error" WebhookProcessingError)).

(** The body of [for trade in response.json()["positions"]]; nothing in
    it or around it catches an exception. *)
Definition adjust_position (trade : jval) : M unit :=
  symbol <- lift (item "epic" trade) ;;
  level_ <- lift (item "level" trade) ;;
  entry_price <- lift (float_ rt level_) ;;
  current_price <- get_latest_price symbol ;;
  if negb (PyFloat.truthy current_price) then ret tt else
  let new_tp := PyFloat.round2 (entry_price * (1 + TP_MOVE_PERCENT))%float in
  profit_level <- lift (item "profitLevel" trade) ;;
  current_tp <- lift (float_ rt profit_level) ;;
  (if PyFloat.gtb new_tp current_tp
   then logging INFO "Updating TP" ;; update_tp symbol new_tp
   else ret tt) ;;
  if PyFloat.gtb current_price (entry_price * (1 + BREAKEVEN_TRIGGER))%float
  then logging INFO "Moving SL to breakeven" ;; set_stop_loss symbol entry_price
  else ret tt.

Fixpoint adjust_positions (trades : list jval) : M unit :=
  match trades with
  | [] => ret tt
  | trade :: rest => adjust_position trade ;; adjust_positions rest
  end.

(** One pass of [monitor_trades]: the body of its [while True].  An
    exception leaves the loop and ends the thread. *)
Definition monitor_trades_pass : M unit :=
  tokens <- authenticate ;;
  let '(cst, x_security) := tokens in
  if no_tokens cst x_security then time_sleep TRADE_INTERVAL else
  response <- requests_send (mk_request "GET" (CAPITAL_API_URL ++ "/positions") None) ;;
  (if status_code response =? 200 then
     positions_data <- response_json response ;;
     positions <- lift (item "positions" positions_data) ;;
     trades <- lift (iter_ positions) ;;
     adjust_positions trades
   else ret tt) ;;
  time_sleep TRADE_INTERVAL.

End WithRuntime.
End Bot4.

(** ** More of Python's operations on JSON values *)

Module PyOps.
Import Py.

(** [i == f] for an int and a float: the comparison is exact. *)
Definition int_eq_float (i : Z) (f : float) : bool :=
  match Prim2SF f with
  | S754_zero _ => i =? 0
  | S754_finite s m e =>
      let magnitude :=
        if 0 <=? e then Some (Zpos m * 2 ^ e)
        else if Zpos m mod 2 ^ (- e) =? 0 then Some (Zpos m / 2 ^ (- e)) else None in
      match magnitude with
      | Some n => i =? (if s then - n else n)
      | None => false
      end
  | _ => false
  end.

Definition int_of_bool (b : bool) : Z := if b then 1 else 0.

(** [a == b]: numbers (booleans included) compare by value, strings,
    lists and dicts by content, everything else is different. *)
Fixpoint eq_ (a b : jval) {struct a} : bool :=
  match a, b with
  | JNull, JNull => true
  | JBool x, JBool y => int_of_bool x =? int_of_bool y
  | JBool x, JInt y => int_of_bool x =? y
  | JBool x, JFloat y => int_eq_float (int_of_bool x) y
  | JInt x, JBool y => x =? int_of_bool y
  | JInt x, JInt y => x =? y
  | JInt x, JFloat y => int_eq_float x y
  | JFloat x, JBool y => int_eq_float (int_of_bool y) x
  | JFloat x, JInt y => int_eq_float y x
  | JFloat x, JFloat y => PyFloat.eqb x y
  | JStr s, JStr t => String.eqb s t
  | JList l, JList m =>
      (fix all2 (l m : list jval) {struct l} : bool :=
         match l, m with
         | [], [] => true
         | x :: l', y :: m' => eq_ x y && all2 l' m'
         | _, _ => false
         end) l m
  | JDict d, JDict e =>
      (length d =? length e)%nat
      && (fix included (d : list (string * jval)) {struct d} : bool :=
            match d with
            | [] => true
            | (k, v) :: d' =>
                match dict_get k e with
                | Some v' => eq_ v v'
                | None => false
                end && included d'
            end) d
  | _, _ => false
  end.

(** [key not in v or v[key] is None]. *)
Definition lacks (key : string) (v : jval) : result bool :=
  match contains key v with
  | Raise e => Raise e
  | Return false => Return true
  | Return true =>
      match item key v with
      | Raise e => Raise e
      | Return JNull => Return true
      | Return _ => Return false
      end
  end.

(** [v[0]]; the key of the [KeyError] of a dict is the int [0]. *)
Definition index0 (v : jval) : result jval :=
  match v with
  | JList (x :: _) => Return x
  | JList [] => Raise IndexError
  | JStr (String c _) => Return (JStr (String c EmptyString))
  | JStr EmptyString => Raise IndexError
  | JDict _ => Raise (KeyError "0")
  | _ => Raise TypeError
  end.

End PyOps.

(** ** bot1.py: verification and repair of the take-profit *)

Module Bot1Verification.
Import Py.

Section WithRuntime.
Variable rt : runtime.

(** [for position in positions: if position.get(key) == value:], up to
    the first position found. *)
Fixpoint find_by (key : string) (value : jval) (positions : list jval)
    : result (option jval) :=
  match positions with
  | [] => Return None
  | position :: rest =>
      match get key position with
      | Raise e => Raise e
      | Return v =>
          if PyOps.eq_ v value then Return (Some position) else find_by key value rest
      end
  end.

(** [response.json().get("positions", [])], as the list the [for] runs
    through. *)
Definition listed_positions (response : response) : M (list jval) :=
  data <- response_json response ;;
  positions <- lift (get_default "positions" (JList []) data) ;;
  lift (iter_ positions).

(** [get_position_details(deal_id, cst, x_security)]. *)
Definition get_position_details (deal_id : jval) (cst x_security : option string)
    : M (option jval) :=
  try_except
    (response <- session_send Bot1.create_session
                   (mk_request "GET" (Bot1.CAPITAL_API_URL ++ "/positions") None) ;;
     if status_code response =? 200 then
       positions <- listed_positions response ;;
       found <- lift (find_by "dealId" deal_id positions) ;;
       match found with
       | Some position => ret (Some position)
       | None => logging WARNING "Position with dealId not found" ;; ret None
       end
     else logging ERROR "Failed to get positions" ;; ret None)
    (fun _ => logging ERROR "Position details exception" ;; ret None).

(** [update_take_profit(symbol, new_tp, cst, x_security)]. *)
Definition update_take_profit (symbol : jval) (new_tp : float)
    (cst x_security : option string) : M unit :=
  try_except
    (response <- session_send Bot1.create_session
                   (mk_request "GET" (Bot1.CAPITAL_API_URL ++ "/positions") None) ;;
     if status_code response =? 200 then
       positions <- listed_positions response ;;
       found <- lift (find_by "epic" symbol positions) ;;
       match found with
       | Some position =>
           position_id <- lift (get "dealId" position) ;;
           update_response <-
             session_send Bot1.create_session
               (mk_request "PUT"
                  (Bot1.CAPITAL_API_URL ++ "/positions/" ++ str_ rt position_id)
                  (Some (JDict [("limitLevel", JFloat new_tp)]))) ;;
           if status_code update_response =? 200
           then logging INFO "Updated TP"
           else Bot1.log_failure "Failed to update TP"
       | None => logging WARNING "No open position found"
       end
     else Bot1.log_failure "Failed to fetch positions")
    (fun _ => logging ERROR "Update TP exception").

(** [set_take_profit_by_deal_id(deal_id, tp_level, cst, x_security)]. *)
Definition set_take_profit_by_deal_id (deal_id : jval) (tp_level : float)
    (cst x_security : option string) : M bool :=
  try_except
    (logging INFO "Setting TP for deal" ;;
     response <- session_send Bot1.create_session
                   (mk_request "PUT"
                      (Bot1.CAPITAL_API_URL ++ "/positions/" ++ str_ rt deal_id)
                      (Some (JDict [("limitLevel", JFloat tp_level)]))) ;;
     if status_code response =? 200
     then logging INFO "Take Profit set for deal" ;; ret true
     else Bot1.log_failure "Failed to set take profit" ;; ret false)
    (fun _ => logging ERROR "Set TP exception" ;; ret false).

(** [set_take_profit_after_open(deal_id, symbol, entry_price, direction,
    cst, x_security)]. *)
Definition set_take_profit_after_open (deal_id symbol : jval) (entry_price : float)
    (direction : jval) (cst x_security : option string) : M bool :=
  found <- Bot1.get_min_distance rt symbol ;;
  min_distance <-
    match found with
    | Some distance => ret distance
    | None => logging ERROR "Failed to get minimum TP distance. Using default." ;;
              ret 1%float
    end ;;
  let tp := Bot1.take_profit_after_open direction entry_price min_distance in
  try_except
    (logging INFO "Setting TP" ;;
     response <- session_send Bot1.create_session
                   (mk_request "PUT"
                      (Bot1.CAPITAL_API_URL ++ "/positions/" ++ str_ rt deal_id)
                      (Some (JDict [("limitLevel", JFloat tp)]))) ;;
     if status_code response =? 200
     then logging INFO "Take Profit set after position open" ;; ret true
     else Bot1.log_failure "Failed to set take profit" ;; ret false)
    (fun _ => logging ERROR "Set TP exception" ;; ret false).

(** The body of [for position in positions] of
    [fix_missing_take_profits]. *)
Definition fix_position (cst x_security : option string) (position : jval) : M unit :=
  deal_id <- lift (get "dealId" position) ;;
  symbol <- lift (get "epic" position) ;;
  direction <- lift (get "direction" position) ;;
  level_ <- lift (get_default "level" (JInt 0) position) ;;
  entry_price <- lift (float_ rt level_) ;;
  missing <- lift (PyOps.lacks "limitLevel" position) ;;
  if missing then
    logging INFO "Found position without TP" ;;
    found <- Bot1.get_min_distance rt symbol ;;
    let min_distance := match found with Some distance => distance | None => 1%float end in
    let tp := Bot1.take_profit_after_open direction entry_price min_distance in
    set_take_profit_by_deal_id deal_id tp cst x_security ;;
    ret tt
  else ret tt.

Fixpoint fix_positions (cst x_security : option string) (positions : list jval) : M unit :=
  match positions with
  | [] => ret tt
  | position :: rest =>
      fix_position cst x_security position ;; fix_positions cst x_security rest
  end.

(** [fix_missing_take_profits()]. *)
Definition fix_missing_take_profits : M unit :=
  tokens <- Bot1.authenticate rt ;;
  let '(cst, x_security) := tokens in
  if no_tokens cst x_security
  then logging ERROR "Authentication failed. Cannot fix take profits." else
  try_except
    (response <- session_send Bot1.create_session
                   (mk_request "GET" (Bot1.CAPITAL_API_URL ++ "/positions") None) ;;
     if status_code response =? 200 then
       positions <- listed_positions response ;;
       fix_positions cst x_security positions
     else Bot1.log_failure "Failed to fetch positions")
    (fun _ => logging ERROR "Fix take profits exception").

(** The [deal_id] the loop over [affectedDeals] leaves: the [dealId] of
    the first deal whose status is OPENED, [None] without one. *)
Fixpoint opened_deal (deals : list jval) : result jval :=
  match deals with
  | [] => Return JNull
  | deal :: rest =>
      match get "status" deal with
      | Raise e => Raise e
      | Return status => if eq_str status "OPENED" then get "dealId" deal else opened_deal rest
      end
  end.

(** [symbol], [price] and [direction] of a confirmation, when all three
    pass the test [symbol and price > 0 and direction]. *)
Definition confirmed_entry (position_data : jval) : result (option (jval * float * jval)) :=
  match get "epic" position_data with
  | Raise e => Raise e
  | Return symbol =>
  match get_default "level" (JInt 0) position_data with
  | Raise e => Raise e
  | Return level_ =>
  match float_ rt level_ with
  | Raise e => Raise e
  | Return price =>
  match get "direction" position_data with
  | Raise e => Raise e
  | Return direction =>
      if truthy symbol && PyFloat.gtb price 0 && truthy direction
      then Return (Some (symbol, price, direction))
      else Return None
  end end end end.

(** The part of the [try] of [verify_position] that follows the
    assignment of [position_data]. *)
Definition inspect_confirmation (position_data : jval) (cst x_security : option string)
    : M unit :=
  listed <- lift (contains "affectedDeals" position_data) ;;
  deals <- (if listed then lift (item "affectedDeals" position_data) else ret JNull) ;;
  deal_id <- (if listed && truthy deals
              then (l <- lift (iter_ deals) ;; lift (opened_deal l))
              else ret JNull) ;;
  deal_id <- (if negb (truthy deal_id) then lift (get "dealId" position_data)
              else ret deal_id) ;;
  if truthy deal_id then
    full_position <- get_position_details deal_id cst x_security ;;
    match full_position with
    | None => ret tt
    | Some full_position =>
        if negb (truthy full_position) then ret tt else
        has_tp <- lift (contains "limitLevel" full_position) ;;
        (if has_tp then logging INFO "Take Profit confirmed" else
           logging WARNING "Take Profit not found in position data" ;;
           entry <- lift (confirmed_entry position_data) ;;
           match entry with
           | Some (symbol, price, direction) =>
               set_take_profit_after_open deal_id symbol price direction cst x_security ;;
               ret tt
           | None => ret tt
           end) ;;
        has_sl <- lift (contains "stopLevel" full_position) ;;
        if has_sl then logging INFO "Stop Loss confirmed"
        else logging WARNING "Stop Loss not found in position data"
    end
  else
    has_tp <- lift (contains "limitLevel" position_data) ;;
    (if has_tp then logging INFO "Take Profit confirmed" else
       logging WARNING "Take Profit not found in position data" ;;
       entry <- lift (confirmed_entry position_data) ;;
       match entry with
       | Some (symbol, price, direction) =>
           let tp :=
             PyFloat.round2
               (price * (if eq_str direction "SELL" then 0.995 else 1.005))%float in
           update_take_profit symbol tp cst x_security
       | None => ret tt
       end) ;;
    has_sl <- lift (contains "stopLevel" position_data) ;;
    if has_sl then logging INFO "Stop Loss confirmed"
    else logging WARNING "Stop Loss not found in position data".

(** [verify_position(deal_reference, cst, x_security)].  The function ends
    in [return position_data], after the [try]: the name is bound only once
    the confirmation has been answered with 200 and parsed, so the inner
    computation returns the value when it is bound, and an exception after
    the binding is answered by the same handler without undoing it. *)
Definition verify_position (deal_reference : jval) (cst x_security : option string)
    : M jval :=
  time_sleep 2%float ;;
  bound <-
    try_except
      (response <- session_send Bot1.create_session
                     (mk_request "GET"
                        (Bot1.CAPITAL_API_URL ++ "/confirms/" ++ str_ rt deal_reference)
                        None) ;;
       if status_code response =? 200 then
         position_data <- response_json response ;;
         try_except (inspect_confirmation position_data cst x_security)
           (fun _ => logging ERROR "Position verification exception") ;;
         ret (Some position_data)
       else Bot1.log_failure "Failed to verify position" ;; ret None)
      (fun _ => logging ERROR "Position verification exception" ;; ret None) ;;
  match bound with
  | Some position_data => ret position_data
  | None => raise UnboundLocalError
  end.

(** [get_working_orders()]. *)
Definition get_working_orders : M jval :=
  tokens <- Bot1.authenticate rt ;;
  let '(cst, x_security) := tokens in
  if no_tokens cst x_security then ret (JDict []) else
  try_except
    (response <- session_send Bot1.create_session
                   (mk_request "GET" (Bot1.CAPITAL_API_URL ++ "/workingorders") None) ;;
     if status_code response =? 200 then response_json response
     else logging ERROR "Failed to fetch working orders" ;; ret (JDict []))
    (fun _ => logging ERROR "Exception fetching working orders" ;; ret (JDict [])).

(** [create_take_profit_order(deal_id, position)]. *)
Definition create_take_profit_order (deal_id position : jval) : M unit :=
  direction <- lift (get "direction" position) ;;
  raw <- lift (get "level" position) ;;
  level_ <- lift (float_ rt raw) ;;
  let tp_level :=
    PyFloat.round2 (level_ * (if eq_str direction "BUY" then 1.02 else 0.98))%float in
  epic <- lift (get "epic" position) ;;
  let order_data :=
    JDict [("epic", epic); ("dealId", deal_id);
           ("direction", JStr (if eq_str direction "BUY" then "SELL" else "BUY"));
           ("level", JFloat tp_level); ("type", JStr "LIMIT");
           ("timeInForce", JStr "GOOD_TILL_CANCELLED")] in
  tokens <- Bot1.authenticate rt ;;
  let '(cst, x_security) := tokens in
  if no_tokens cst x_security
  then logging ERROR "Authentication failed. Cannot create take profit order." else
  try_except
    (response <- session_send Bot1.create_session
                   (mk_request "POST" (Bot1.CAPITAL_API_URL ++ "/workingorders")
                      (Some order_data)) ;;
     if status_code response =? 200
     then logging INFO "Take Profit order created"
     else (response_json response ;; logging ERROR "Failed to create Take Profit order"))
    (fun _ => logging ERROR "Exception creating take profit order").

(** The loop of [verify_position_and_orders] over the working orders:
    whether a LIMIT order of the deal is among them. *)
Fixpoint tp_order_found (deal_id : jval) (orders : list jval) : result bool :=
  match orders with
  | [] => Return false
  | order :: rest =>
      match get "dealId" order, get "parentDealId" order, get "orderType" order with
      | Return own, Return parent, Return order_type =>
          if (PyOps.eq_ own deal_id || PyOps.eq_ parent deal_id) && eq_str order_type "LIMIT"
          then Return true
          else tp_order_found deal_id rest
      | Raise e, _, _ => Raise e
      | _, Raise e, _ => Raise e
      | _, _, Raise e => Raise e
      end
  end.

(** [verify_position_and_orders(deal_reference, cst, x_security)]; it has
    no handler of its own. *)
Definition verify_position_and_orders (deal_reference : jval)
    (cst x_security : option string) : M unit :=
  position_response <- verify_position deal_reference cst x_security ;;
  listed <- (if truthy position_response
             then lift (contains "affectedDeals" position_response)
             else ret false) ;;
  if listed then
    deals <- lift (item "affectedDeals" position_response) ;;
    first <- lift (PyOps.index0 deals) ;;
    deal_id <- lift (item "dealId" first) ;;
    working_orders <- get_working_orders ;;
    orders <- lift (get_default "workingOrders" (JList []) working_orders) ;;
    orders <- lift (iter_ orders) ;;
    found <- lift (tp_order_found deal_id orders) ;;
    if found then logging INFO "Take Profit order found for position"
    else logging WARNING "No Take Profit order found for position, creating one..." ;;
         create_take_profit_order deal_id position_response
  else ret tt.

(** [verify_tp(deal_id, tp_price)]. *)
Definition verify_tp (deal_id : jval) (tp_price : float) : M unit :=
  tokens <- Bot1.authenticate rt ;;
  let '(cst, x_security) := tokens in
  if no_tokens cst x_security then ret tt else
  try_except
    (response <- session_send Bot1.create_session
                   (mk_request "GET"
                      (Bot1.CAPITAL_API_URL ++ "/positions/" ++ str_ rt deal_id) None) ;;
     if status_code response =? 200 then
       position <- response_json response ;;
       missing <- lift (PyOps.lacks "profitLevel" position) ;;
       if missing
       then logging WARNING "No Take Profit found, creating one..." ;;
            Bot1.update_tp rt deal_id (JFloat tp_price)
       else ret tt
     else Bot1.log_failure "Failed to verify TP")
    (fun _ => logging ERROR "Verify TP exception").

(** [trade_action] with the verification chain of the module. *)
Definition trade_action : jval -> jval -> PyFloat.kind -> float -> string -> M unit :=
  Bot1.trade_action rt verify_position_and_orders verify_tp.

End WithRuntime.
End Bot1Verification.

(** ** api_client.py: the calls built on [_make_request] *)

Module ApiClientCalls.
Import Py.

(** [response and response.status_code == 200]: a [Response] is true when
    its status is below 400. *)
Definition answered_200 (response : option response) : bool :=
  match response with
  | Some r => (status_code r <? 400) && (status_code r =? 200)
  | None => false
  end.

Section Interpreter.
Variable stack_overflow : M unit.

#[local] Abbreviation _make_request := (ApiClient._make_request stack_overflow).

Section WithRuntime.
Variable rt : runtime.

(** [get_market_price(symbol)]: the mean of bid and ask of the first
    entry of [prices], or [None]. *)
Definition get_market_price (depth : nat) (self : ApiClient.CapitalComClient)
    (symbol : string) : M (option float) :=
  try_except
    (response <- _make_request depth self "GET" ("/prices/" ++ symbol) None ;;
     match response with
     | Some r =>
         if answered_200 response then
           price_data <- response_json r ;;
           listed <- lift (contains "prices" price_data) ;;
           prices <- (if listed then lift (item "prices" price_data) else ret JNull) ;;
           if listed && truthy prices then
             latest_price <- lift (PyOps.index0 prices) ;;
             bid <- lift (item "bid" latest_price) ;;
             bid <- lift (float_ rt bid) ;;
             ask <- lift (item "ask" latest_price) ;;
             ask <- lift (float_ rt ask) ;;
             ret (Some ((bid + ask) / 2)%float)
           else logging ERROR "No price data found" ;; ret None
         else logging ERROR "Failed to get price" ;; ret None
     | None => logging ERROR "Failed to get price" ;; ret None
     end)
    (fun _ => logging ERROR "Error getting market price" ;; ret None).

End WithRuntime.

(** [get_positions()]: the parsed answer, or [[]]. *)
Definition get_positions (depth : nat) (self : ApiClient.CapitalComClient) : M jval :=
  try_except
    (response <- _make_request depth self "GET" "/positions" None ;;
     match response with
     | Some r =>
         if answered_200 response then response_json r
         else logging ERROR "Failed to get positions" ;; ret (JList [])
     | None => logging ERROR "Failed to get positions" ;; ret (JList [])
     end)
    (fun _ => logging ERROR "Error getting positions" ;; ret (JList [])).

(** [close_position(position_id)]. *)
Definition close_position (depth : nat) (self : ApiClient.CapitalComClient)
    (position_id : string) : M bool :=
  try_except
    (response <- _make_request depth self "DELETE"
                   ("/positions/" ++ position_id) None ;;
     if answered_200 response
     then logging INFO "Position closed successfully" ;; ret true
     else logging ERROR "Failed to close position" ;; ret false)
    (fun _ => logging ERROR "Error closing position" ;; ret false).

End Interpreter.
End ApiClientCalls.

(** ** bot3.py: the execution of a signal *)

Module Bot3Trading.
Import Py.

(** An entry of [active_positions]. *)
Record active_position : Type := mk_active_position {
  ap_direction : string;
  ap_quantity : float;
  ap_entry_price : float
}.

(** A line of [trades.log], without its timestamp. *)
Record trade_details : Type := mk_trade_details {
  td_symbol : string;
  td_action : string;
  td_quantity : float;
  td_price : float;
  td_reason : string
}.

(** [TradingBot]: the client, the strategy and the trade state; the lines
    appended to [trades.log] are kept with it. *)
Record TradingBot : Type := mk_bot {
  api_client : ApiClient.CapitalComClient;
  strategy : Strategies.TrendFollowingStrategy;
  last_trade_time : gmap string float;
  active_positions : gmap string active_position;
  trades_log : list trade_details
}.

(** The assignments of [execute_trade] after an order that went
    through. *)
Definition record_trade (self : TradingBot) (symbol : string) (signal : Strategies.signal)
    (price current_time : float) : TradingBot :=
  {| api_client := api_client self;
     strategy :=
       Strategies.update_position (strategy self) symbol (Strategies.action signal)
         (Strategies.quantity signal);
     last_trade_time := <[symbol := current_time]> (last_trade_time self);
     active_positions :=
       if String.eqb (Strategies.action signal) "BUY"
       then <[symbol := mk_active_position "BUY" (Strategies.quantity signal) price]>
              (active_positions self)
       else delete symbol (active_positions self);
     trades_log :=
       (trades_log self
        ++ [mk_trade_details symbol (Strategies.action signal) (Strategies.quantity signal)
              price (Strategies.reason signal)])%list |}.

Section WithRuntime.
Variable rt : runtime.
Variable stack_overflow : M unit.

(** [execute_trade(symbol, signal)], on the signal with the price
    [monitor_trades] has added to it; the bot it leaves is returned. *)
Definition execute_trade (depth : nat) (self : TradingBot) (symbol : string)
    (signal : option (Strategies.signal * float)) : M TradingBot :=
  try_except
    (match signal with
     | None => ret self
     | Some (signal, price) =>
         current_time <- time_time ;;
         let too_soon :=
           match last_trade_time self !! symbol with
           | Some last => PyFloat.ltb (current_time - last)%float Bot3.TRADE_INTERVAL
           | None => false
           end in
         if too_soon
         then logging INFO "Skipping trade, too soon since last trade" ;; ret self else
         logging INFO "Executing trade" ;;
         logging INFO "Trade details" ;;
         result <- ApiClient.place_market_order stack_overflow depth (api_client self) symbol
                     (if String.eqb (Strategies.action signal) "BUY" then "BUY" else "SELL")
                     (str_ rt (JFloat (Strategies.quantity signal))) ;;
         match result with
         | Some data =>
             if truthy data then
               logging INFO "Trade executed successfully" ;;
               ret (record_trade self symbol signal price current_time)
             else logging ERROR "Trade execution failed" ;; ret self
         | None => logging ERROR "Trade execution failed" ;; ret self
         end
     end)
    (fun _ => logging ERROR "Error executing trade" ;; ret self).

End WithRuntime.
End Bot3Trading.

(** ** Concrete runs *)

Module Fixtures.
Import Py.

(** A runtime for concrete runs: no string parses as a float, and every
    [random.uniform(0.1, 0.5)] draws 0.25. *)
Definition runtime0 : runtime :=
  {| float_of_str := fun _ => None; repr_ := fun _ => ""; uniform_01_05 := 0.25%float |}.

Definition no_verification : jval -> option string -> option string -> M unit :=
  fun _ _ _ => ret tt.
Definition no_verify_tp : jval -> float -> M unit := fun _ _ => ret tt.

(** A world at time 0 with fresh session tokens, nothing sent, nothing
    logged, and the given replies of the broker. *)
Definition world0 (replies : list (string * string * list reply)) : world :=
  {| broker := list_to_map replies;
     sent := [];
     log := [];
     clock := 0%float;
     threads := [];
     auth_tokens := Some (Some "CST", Some "TOKEN", 600%float);
     min_distance := ∅;
     market_data := ∅ |}.

Definition ok (body : jval) : reply :=
  Reply {| status_code := 200; headers := []; json := Some body |}.
Definition failed (code : Z) : reply :=
  Reply {| status_code := code; headers := []; json := None |}.

Definition position (deal_id epic direction : string) (level_ : jval)
    (tp : list (string * jval)) : jval :=
  JDict ([("dealId", JStr deal_id); ("epic", JStr epic); ("direction", JStr direction);
          ("level", level_)] ++ tp).

(** Stand-ins for the callees of bot4's loop: an authentication that
    succeeds, a latest price of 100.2 for every symbol, a stop-loss update
    that only logs, a trade execution that only logs. *)
Definition authenticated : M (option string * option string) :=
  ret (Some "CST", Some "TOKEN").
Definition latest_price : jval -> M float := fun _ => ret 100.2%float.
Definition stop_loss_logged : jval -> float -> M unit :=
  fun _ _ => logging INFO "SL Updated".
Definition trade_logged : jval -> jval -> float -> string -> M unit :=
  fun _ _ _ _ => logging INFO "trade_action".

(** Five open BUY positions; the third has no [profitLevel]. *)
Definition five_positions : list jval :=
  [position "D1" "BTCUSD" "BUY" (JInt 100) [("profitLevel", JFloat 100.2)];
   position "D2" "ETHUSD" "BUY" (JInt 200) [("profitLevel", JFloat 200.5)];
   position "D3" "XRPUSD" "BUY" (JInt 50) [];
   position "D4" "LTCUSD" "BUY" (JInt 80) [("profitLevel", JFloat 80.1)];
   position "D5" "ADAUSD" "BUY" (JInt 10) [("profitLevel", JFloat 10.01)]].

(** A broker that lists [trades] as the open positions and accepts a
    take-profit update for each of the symbols. *)
Definition listing (url : string) (trades : list jval) (symbols : list string)
    : list (string * string * list reply) :=
  ("GET", url ++ "/positions", [ok (JDict [("positions", JList trades)])])
  :: map (fun s => ("PUT", url ++ "/positions/" ++ s, [ok (JDict [])])) symbols.

Definition GET (url : string) : request := mk_request "GET" url None.
Definition PUT (url : string) (body : list (string * jval)) : request :=
  mk_request "PUT" url (Some (JDict body)).

(** A world with fresh tokens and a cached minimum distance of 0.3 for
    BTCUSD. *)
Definition ready (replies : list (string * string * list reply)) : world :=
  set_min_distance {[ "BTCUSD" := (0.3%float, 3600%float) ]} (world0 replies).

Definition status_only (code : Z) : response :=
  {| status_code := code; headers := []; json := None |}.

(** Indicator functions for concrete runs: the same arrays whatever the
    prices. *)
Definition constant_atr (atr : list float)
    : list float -> list float -> list float -> result (list float) :=
  fun _ _ _ => Return atr.
Definition constant_rsi (rsi : list float) : list float -> result (list float) :=
  fun _ => Return rsi.

(** Moving averages that cross at the tick with [n] prices: the short one
    is above the long one at the last index of that tick only. *)
Definition averages_crossing_at (n : nat) : list float -> result (list float * list float) :=
  fun prices =>
    if (length prices =? n)%nat
    then Return ([1; 3]%float, [2; 2]%float)
    else Return ([1; 1]%float, [2; 2]%float).

(** A client with credentials, and the frames the interpreter allows by
    default. *)
Definition client : ApiClient.CapitalComClient :=
  {| ApiClient.identifier := "user";
     ApiClient.password := Some "secret";
     ApiClient.base_url := ApiClient.BASE_URL |}.
Definition recursion_limit : nat := 1000.

(** A stack that runs out on entry of the call that does not fit. *)
Definition on_entry : M unit := ret tt.

(** A stack that runs out after the call that does not fit has sent its
    request. *)
Definition after_request (rq : request) : M unit := transmit rq ;; ret tt.

(** A world like [world0] without session tokens. *)
Definition signed_out (replies : list (string * string * list reply)) : world :=
  set_auth_tokens None (world0 replies).

(** A bot that has not traded yet. *)
Definition bot0 : Bot3Trading.TradingBot :=
  {| Bot3Trading.api_client := client;
     Bot3Trading.strategy := Strategies.init;
     Bot3Trading.last_trade_time := ∅;
     Bot3Trading.active_positions := ∅;
     Bot3Trading.trades_log := [] |}.

Definition buy_signal (quantity : float) : Strategies.signal :=
  Strategies.mk_signal "BUY" quantity "SMA crossover with RSI confirmation".

(** The broker's answer to a session request it grants; the names of its
    headers arrive in lower case, as they do over HTTP/2. *)
Definition session_granted : response :=
  {| status_code := 200;
     headers := [("cst", "cst-1"); ("x-security-token", "token-1")];
     json := Some (JDict []) |}.

End Fixtures.

(** ** What a run shows *)

Module Observed.
Import Py.

(** The requests that place an order with bot1: the [POST]s to
    [/positions]. *)
Definition is_order (rq : request) : bool :=
  String.eqb (rq_method rq) "POST"
  && String.eqb (rq_url rq) (Bot1.CAPITAL_API_URL ++ "/positions").

Definition orders (w : world) : nat := length (List.filter is_order (sent w)).

(** The number of times a line was logged. *)
Definition logged (l : level) (msg : string) (w : world) : nat :=
  length (List.filter
            (fun e => match fst e, l with
                      | INFO, INFO | WARNING, WARNING | ERROR, ERROR => String.eqb (snd e) msg
                      | _, _ => false
                      end) (log w)).

(** The number of times a request was sent. *)
Definition sent_to (method url : string) (w : world) : nat :=
  length (List.filter
            (fun rq => String.eqb (rq_method rq) method && String.eqb (rq_url rq) url)
            (sent w)).

(** The number of times [_make_request] found the session expired. *)
Definition refreshes (w : world) : nat :=
  logged INFO "Token expired, refreshing authentication..." w.

(** The number of calls of [_authenticate] a world shows.  Every call
    leaves one trace that a request to another endpoint does not leave:
    with a password, its [POST] to [/session]; without one, its line
    'Failed to generate signature'. *)
Definition authentications (self : ApiClient.CapitalComClient) (w : world) : nat :=
  match ApiClient.password self with
  | Some _ => sent_to "POST" (ApiClient.base_url self ++ "/session") w
  | None => logged ERROR "Failed to generate signature" w
  end.

(** What a step that is neither an exchange at [method], [url] nor the
    refresh of the session leaves as it is: the replies waiting there, the
    number of requests sent there, the number of refreshes. *)
Definition untouched (method url : string) (w w' : world) : Prop :=
  broker w' !! (method, url) = broker w !! (method, url)
  /\ sent_to method url w' = sent_to method url w
  /\ refreshes w' = refreshes w.

Definition framed (method url : string) {A : Type} (c : M A) : Prop :=
  forall w, untouched method url w (snd (c w)).

(** A computation that sends at most [n] requests to [method], [url]. *)
Definition at_most (n : nat) (method url : string) {A : Type} (c : M A) : Prop :=
  forall w, (sent_to method url (snd (c w)) <= sent_to method url w + n)%nat.

(** bot3 keeps two books of its open positions, the strategy's and its
    own [active_positions]: they agree when they hold the same symbols
    with the same quantities. *)
Definition books_agree (self : Bot3Trading.TradingBot) : Prop :=
  forall symbol,
    Strategies.positions (Bot3Trading.strategy self) !! symbol
    = Bot3Trading.ap_quantity <$> (Bot3Trading.active_positions self !! symbol).

End Observed.

(** * Properties *)

Import Py.

(** ** Rounding *)

(** [round2] on values whose [round(x, 2)] in CPython is known: the binary
    value of 2.675 and of 1.005 lies below the decimal, 0.125 and 0.375 are
    exact ties and go to the even digit, and [100 * 1.005] is
    100.49999999999999. *)
Example round2_below_half :
  PyFloat.round2 2.675 = 2.67%float /\ PyFloat.round2 1.005 = 1%float.
Proof. split; vm_compute; reflexivity. Qed.

Example round2_ties_to_even :
  PyFloat.round2 0.125 = 0.12%float /\ PyFloat.round2 0.375 = 0.38%float.
Proof. split; vm_compute; reflexivity. Qed.

Example round2_keeps_sign_and_specials :
  PyFloat.round2 (-0.001) = (-0)%float /\ PyFloat.round2 infinity = infinity
  /\ PrimFloat.is_nan (PyFloat.round2 nan) = true /\ PyFloat.round2 1e22 = 1e22%float.
Proof. repeat split; vm_compute; reflexivity. Qed.

Example round2_of_product :
  (100 * 1.005)%float = 100.49999999999999%float
  /\ PyFloat.round2 (100 * 1.005) = 100.5%float.
Proof. split; vm_compute; reflexivity. Qed.

(** numpy rounds a [float64] to two places by scaling, [rint] and scaling
    back; the scaled value [x * 100] is itself rounded to a binary value, so
    an [x] just below a half cent can become a tie and go up where [round2]
    goes down. *)
Example numpy_round2_of_product :
  (11 * 1.005)%float = 11.055%float
  /\ (11.055 * 100)%float = 1105.5%float
  /\ PyFloat.round2 11.055 = 11.05%float
  /\ PyFloat.numpy_round2 11.055 = 11.06%float
  /\ PyFloat.numpy_round2 0.125 = 0.12%float
  /\ PyFloat.numpy_round2 (-0.001) = (-0)%float.
Proof. repeat split; vm_compute; reflexivity. Qed.

(** ** Headers of a response *)

(** The name of a header is looked up without regard to case, and fields
    of the same name are joined. *)
Example header_get_ignores_case :
  header_get "CST" [("cst", "a")] = Some "a"
  /\ header_get "X-SECURITY-TOKEN"
       [("x-security-token", "t"); ("Content-Type", "text/plain");
        ("X-Security-Token", "u")]
     = Some "t, u"
  /\ header_get "CST" [("X-CST", "a")] = None.
Proof. repeat split; vm_compute; reflexivity. Qed.

(** ** Protective levels (bot1.py) *)

(** C1.  For a BUY at reference price [p] with minimum distance [d] the
    take-profit is [round(p * 1.005, 2)] and the stop-loss
    [round(p * 0.995, 2)], for a SELL the factors are swapped; a level
    closer to [p] than [d] is replaced by [round(p + d, 2)] on the
    profitable side of a BUY and [round(p - d, 2)] on the other (the signs
    of [d] swapped for a SELL).  This holds for both kinds of price, each
    with its own [round]: Python's for the float of the webhook and of the
    monitoring loop, numpy's for the [numpy.float64] of [main].
    [set_take_profit_after_open], whose entry price is a Python float,
    computes the same take-profit.  A BUY at 100 has its take-profit at
    100.5 with [d = 0.3] and at 102 with [d = 2], for both kinds; at 11 the
    two kinds round [11 * 1.005] to different cents. *)
Theorem protective_levels_spec (k : PyFloat.kind) (p d : float) :
  let round := PyFloat.round2_as k in
  Bot1.protective_levels k (JStr "BUY") p d =
    (let tp := round (p * 1.005) in
     if PyFloat.ltb (abs (tp - p)) d then round (p + d) else tp,
     let sl := round (p * 0.995) in
     if PyFloat.ltb (abs (sl - p)) d then round (p - d) else sl)%float
  /\ Bot1.protective_levels k (JStr "SELL") p d =
    (let tp := round (p * 0.995) in
     if PyFloat.ltb (abs (tp - p)) d then round (p + - d) else tp,
     let sl := round (p * 1.005) in
     if PyFloat.ltb (abs (sl - p)) d then round (p - - d) else sl)%float
  /\ PyFloat.round2_as PyFloat.builtin p = PyFloat.round2 p
  /\ PyFloat.round2_as PyFloat.numpy p = (PyFloat.rint (p * 100) / 100)%float
  /\ Bot1.take_profit_after_open (JStr "BUY") p d
     = fst (Bot1.protective_levels PyFloat.builtin (JStr "BUY") p d)
  /\ Bot1.take_profit_after_open (JStr "SELL") p d
     = fst (Bot1.protective_levels PyFloat.builtin (JStr "SELL") p d)
  /\ Bot1.protective_levels k (JStr "BUY") 100 0.3 = (100.5, 99.5)%float
  /\ Bot1.protective_levels k (JStr "BUY") 100 2 = (102, 98)%float
  /\ Bot1.protective_levels k (JStr "SELL") 100 0.3 = (99.5, 100.5)%float
  /\ Bot1.protective_levels k (JStr "SELL") 100 2 = (98, 102)%float
  /\ Bot1.protective_levels PyFloat.builtin (JStr "BUY") 11 0.01 = (11.05, 10.95)%float
  /\ Bot1.protective_levels PyFloat.numpy (JStr "BUY") 11 0.01 = (11.06, 10.94)%float.
Proof.
  cbv zeta. repeat split; try reflexivity; destruct k; vm_compute; reflexivity.
Qed.

(** ** The monitoring loop (bot1.py, bot4.py) *)

Section Monitor.
Variable rt : runtime.
Variable verify_position_and_orders : jval -> option string -> option string -> M unit.
Variable verify_tp : jval -> float -> M unit.

#[local] Abbreviation trade_action :=
  (Bot1.trade_action rt verify_position_and_orders verify_tp).
#[local] Abbreviation monitor_position :=
  (Bot1.monitor_position rt verify_position_and_orders verify_tp).
#[local] Abbreviation monitor_positions :=
  (Bot1.monitor_positions rt verify_position_and_orders verify_tp).
#[local] Abbreviation monitor_trades_pass :=
  (Bot1.monitor_trades_pass rt verify_position_and_orders verify_tp).

(** C2.  bot1's loop decides to raise the take-profit of a BUY position
    entered at 100 from 100.2 to 100.5, and the update never leaves the
    process: [trade_action] calls the two-parameter [update_tp] with four
    arguments, the [TypeError] is answered by the handler of the position,
    and the only request of the pass is the listing of the positions. *)
Theorem bot1_ratchet_update_is_lost :
  let trade :=
    Fixtures.position "D1" "BTCUSD" "BUY" (JInt 100) [("limitLevel", JFloat 100.2)] in
  let w := Fixtures.world0 (Fixtures.listing Bot1.CAPITAL_API_URL [trade] ["D1"; "BTCUSD"]) in
  let r := monitor_trades_pass w in
  PyFloat.round2 (100 * (1 + Bot1.TP_MOVE_PERCENT)) = 100.5%float
  /\ PyFloat.gtb 100.5 100.2 = true
  /\ fst (trade_action (JStr "BTCUSD") (JStr "UPDATE_TP") PyFloat.builtin 100.5 "" w)
     = Raise TypeError
  /\ fst r = Return tt
  /\ sent (snd r) = [Fixtures.GET (Bot1.CAPITAL_API_URL ++ "/positions")]
  /\ log (snd r) = [(INFO, "Updating TP"); (ERROR, "Error processing position")].
Proof.
  repeat split; vm_compute; reflexivity.
Qed.

Lemma bot1_monitor_positions_cons (trade : jval) (rest : list jval) (w : world) :
  monitor_positions (trade :: rest) w
  = match monitor_position trade w with
    | (Return _, w') => monitor_positions rest w'
    | (Raise e, w') => (Raise e, w')
    end.
Proof. reflexivity. Qed.

(** A position that is a JSON object never makes bot1's loop raise: the
    handler of the loop answers every exception. *)
Lemma bot1_monitor_position_returns (d : list (string * jval)) (w : world) :
  fst (monitor_position (JDict d) w) = Return tt.
Proof.
  unfold Bot1.monitor_position, try_except.
  destruct (Bot1.adjust_take_profit _ _ _ _ w) as [[[]|e] w1]; reflexivity.
Qed.

Lemma bot1_monitor_positions_return (trades : list jval) (w : world) :
  Forall (fun t => exists d, t = JDict d) trades ->
  fst (monitor_positions trades w) = Return tt.
Proof.
  intros H. revert w. induction H as [|t trades [d ->] _ IH]; intros w.
  - reflexivity.
  - rewrite bot1_monitor_positions_cons.
    pose proof (bot1_monitor_position_returns d w) as R.
    destruct (monitor_position (JDict d) w) as [[[]|e] w1].
    + apply IH.
    + discriminate R.
Qed.

(** X25.  bot1's loop isolates a failing position: whatever happens to a
    position that is a JSON object, after positions that are JSON objects,
    the positions after it are processed, in the world it leaves. *)
Lemma bot1_monitor_isolates (before after : list jval) (bad : list (string * jval))
    (w : world) :
  Forall (fun t => exists d, t = JDict d) before ->
  monitor_positions (before ++ JDict bad :: after) w
  = monitor_positions after
      (snd (monitor_position (JDict bad) (snd (monitor_positions before w)))).
Proof.
  intros H. revert w. induction H as [|t before [d ->] _ IH]; intros w.
  - cbn [app]. rewrite bot1_monitor_positions_cons.
    pose proof (bot1_monitor_position_returns bad w) as R.
    cbn [Bot1.monitor_positions ret snd].
    destruct (monitor_position (JDict bad) w) as [[[]|e] w1].
    + reflexivity.
    + discriminate R.
  - cbn [app]. rewrite !bot1_monitor_positions_cons.
    pose proof (bot1_monitor_position_returns d w) as R.
    destruct (monitor_position (JDict d) w) as [[[]|e] w1].
    + apply IH.
    + discriminate R.
Qed.
End Monitor.

(** C7.  bot4's loop has no handler: with five open positions of which the
    third has no [profitLevel], the pass updates the first two and ends in
    the [KeyError] of the third; the fourth and the fifth are not
    processed. *)
Theorem bot4_pass_aborts_on_third_position (rt : runtime) :
  let w := Fixtures.world0
             (Fixtures.listing Bot4.CAPITAL_API_URL Fixtures.five_positions
                ["BTCUSD"; "ETHUSD"; "XRPUSD"; "LTCUSD"; "ADAUSD"]) in
  let r := Bot4.monitor_trades_pass rt Fixtures.authenticated Fixtures.latest_price
             Fixtures.stop_loss_logged w in
  fst r = Raise (KeyError "profitLevel")
  /\ sent (snd r)
     = [Fixtures.GET (Bot4.CAPITAL_API_URL ++ "/positions");
        Fixtures.PUT (Bot4.CAPITAL_API_URL ++ "/positions/BTCUSD")
          [("limitLevel", JFloat 100.5)];
        Fixtures.PUT (Bot4.CAPITAL_API_URL ++ "/positions/ETHUSD")
          [("limitLevel", JFloat 201)]].
Proof.
  split; vm_compute; reflexivity.
Qed.

(** X26.  bot4's loop has no handler: once a position raises, the pass is
    over; its outcome is the exception and the world of the failing
    position, whatever positions follow it. *)
Lemma bot4_failure_skips_the_rest (rt : runtime)
    (authenticate : M (option string * option string))
    (get_latest_price : jval -> M float) (set_stop_loss : jval -> float -> M unit)
    (before after : list jval) (bad : jval) (e : exn) (w : world) :
  let adjust_positions :=
    Bot4.adjust_positions rt authenticate get_latest_price set_stop_loss in
  let adjust_position :=
    Bot4.adjust_position rt authenticate get_latest_price set_stop_loss in
  fst (adjust_positions before w) = Return tt ->
  fst (adjust_position bad (snd (adjust_positions before w))) = Raise e ->
  adjust_positions (before ++ bad :: after)%list w
  = (Raise e, snd (adjust_position bad (snd (adjust_positions before w)))).
Proof.
  intros adjust_positions adjust_position. subst adjust_positions adjust_position.
  revert w. induction before as [|trade before IH]; intros w Hbefore Hbad.
  - cbn [app Bot4.adjust_positions ret snd] in *. unfold bind.
    destruct (Bot4.adjust_position _ _ _ _ bad w) as [[[]|e'] w1]; cbn [fst snd] in *;
      [discriminate Hbad|congruence].
  - cbn [app Bot4.adjust_positions] in *. unfold bind in *.
    destruct (Bot4.adjust_position _ _ _ _ trade w) as [[[]|e'] w1]; cbn [fst snd] in *;
      [apply IH; assumption|discriminate Hbefore].
Qed.

(** bot4's loop does not look at the direction: the take-profit of a SELL
    position entered at 100, at 99.5, is moved up to 100.5. *)
Lemma bot4_ratchet_ignores_direction (rt : runtime) :
  let trade :=
    Fixtures.position "D9" "BTCUSD" "SELL" (JInt 100) [("profitLevel", JFloat 99.5)] in
  let w := Fixtures.world0 (Fixtures.listing Bot4.CAPITAL_API_URL [trade] ["BTCUSD"]) in
  let r := Bot4.adjust_position rt Fixtures.authenticated Fixtures.latest_price
             Fixtures.stop_loss_logged trade w in
  fst r = Return tt
  /\ sent (snd r)
     = [Fixtures.PUT (Bot4.CAPITAL_API_URL ++ "/positions/BTCUSD")
          [("limitLevel", JFloat 100.5)]].
Proof.
  split; vm_compute; reflexivity.
Qed.

(** ** The retrying session *)

Section Session.
Variable cfg : Retry.
Variable rq : request.

#[local] Abbreviation endpoint := (rq_method rq, rq_url rq).

(** Replies with a status of [status_forcelist] to a method of
    [allowed_methods] are answered by sending the request again: with
    [rs] such replies in front of [final], and at least as many retries
    left, the request is sent [1 + length rs] times and [final] is
    returned. *)
Lemma send_with_retries_resends (rs : list response) :
  forall (left : nat) (w : world) (final : response) (rest : list reply),
  is_allowed cfg (rq_method rq) = true ->
  Forall (fun r => in_forcelist cfg (status_code r) = true) rs ->
  in_forcelist cfg (status_code final) = false ->
  (length rs <= left)%nat ->
  broker w !! endpoint = Some (map Reply rs ++ Reply final :: rest)%list ->
  send_with_retries cfg left rq w
  = (Return final,
     set_broker (<[endpoint := rest]> (broker w))
       (set_sent (sent w ++ repeat rq (S (length rs)))%list w)).
Proof.
  induction rs as [|r rs IH]; intros left w final rest Hm Hrs Hfinal Hlen Hb.
  - destruct left; cbn [send_with_retries]; unfold bind, transmit;
      rewrite Hb; cbn [map app]; rewrite Hm, Hfinal; reflexivity.
  - destruct left as [|left]; [cbn in Hlen; lia|].
    inversion Hrs as [|? ? Hr Hrs']; subst.
    cbn [send_with_retries]. unfold bind at 1. unfold transmit at 1.
    rewrite Hb. cbn [map app]. rewrite Hm, Hr. cbn [andb].
    rewrite (IH left _ final rest Hm Hrs' Hfinal).
    + cbn [broker sent set_broker set_sent length repeat].
      rewrite insert_insert_eq. rewrite <- app_assoc. reflexivity.
    + cbn in Hlen. lia.
    + cbn [broker set_broker set_sent]. apply lookup_insert_eq.
Qed.
End Session.

(** ** Order placement (bot1.py) *)

Section OrderPlacement.
Variable rt : runtime.
Variable verify_position_and_orders : jval -> option string -> option string -> M unit.
Variable verify_tp : jval -> float -> M unit.

#[local] Abbreviation trade_action :=
  (Bot1.trade_action rt verify_position_and_orders verify_tp).

Lemma bot1_authenticate_cached (w : world) (cst x_security : option string)
    (expiry : float) :
  auth_tokens w = Some (cst, x_security, expiry) ->
  PyFloat.ltb (clock w) expiry = true ->
  Bot1.authenticate rt w = (Return (cst, x_security), w).
Proof.
  intros Ha Hf. unfold Bot1.authenticate, bind, get_world.
  rewrite Ha, Hf. reflexivity.
Qed.

Lemma bot1_get_min_distance_cached (w : world) (symbol : jval) (d expiry : float) :
  min_distance w !! str_ rt symbol = Some (d, expiry) ->
  PyFloat.ltb (clock w) expiry = true ->
  Bot1.get_min_distance rt symbol w = (Return (Some d), w).
Proof.
  intros Hd Hf. unfold Bot1.get_min_distance, bind, get_world.
  rewrite Hd, Hf. reflexivity.
Qed.


End OrderPlacement.




(** ** The trend-following strategy (strategies.py, bot3.py) *)

Section Strategy.
Variable calculate_atr : list float -> list float -> list float -> result (list float).
Variable calculate_moving_averages : list float -> result (list float * list float).
Variable calculate_rsi : list float -> result (list float).

#[local] Abbreviation get_signal :=
  (Strategies.get_signal calculate_atr calculate_moving_averages calculate_rsi).
#[local] Abbreviation highs := (map (fun p => p * 1.001)%float).
#[local] Abbreviation lows := (map (fun p => p * 0.999)%float).

(** [get_signal] answers every exception itself. *)
Lemma get_signal_returns (self : Strategies.TrendFollowingStrategy) (symbol : string)
    (current_price : float) (price_history : list float) (account_balance : float) :
  exists s, get_signal self symbol current_price price_history account_balance = Return s.
Proof.
  unfold Strategies.get_signal.
  destruct (Strategies.get_signal_try _ _ _ _ _ _ _ _) as [s|e]; eauto.
Qed.

Lemma last2_long (a : list float) (x : float) :
  Strategies.last2 a = Return x -> (length a <? 2)%nat = false.
Proof.
  unfold Strategies.last2. rewrite <- (length_rev a).
  destruct (rev a) as [|y [|z r]]; try discriminate. reflexivity.
Qed.

(** The signal at a crossover: without a tracked position, with the short
    average above the long one at the last index and not above it at the
    index before, and the last RSI below 70, the strategy buys
    [balance * 0.02 / (price - (price - atr * 2))]. *)
Lemma get_signal_at_crossover (self : Strategies.TrendFollowingStrategy)
    (symbol : string) (current_price : float) (price_history : list float)
    (account_balance : float) (atr sma_short sma_long rsi : list float)
    (current_atr atr2 current_rsi rsi2 short1 long1 short2 long2 : float) :
  Strategies.positions self !! symbol = None ->
  calculate_atr (highs price_history) (lows price_history) price_history = Return atr ->
  calculate_moving_averages price_history = Return (sma_short, sma_long) ->
  calculate_rsi price_history = Return rsi ->
  Strategies.last1 atr = Return current_atr -> Strategies.last2 atr = Return atr2 ->
  Strategies.last1 rsi = Return current_rsi -> Strategies.last2 rsi = Return rsi2 ->
  Strategies.last1 sma_short = Return short1 -> Strategies.last2 sma_short = Return short2 ->
  Strategies.last1 sma_long = Return long1 -> Strategies.last2 sma_long = Return long2 ->
  PyFloat.gtb short1 long1 = true ->
  PyFloat.leb short2 long2 = true ->
  PyFloat.ltb current_rsi Strategies.rsi_overbought = true ->
  get_signal self symbol current_price price_history account_balance
  = Return (Some (Strategies.mk_signal "BUY"
                    (account_balance * 0.02
                     / (current_price - (current_price - current_atr * 2)))%float
                    "SMA crossover with RSI confirmation")).
Proof.
  intros Hpos Hatr Hma Hrsi Ha1 Ha2 Hr1 Hr2 Hs1 Hs2 Hl1 Hl2 Hup Hprev Hrsi70.
  unfold Strategies.get_signal, Strategies.get_signal_try.
  rewrite Hatr, Hma, Hrsi.
  rewrite (last2_long _ _ Ha2), (last2_long _ _ Hr2), (last2_long _ _ Hs2),
    (last2_long _ _ Hl2).
  cbn [orb]. rewrite Ha1, Hr1, Hs1, Hl1, Hs2, Hl2, Hpos, Hup, Hprev, Hrsi70.
  reflexivity.
Qed.

(** Without a crossover at the last index there is no BUY. *)
Lemma get_signal_without_crossover (self : Strategies.TrendFollowingStrategy)
    (symbol : string) (current_price : float) (price_history : list float)
    (account_balance : float) (s : Strategies.signal) :
  (forall sma_short sma_long short1 long1 short2 long2,
     calculate_moving_averages price_history = Return (sma_short, sma_long) ->
     Strategies.last1 sma_short = Return short1 -> Strategies.last2 sma_short = Return short2 ->
     Strategies.last1 sma_long = Return long1 -> Strategies.last2 sma_long = Return long2 ->
     PyFloat.gtb short1 long1 && PyFloat.leb short2 long2 = false) ->
  get_signal self symbol current_price price_history account_balance = Return (Some s) ->
  Strategies.action s <> "BUY".
Proof.
  intros Hno. unfold Strategies.get_signal, Strategies.get_signal_try.
  destruct (calculate_atr _ _ _) as [atr|]; [|discriminate].
  destruct (calculate_moving_averages _) as [[sma_short sma_long]|]; [|discriminate].
  destruct (calculate_rsi _) as [rsi|]; [|discriminate].
  destruct (_ || _); [discriminate|].
  destruct (Strategies.last1 atr); [|discriminate].
  destruct (Strategies.last1 rsi); [|discriminate].
  destruct (Strategies.last1 sma_short) as [short1|] eqn:Es1; [|discriminate].
  destruct (Strategies.last1 sma_long) as [long1|] eqn:El1; [|discriminate].
  destruct (Strategies.last2 sma_short) as [short2|] eqn:Es2; [|discriminate].
  destruct (Strategies.last2 sma_long) as [long2|] eqn:El2; [|discriminate].
  destruct (Strategies.positions self !! symbol).
  - destruct (_ || _); [|discriminate]. intros [= <-]. discriminate.
  - rewrite (Hno _ _ _ _ _ _ eq_refl Es1 Es2 El1 El2). discriminate.
Qed.
(** C5.  Without a tracked position, on a series whose averages cross at
    its latest index (short above long there, not above at the index
    before, computed on the whole series) with the RSI below 70 there, and
    cross at no earlier index (computed on the series up to that index),
    the strategy returns a BUY on the whole series and no BUY on the series
    up to any earlier index. *)
Theorem buy_at_crossover_and_not_before (self : Strategies.TrendFollowingStrategy)
    (symbol : string) (current_price : float) (series : list float)
    (account_balance : float) (atr sma_short sma_long rsi : list float)
    (current_atr atr2 current_rsi rsi2 short1 long1 short2 long2 : float) :
  Strategies.positions self !! symbol = None ->
  calculate_atr (highs series) (lows series) series = Return atr ->
  calculate_moving_averages series = Return (sma_short, sma_long) ->
  calculate_rsi series = Return rsi ->
  Strategies.last1 atr = Return current_atr -> Strategies.last2 atr = Return atr2 ->
  Strategies.last1 rsi = Return current_rsi -> Strategies.last2 rsi = Return rsi2 ->
  Strategies.last1 sma_short = Return short1 -> Strategies.last2 sma_short = Return short2 ->
  Strategies.last1 sma_long = Return long1 -> Strategies.last2 sma_long = Return long2 ->
  PyFloat.gtb short1 long1 = true ->
  PyFloat.leb short2 long2 = true ->
  PyFloat.ltb current_rsi 70 = true ->
  (forall j sma_short' sma_long' short1' long1' short2' long2',
     (S j < length series)%nat ->
     calculate_moving_averages (firstn (S j) series) = Return (sma_short', sma_long') ->
     Strategies.last1 sma_short' = Return short1' ->
     Strategies.last2 sma_short' = Return short2' ->
     Strategies.last1 sma_long' = Return long1' ->
     Strategies.last2 sma_long' = Return long2' ->
     PyFloat.gtb short1' long1' && PyFloat.leb short2' long2' = false) ->
  (exists s, get_signal self symbol current_price series account_balance = Return (Some s)
             /\ Strategies.action s = "BUY")
  /\ (forall j price s,
        (S j < length series)%nat ->
        get_signal self symbol price (firstn (S j) series) account_balance = Return (Some s) ->
        Strategies.action s <> "BUY").
Proof.
  intros Hpos Hatr Hma Hrsi Ha1 Ha2 Hr1 Hr2 Hs1 Hs2 Hl1 Hl2 Hup Hprev Hrsi70 Hbefore.
  split.
  - eexists. split.
    + eapply get_signal_at_crossover; eassumption.
    + reflexivity.
  - intros j price s Hj. apply get_signal_without_crossover.
    intros sma_short' sma_long' short1' long1' short2' long2'. apply Hbefore. exact Hj.
Qed.

(** C6, as the code has it.  At a BUY entry the size is
    [balance * 0.02 / (price - stop_loss)] with
    [stop_loss = price - atr * 2]; the distance is not examined, the signal
    is returned with that size whatever its sign. *)
Theorem position_size_at_entry (self : Strategies.TrendFollowingStrategy)
    (symbol : string) (current_price : float) (price_history : list float)
    (account_balance : float) (atr sma_short sma_long rsi : list float)
    (current_atr atr2 current_rsi rsi2 short1 long1 short2 long2 : float) :
  Strategies.positions self !! symbol = None ->
  calculate_atr (highs price_history) (lows price_history) price_history = Return atr ->
  calculate_moving_averages price_history = Return (sma_short, sma_long) ->
  calculate_rsi price_history = Return rsi ->
  Strategies.last1 atr = Return current_atr -> Strategies.last2 atr = Return atr2 ->
  Strategies.last1 rsi = Return current_rsi -> Strategies.last2 rsi = Return rsi2 ->
  Strategies.last1 sma_short = Return short1 -> Strategies.last2 sma_short = Return short2 ->
  Strategies.last1 sma_long = Return long1 -> Strategies.last2 sma_long = Return long2 ->
  PyFloat.gtb short1 long1 = true ->
  PyFloat.leb short2 long2 = true ->
  PyFloat.ltb current_rsi 70 = true ->
  let risk_amount := (account_balance * 0.02)%float in
  let stop_loss := (current_price - current_atr * 2)%float in
  exists s,
    get_signal self symbol current_price price_history account_balance = Return (Some s)
    /\ Strategies.action s = "BUY"
    /\ Strategies.quantity s = (risk_amount / (current_price - stop_loss))%float.
Proof.
  intros Hpos Hatr Hma Hrsi Ha1 Ha2 Hr1 Hr2 Hs1 Hs2 Hl1 Hl2 Hup Hprev Hrsi70.
  eexists. split; [|split].
  - eapply get_signal_at_crossover; eassumption.
  - reflexivity.
  - reflexivity.
Qed.
(** X28.  Indicator arrays with fewer than two entries give no signal:
    when one of the ATR, the two averages or the RSI has fewer than two
    values, [get_signal] returns [None] before it reads an entry, whatever
    the tracked positions. *)
Lemma get_signal_short_arrays (self : Strategies.TrendFollowingStrategy) (symbol : string)
    (current_price : float) (price_history : list float) (account_balance : float)
    (atr sma_short sma_long rsi : list float) :
  calculate_atr (highs price_history) (lows price_history) price_history = Return atr ->
  calculate_moving_averages price_history = Return (sma_short, sma_long) ->
  calculate_rsi price_history = Return rsi ->
  (length atr < 2 \/ length sma_short < 2 \/ length sma_long < 2 \/ length rsi < 2)%nat ->
  get_signal self symbol current_price price_history account_balance = Return None.
Proof.
  intros Hatr Hma Hrsi Hshort.
  unfold Strategies.get_signal, Strategies.get_signal_try. rewrite Hatr, Hma, Hrsi.
  destruct (Nat.ltb_spec (length atr) 2); [reflexivity|].
  destruct (Nat.ltb_spec (length sma_short) 2); [reflexivity|].
  destruct (Nat.ltb_spec (length sma_long) 2); [reflexivity|].
  destruct (Nat.ltb_spec (length rsi) 2); [reflexivity|]. lia.
Qed.

(** ** Short histories (bot3.py, bot1.py) *)

Variable talib_ATR : list float -> list float -> list float -> result (list float).
Variable series_mean : list float -> float.
Variable DataFrame_of_columns : list (string * jval) -> result Bot1.frame.

#[local] Abbreviation analyze := (Bot1.analyze talib_ATR series_mean DataFrame_of_columns).

Lemma length_dropna (cols : list string) (df : Bot1.frame)
    (high low close : list (option float)) :
  (length (Bot1.dropna cols df high low close) <= length df)%nat.
Proof.
  revert high low close.
  induction df as [|row df IH]; intros [|h high] [|l low] [|c close];
    cbn [Bot1.dropna length]; try lia.
  specialize (IH high low close).
  destruct h, l, c; try lia. destruct (existsb _ cols); cbn [length]; lia.
Qed.

Lemma length_records (rows : list jval) (df : Bot1.frame) :
  Bot1.records rows = Some df -> length df = length rows.
Proof.
  revert df. induction rows as [|v rows IH]; intros df.
  - intros [= <-]. reflexivity.
  - cbn [Bot1.records]. destruct v; try discriminate.
    destruct (Bot1.records rows) as [df'|]; [|discriminate].
    intros [= <-]. cbn [length]. f_equal. apply IH. reflexivity.
Qed.

(** bot1: fewer than 14 price rows are a HOLD, whatever the rows hold. *)
Lemma analyze_short_history (data : list (string * jval)) (rows : list jval) (w : world) :
  dict_get "prices" data = Some (JList rows) ->
  (length rows < 14)%nat ->
  fst (analyze (Some (JDict data)) w) = Return Bot1.HOLD.
Proof.
  intros Hp Hlen. unfold Bot1.analyze.
  assert (Ht : truthy (JDict data) = true) by (destruct data; [discriminate|reflexivity]).
  rewrite Ht. cbn [negb].
  unfold contains, item, dict_has, dict_item. rewrite Hp.
  unfold bind at 1. cbn [lift]. unfold bind at 1. cbn [lift negb orb].
  destruct (truthy (JList rows)) eqn:Hrows; cbn [negb]; [|reflexivity].
  unfold try_except.
  unfold bind at 1. cbn [lift Bot1.DataFrame].
  destruct (Bot1.records rows) as [df|] eqn:Hdf; [|reflexivity].
  destruct (negb (forallb _ _)); [reflexivity|].
  unfold bind at 1. cbn [lift].
  destruct (Bot1.numbers _) as [high|]; [|reflexivity].
  destruct (PyFloat.leb (Bot1.series_max high) 0); [reflexivity|].
  unfold bind at 1. cbn [lift].
  destruct (Bot1.numbers _) as [low|]; [|reflexivity].
  destruct (PyFloat.leb (Bot1.series_min low) 0); [reflexivity|].
  unfold bind at 1. cbn [lift].
  destruct (Bot1.numbers _) as [close|]; [|reflexivity].
  destruct (PyFloat.leb (Bot1.series_max close) 0); [reflexivity|].
  pose proof (length_dropna (Bot1.columns df) df high low close) as Hk.
  rewrite (length_records _ _ Hdf) in Hk.
  destruct (Nat.ltb_spec (length (Bot1.dropna (Bot1.columns df) df high low close)) 14)
    as [_|Hge]; [reflexivity|lia].
Qed.

(** C4.  With fewer than 20 prices bot3 has no signal for the symbol, the
    strategy being asked or not never raises, and with fewer than 14 price
    rows (or no market data) bot1's analysis is a HOLD that is returned, not
    raised. *)
Theorem short_history_is_a_hold (self : Strategies.TrendFollowingStrategy)
    (symbol : string) (current_price : float) (price_history : list float)
    (account_balance : float) (data : list (string * jval)) (rows : list jval)
    (w : world) :
  (length price_history < 20)%nat ->
  dict_get "prices" data = Some (JList rows) ->
  (length rows < 14)%nat ->
  Bot3.signal_of calculate_atr calculate_moving_averages calculate_rsi
    self symbol current_price price_history account_balance = Return None
  /\ (exists s, get_signal self symbol current_price price_history account_balance = Return s)
  /\ fst (analyze (Some (JDict data)) w) = Return Bot1.HOLD
  /\ fst (analyze None w) = Return Bot1.HOLD.
Proof.
  intros Hhistory Hprices Hrows. repeat split.
  - unfold Bot3.signal_of.
    destruct (Nat.leb_spec 20 (length price_history)); [lia|reflexivity].
  - apply get_signal_returns.
  - apply (analyze_short_history data rows w Hprices Hrows).
Qed.
End Strategy.

Lemma buy_at_crossover_and_not_before_witness :
  let get_signal :=
    Strategies.get_signal (Fixtures.constant_atr [1; 1]%float)
      (Fixtures.averages_crossing_at 3) (Fixtures.constant_rsi [50; 50]%float)
      Strategies.init "BTCUSD" in
  (exists s, get_signal 102%float [100; 101; 102]%float 10000%float = Return (Some s)
             /\ Strategies.action s = "BUY")
  /\ (forall j price s,
        (S j < 3)%nat ->
        get_signal price (firstn (S j) [100; 101; 102]%float) 10000%float = Return (Some s) ->
        Strategies.action s <> "BUY").
Proof.
  apply (buy_at_crossover_and_not_before (Fixtures.constant_atr [1; 1]%float)
           (Fixtures.averages_crossing_at 3) (Fixtures.constant_rsi [50; 50]%float)
           Strategies.init "BTCUSD" 102%float [100; 101; 102]%float 10000%float
           [1; 1]%float [1; 3]%float [2; 2]%float [50; 50]%float
           1%float 1%float 50%float 50%float 3%float 2%float 1%float 2%float);
    try (vm_compute; reflexivity).
  intros j sma_short' sma_long' short1' long1' short2' long2' Hj.
  destruct j as [|[|j]]; [| |simpl in Hj; lia];
    vm_compute; intros [= <- <-] [= <-] [= <-] [= <-] [= <-]; reflexivity.
Defined.

Lemma position_size_at_entry_witness :
  exists s,
    Strategies.get_signal (Fixtures.constant_atr [1; 1]%float)
      (Fixtures.averages_crossing_at 3) (Fixtures.constant_rsi [50; 50]%float)
      Strategies.init "BTCUSD" 100%float [98; 99; 100]%float 10000%float = Return (Some s)
    /\ Strategies.action s = "BUY"
    /\ Strategies.quantity s = (10000 * 0.02 / (100 - (100 - 1 * 2)))%float.
Proof.
  apply (position_size_at_entry (Fixtures.constant_atr [1; 1]%float)
           (Fixtures.averages_crossing_at 3) (Fixtures.constant_rsi [50; 50]%float)
           Strategies.init "BTCUSD" 100%float [98; 99; 100]%float 10000%float
           [1; 1]%float [1; 3]%float [2; 2]%float [50; 50]%float
           1%float 1%float 50%float 50%float 3%float 2%float 1%float 2%float);
    vm_compute; reflexivity.
Defined.

(** C6, as stated, fails: the size is not the risk amount divided by
    [price - atr * 2] (at price 100 with an ATR of 1 it is 100, not
    200 / 98), a BUY is returned where [price - atr * 2] is negative (price
    1, ATR 1), and with an ATR of 0 a BUY of infinite size is returned. *)
Lemma position_size_is_not_guarded :
  let get_signal atr :=
    Strategies.get_signal (Fixtures.constant_atr atr) (Fixtures.averages_crossing_at 3)
      (Fixtures.constant_rsi [50; 50]%float) Strategies.init "BTCUSD" in
  let buy quantity :=
    Return (Some (Strategies.mk_signal "BUY" quantity "SMA crossover with RSI confirmation")) in
  get_signal [1; 1]%float 100%float [98; 99; 100]%float 10000%float = buy 100%float
  /\ (10000 * 0.02 / (100 - 1 * 2))%float <> 100%float
  /\ PyFloat.leb (1 - 1 * 2) 0 = true
  /\ get_signal [1; 1]%float 1%float [1; 1; 1]%float 10000%float = buy 100%float
  /\ get_signal [0; 0]%float 100%float [98; 99; 100]%float 10000%float = buy infinity.
Proof.
  repeat split; try (vm_compute; reflexivity).
  vm_compute. discriminate.
Qed.

Lemma short_history_is_a_hold_witness :
  let row := JDict [("highPrice", JDict [("bid", JInt 101)]);
                    ("lowPrice", JDict [("bid", JInt 99)]);
                    ("closePrice", JDict [("bid", JInt 100)])] in
  let data := [("prices", JList (repeat row 13))] in
  Bot3.signal_of (Fixtures.constant_atr [1; 1]%float) (Fixtures.averages_crossing_at 19)
    (Fixtures.constant_rsi [50; 50]%float) Strategies.init "BTCUSD" 100%float
    (repeat 100%float 19) 10000%float = Return None
  /\ (exists s,
        Strategies.get_signal (Fixtures.constant_atr [1; 1]%float)
          (Fixtures.averages_crossing_at 19) (Fixtures.constant_rsi [50; 50]%float)
          Strategies.init "BTCUSD" 100%float (repeat 100%float 19) 10000%float = Return s)
  /\ fst (Bot1.analyze (fun _ _ _ => Return []) (fun _ => 0%float) (fun _ => Raise ValueError)
            (Some (JDict data)) (Fixtures.world0 [])) = Return Bot1.HOLD
  /\ fst (Bot1.analyze (fun _ _ _ => Return []) (fun _ => 0%float) (fun _ => Raise ValueError)
            None (Fixtures.world0 [])) = Return Bot1.HOLD.
Proof.
  intros row data.
  apply (short_history_is_a_hold (Fixtures.constant_atr [1; 1]%float)
           (Fixtures.averages_crossing_at 19) (Fixtures.constant_rsi [50; 50]%float)
           (fun _ _ _ => Return []) (fun _ => 0%float) (fun _ => Raise ValueError)
           Strategies.init "BTCUSD" 100%float (repeat 100%float 19) 10000%float
           data (repeat row 13) (Fixtures.world0 [])).
  - simpl. lia.
  - reflexivity.
  - simpl. lia.
Defined.

(** ** The webhook (bot1.py, bot4.py) *)

Section Webhook.
Variable rt : runtime.

#[local] Abbreviation symbol_of data := (dict_get_default "symbol" JNull data).
#[local] Abbreviation action_of data := (dict_get_default "action" JNull data).

(** bot1: what the handler does with each request.  A request with a
    symbol and an action that are present and true, and a price that is
    absent or converts to a float, is answered 200 and its trade is started
    with that float, of whatever sign; every other request is answered 400
    or 500 and starts nothing.  No request is sent to the broker before the
    answer. *)
Lemma bot1_webhook_cases (body : option jval) (w : world) :
  let r := Bot1.webhook rt body w in
  sent (snd r) = sent w
  /\ broker (snd r) = broker w
  /\ match body with
     | Some (JDict data) =>
         if truthy (symbol_of data) && truthy (action_of data) then
           match float_ rt (dict_get_default "price" (JInt 0) data) with
           | Return price =>
               fst r = Return (Bot1.mk_http_reply 200 "success"
                                 (Bot1.TradeRequestReceived (action_of data)
                                    (symbol_of data) price))
               /\ threads (snd r)
                  = (threads w
                     ++ [mk_thread (symbol_of data) (action_of data) price "SCALP"])%list
           | Raise e =>
               (exists reply, fst r = Return reply
                              /\ (Bot1.code reply = 400 \/ Bot1.code reply = 500))
               /\ threads (snd r) = threads w
           end
         else
           fst r = Return (Bot1.mk_http_reply 400 "error" Bot1.MissingRequiredFields)
           /\ threads (snd r) = threads w
     | _ =>
         (exists e, fst r = Return (Bot1.mk_http_reply 500 "error"
                                      (Bot1.InternalServerError e)))
         /\ threads (snd r) = threads w
     end.
Proof.
  unfold Bot1.webhook, try_except.
  destruct body as [[| | | | | |data]|]; cbn; eauto 10.
  destruct (truthy (symbol_of data)); cbn; eauto.
  destruct (truthy (action_of data)); cbn; eauto.
  destruct (float_ rt _) as [price|[]]; cbn; eauto 10.
Qed.

(** C10.  A request with symbol and action present and a price that
    converts is answered by the same 200 reply in every world: the reply
    does not depend on the broker, and when it is given the trade has only
    been started, no request has been sent. *)
Theorem webhook_reply_ignores_the_broker (data : list (string * jval)) (price : float)
    (w1 w2 : world) :
  truthy (symbol_of data) = true ->
  truthy (action_of data) = true ->
  float_ rt (dict_get_default "price" (JInt 0) data) = Return price ->
  let r1 := Bot1.webhook rt (Some (JDict data)) w1 in
  let r2 := Bot1.webhook rt (Some (JDict data)) w2 in
  fst r1 = Return (Bot1.mk_http_reply 200 "success"
                     (Bot1.TradeRequestReceived (action_of data) (symbol_of data) price))
  /\ fst r1 = fst r2
  /\ sent (snd r1) = sent w1
  /\ threads (snd r1)
     = (threads w1 ++ [mk_thread (symbol_of data) (action_of data) price "SCALP"])%list.
Proof.
  intros Hs Ha Hp r1 r2.
  pose proof (bot1_webhook_cases (Some (JDict data)) w1) as (S1 & _ & C1).
  pose proof (bot1_webhook_cases (Some (JDict data)) w2) as (_ & _ & C2).
  cbv zeta in *. rewrite Hs, Ha, Hp in C1, C2. cbn [andb] in C1, C2.
  destruct C1 as [R1 T1]. destruct C2 as [R2 _].
  subst r1 r2. rewrite R1, R2. auto.
Qed.
Variable trade_action : jval -> jval -> float -> string -> M unit.

(** bot4: what the handler does with each request.  Only a request with a
    symbol, an action and a price that are present (symbol and action true)
    and a price that converts to a float reaches [trade_action], with that
    float, of whatever sign; every other request is answered 400 or 500 and
    changes nothing but the log. *)
Lemma bot4_webhook_cases (body : option jval) (w : world) :
  let r := Bot4.webhook rt trade_action body w in
  let logged l msg w := set_log (log w ++ [(l, msg)])%list w in
  match body with
  | Some (JDict data) =>
      let price := dict_get_default "price" JNull data in
      if truthy (JDict data) && truthy (symbol_of data) && truthy (action_of data)
         && negb match price with JNull => true | _ => false end
      then
        match float_ rt price with
        | Return p =>
            r = match trade_action (symbol_of data) (action_of data) p "SCALP"
                        (logged INFO "Webhook Triggered" w) with
                | (Return _, w') =>
                    (Return (Bot4.mk_http_reply 200 "success"
                               (Bot4.TradeExecuted (action_of data) (symbol_of data) p)),
                     w')
                | (Raise _, w') =>
                    (Return (Bot4.mk_http_reply 500 "error" Bot4.WebhookProcessingError),
                     logged ERROR "Webhook processing error" w')
                end
        | Raise _ =>
            r = (Return (Bot4.mk_http_reply 500 "error" Bot4.WebhookProcessingError),
                 logged ERROR "Webhook processing error" w)
        end
      else
        exists reply msg,
          r = (Return reply, logged ERROR msg w) /\ Bot4.code reply = 400
  | _ =>
      exists reply msg,
        r = (Return reply, logged ERROR msg w)
        /\ (Bot4.code reply = 400 \/ Bot4.code reply = 500)
  end.
Proof.
  unfold Bot4.webhook, try_except, bind, lift, ret, raise, logging, modify.
  destruct body as [[|[]|z|f| [|] |[|]|data]|]; cbn; eauto 10.
  - destruct (negb (z =? 0)); cbn; eauto 10.
  - destruct (PyFloat.truthy f); cbn; eauto 10.
  - destruct data as [|kv data]; [cbn; eauto|].
    cbn [truthy negb andb].
    destruct (truthy (symbol_of (kv :: data))); cbn [negb orb andb]; [|cbn; eauto].
    destruct (truthy (action_of (kv :: data))); cbn [negb orb andb]; [|cbn; eauto].
    destruct (dict_get_default "price" JNull (kv :: data)) eqn:Hprice;
      cbn [negb orb andb]; try (cbn; eauto; fail);
      match goal with
      | |- context [float_ rt ?v] => destruct (float_ rt v) as [p|e] eqn:Hf
      end; try reflexivity;
      match goal with
      | |- context [trade_action ?s ?a ?p ?m ?w] =>
          destruct (trade_action s a p m w) as [[[]|e] w']
      end; reflexivity.
Qed.

(** C8, as the code has it.  Every request is checked before a trade is
    started: it needs a symbol and an action that are present and true, and
    a price that converts to a float (bot1 takes a missing price as 0, bot4
    refuses it); a request that fails a check is answered with an error
    status, 400 or 500, and starts no trade.  The sign of the price is not
    checked: a request that passes is executed with its price, positive or
    not. *)
Theorem webhook_checks_before_trading (body : option jval) (w : world) :
  let r1 := Bot1.webhook rt body w in
  let r4 := Bot4.webhook rt trade_action body w in
  let logged l msg w := set_log (log w ++ [(l, msg)])%list w in
  match body with
  | Some (JDict data) =>
      let price1 := float_ rt (dict_get_default "price" (JInt 0) data) in
      let price4 := dict_get_default "price" JNull data in
      (if truthy (symbol_of data) && truthy (action_of data) then
         match price1 with
         | Return p =>
             (exists text, fst r1 = Return (Bot1.mk_http_reply 200 "success" text))
             /\ threads (snd r1)
                = (threads w ++ [mk_thread (symbol_of data) (action_of data) p "SCALP"])%list
         | Raise _ =>
             (exists reply, fst r1 = Return reply
                            /\ (Bot1.code reply = 400 \/ Bot1.code reply = 500))
             /\ threads (snd r1) = threads w
         end
       else
         (exists reply, fst r1 = Return reply /\ Bot1.code reply = 400)
         /\ threads (snd r1) = threads w)
      /\ (if truthy (JDict data) && truthy (symbol_of data) && truthy (action_of data)
             && negb match price4 with JNull => true | _ => false end
          then
            match float_ rt price4 with
            | Return p =>
                exists reply,
                  r4 = (Return reply,
                        let r := trade_action (symbol_of data) (action_of data) p "SCALP"
                                   (logged INFO "Webhook Triggered" w) in
                        match fst r with
                        | Return _ => snd r
                        | Raise _ => logged ERROR "Webhook processing error" (snd r)
                        end)
            | Raise _ =>
                exists reply,
                  r4 = (Return reply, logged ERROR "Webhook processing error" w)
                  /\ Bot4.code reply = 500
            end
          else
            exists reply msg,
              r4 = (Return reply, logged ERROR msg w) /\ Bot4.code reply = 400)
  | _ =>
      ((exists reply, fst r1 = Return reply /\ Bot1.code reply = 500)
       /\ threads (snd r1) = threads w)
      /\ (exists reply msg,
            r4 = (Return reply, logged ERROR msg w)
            /\ (Bot4.code reply = 400 \/ Bot4.code reply = 500))
  end.
Proof.
  intros r1 r4 logged.
  pose proof (bot1_webhook_cases body w) as (_ & _ & C1).
  pose proof (bot4_webhook_cases body w) as C4.
  cbv zeta in C1, C4. fold r1 in C1. fold r4 in C4.
  destruct body as [[| | | | | |data]|];
    try (split; [destruct C1 as [[e E] T]; eauto|exact C4]).
  split.
  - destruct (truthy (symbol_of data) && truthy (action_of data)).
    + destruct (float_ rt (dict_get_default "price" (JInt 0) data)).
      * destruct C1 as [R T]. eauto.
      * exact C1.
    + destruct C1 as [R T]. eauto.
  - destruct (truthy (JDict data) && truthy (symbol_of data) && truthy (action_of data)
              && negb match dict_get_default "price" JNull data with
                      | JNull => true
                      | _ => false
                      end); [|exact C4].
    destruct (float_ rt (dict_get_default "price" JNull data)) as [p|e].
    + rewrite C4. fold (logged INFO "Webhook Triggered" w).
      destruct (trade_action _ _ p "SCALP" _) as [[[]|e] w']; eauto.
    + eauto.
Qed.
End Webhook.

Lemma webhook_reply_ignores_the_broker_witness :
  let data := [("symbol", JStr "BTCUSD"); ("action", JStr "BUY"); ("price", JFloat 100.5)] in
  let w1 := Fixtures.world0 [] in
  let w2 := Fixtures.ready
              [("POST", Bot1.CAPITAL_API_URL ++ "/positions",
                [Fixtures.failed 503; Fixtures.failed 400])] in
  let r1 := Bot1.webhook Fixtures.runtime0 (Some (JDict data)) w1 in
  let r2 := Bot1.webhook Fixtures.runtime0 (Some (JDict data)) w2 in
  fst r1 = Return (Bot1.mk_http_reply 200 "success"
                     (Bot1.TradeRequestReceived (JStr "BUY") (JStr "BTCUSD") 100.5))
  /\ fst r1 = fst r2
  /\ sent (snd r1) = sent w1
  /\ threads (snd r1)
     = (threads w1 ++ [mk_thread (JStr "BTCUSD") (JStr "BUY") 100.5 "SCALP"])%list.
Proof.
  intros data w1 w2.
  apply (webhook_reply_ignores_the_broker Fixtures.runtime0 data 100.5%float w1 w2);
    reflexivity.
Defined.

(** C8, as stated, fails: a request whose price is -5 is answered 200 by
    both handlers and its trade is started (bot1) or executed (bot4), and
    bot1 starts the trade of a request without a price at price 0. *)
Lemma webhook_accepts_a_negative_price :
  let request price :=
    Some (JDict ([("symbol", JStr "BTCUSD"); ("action", JStr "BUY")] ++ price)) in
  let r1 := Bot1.webhook Fixtures.runtime0 (request [("price", JInt (-5))])
              (Fixtures.world0 []) in
  let r4 := Bot4.webhook Fixtures.runtime0 Fixtures.trade_logged
              (request [("price", JInt (-5))]) (Fixtures.world0 []) in
  let r0 := Bot1.webhook Fixtures.runtime0 (request []) (Fixtures.world0 []) in
  PyFloat.ltb 0 (-5) = false
  /\ fst r1 = Return (Bot1.mk_http_reply 200 "success"
                        (Bot1.TradeRequestReceived (JStr "BUY") (JStr "BTCUSD") (-5)))
  /\ threads (snd r1) = [mk_thread (JStr "BTCUSD") (JStr "BUY") (-5) "SCALP"]
  /\ fst r4 = Return (Bot4.mk_http_reply 200 "success"
                        (Bot4.TradeExecuted (JStr "BUY") (JStr "BTCUSD") (-5)))
  /\ log (snd r4) = [(INFO, "Webhook Triggered"); (INFO, "trade_action")]
  /\ threads (snd r0) = [mk_thread (JStr "BTCUSD") (JStr "BUY") 0 "SCALP"].
Proof.
  repeat split; vm_compute; reflexivity.
Qed.

(** ** What a computation leaves alone *)

Section Frame.
(** The request under consideration: its method and URL. *)
Variable method url : string.

#[local] Abbreviation untouched := (Observed.untouched method url).
#[local] Abbreviation framed := (Observed.framed method url).

Lemma untouched_refl (w : world) : untouched w w.
Proof. repeat split. Qed.

Lemma untouched_trans (w1 w2 w3 : world) :
  untouched w1 w2 -> untouched w2 w3 -> untouched w1 w3.
Proof.
  intros (B1 & S1 & L1) (B2 & S2 & L2). repeat split; congruence.
Qed.

Lemma framed_ret {A : Type} (a : A) : framed (ret a).
Proof. intros w. apply untouched_refl. Qed.

Lemma framed_raise {A : Type} (e : exn) : framed (raise (A := A) e).
Proof. intros w. apply untouched_refl. Qed.

Lemma framed_lift {A : Type} (r : result A) : framed (lift r).
Proof. intros w. apply untouched_refl. Qed.

Lemma framed_bind {A B : Type} (c : M A) (k : A -> M B) :
  framed c -> (forall a, framed (k a)) -> framed (bind c k).
Proof.
  intros Hc Hk w. unfold bind. specialize (Hc w).
  destruct (c w) as [[a|e] w1]; cbn [snd] in *.
  - eapply untouched_trans; [exact Hc|apply Hk].
  - exact Hc.
Qed.

Lemma framed_try_except {A : Type} (c : M A) (handler : exn -> M A) :
  framed c -> (forall e, framed (handler e)) -> framed (try_except c handler).
Proof.
  intros Hc Hh w. unfold try_except. specialize (Hc w).
  destruct (c w) as [[a|e] w1]; cbn [snd] in *.
  - exact Hc.
  - eapply untouched_trans; [exact Hc|apply Hh].
Qed.

Lemma framed_logging (l : level) (msg : string) :
  l <> INFO \/ msg <> "Token expired, refreshing authentication..." ->
  framed (logging l msg).
Proof.
  intros H w. split; [reflexivity|split; [reflexivity|]].
  unfold Observed.refreshes, Observed.logged, logging, modify. cbn [snd log set_log fst].
  rewrite List.filter_app, length_app. cbn [List.filter fst snd].
  destruct l; cbn [length]; try lia.
  destruct (String.eqb_spec msg "Token expired, refreshing authentication...") as [->|_].
  - destruct H as [H|H]; contradiction.
  - cbn [length]. lia.
Qed.

Lemma framed_get_world : framed get_world.
Proof. intros w. apply untouched_refl. Qed.

Lemma framed_time_time : framed time_time.
Proof. intros w. apply untouched_refl. Qed.

Lemma framed_time_sleep (seconds : float) : framed (time_sleep seconds).
Proof. intros w. repeat split. Qed.

Lemma framed_modify (f : world -> world) :
  (forall w, broker (f w) = broker w /\ sent (f w) = sent w /\ log (f w) = log w) ->
  framed (modify f).
Proof.
  intros Hf w. destruct (Hf w) as (B & S & L). unfold modify. cbn [snd].
  unfold Observed.untouched, Observed.sent_to, Observed.refreshes, Observed.logged.
  rewrite B, S, L. repeat split.
Qed.

Lemma framed_transmit (rq : request) :
  (rq_method rq, rq_url rq) <> (method, url) -> framed (transmit rq).
Proof.
  intros Hne w. unfold transmit.
  assert (Hs : Observed.sent_to method url (set_sent (sent w ++ [rq]) w)
               = Observed.sent_to method url w).
  { unfold Observed.sent_to. cbn [sent set_sent].
    rewrite List.filter_app, length_app. cbn [List.filter].
    destruct (String.eqb_spec (rq_method rq) method) as [Em|_];
      destruct (String.eqb_spec (rq_url rq) url) as [Eu|_]; cbn [andb length]; try lia.
    exfalso. apply Hne. congruence. }
  destruct (broker w !! (rq_method rq, rq_url rq)) as [[|r rest]|] eqn:Hb; cbn [snd].
  - repeat split. exact Hs.
  - repeat split; [|exact Hs].
    cbn [broker set_broker set_sent]. apply lookup_insert_ne. exact Hne.
  - repeat split. exact Hs.
Qed.

Lemma framed_requests_send (rq : request) :
  (rq_method rq, rq_url rq) <> (method, url) -> framed (requests_send rq).
Proof.
  intros Hne. unfold requests_send.
  destruct (negb (encodable_body rq)); [apply framed_raise|]. apply framed_bind.
  - apply framed_transmit, Hne.
  - intros [resp|]; [apply framed_ret|apply framed_raise].
Qed.

Lemma framed_send_with_retries (cfg : Retry) (rq : request) (left : nat) :
  (rq_method rq, rq_url rq) <> (method, url) -> framed (send_with_retries cfg left rq).
Proof.
  intros Hne. induction left as [|left IH]; cbn [send_with_retries];
    (apply framed_bind; [apply framed_transmit, Hne|intros [resp|]]).
  - destruct (_ && _); [apply framed_raise|apply framed_ret].
  - apply framed_raise.
  - destruct (_ && _); [exact IH|apply framed_ret].
  - exact IH.
Qed.
End Frame.

(** One step of the proof that a computation leaves an endpoint alone. *)
Ltac frame_step :=
  lazymatch goal with
  | |- Observed.framed _ _ (requests_send _) =>
      apply framed_requests_send; cbn [rq_method rq_url]; congruence
  | |- Observed.framed _ _ (send_with_retries _ _ _) =>
      apply framed_send_with_retries; cbn [rq_method rq_url]; congruence
  | |- Observed.framed _ _ (logging _ _) =>
      apply framed_logging; first [left; discriminate | right; discriminate]
  | |- Observed.framed _ _ (ret _) => apply framed_ret
  | |- Observed.framed _ _ (raise _) => apply framed_raise
  | |- Observed.framed _ _ (lift _) => apply framed_lift
  | |- Observed.framed _ _ get_world => apply framed_get_world
  | |- Observed.framed _ _ time_time => apply framed_time_time
  | |- Observed.framed _ _ (time_sleep _) => apply framed_time_sleep
  | |- Observed.framed _ _ (modify _) => apply framed_modify; intros ?; repeat split
  | |- Observed.framed _ _ (bind _ _) => apply framed_bind; [|intros ?]
  | |- Observed.framed _ _ (try_except _ _) => apply framed_try_except; [|intros ?]
  | |- Observed.framed _ _ (if ?b then _ else _) => destruct b
  | |- Observed.framed _ _ (match ?x with _ => _ end) => destruct x
  end.

(** X27.  bot1's loop never sends a take-profit update: whatever the
    positions and the world, no [PUT] leaves the process during a pass over
    them. *)
Lemma bot1_monitor_sends_no_update (rt : runtime)
    (verify_position_and_orders : jval -> option string -> option string -> M unit)
    (verify_tp : jval -> float -> M unit) (url : string) (trades : list jval) (w : world) :
  Observed.sent_to "PUT" url
    (snd (Bot1.monitor_positions rt verify_position_and_orders verify_tp trades w))
  = Observed.sent_to "PUT" url w.
Proof.
  enough (H : Observed.framed "PUT" url
                (Bot1.monitor_positions rt verify_position_and_orders verify_tp trades))
    by apply (H w).
  assert (Hupdate : forall symbol k price mode,
             Observed.framed "PUT" url
               (Bot1.trade_action rt verify_position_and_orders verify_tp
                  symbol (JStr "UPDATE_TP") k price mode)).
  { intros symbol k price mode.
    change (Observed.framed "PUT" url
              (tokens <- Bot1.authenticate rt ;;
               let '(cst, x_security) := tokens in
               if no_tokens cst x_security
               then logging ERROR "Authentication failed. Cannot execute trade."
               else raise TypeError)).
    unfold Bot1.authenticate, Bot1.log_failure, session_send. repeat frame_step. }
  induction trades as [|trade trades IH]; cbn [Bot1.monitor_positions].
  - apply framed_ret.
  - apply framed_bind; [|intros _; exact IH].
    unfold Bot1.monitor_position, Bot1.adjust_take_profit.
    repeat first [apply Hupdate | frame_step].
Qed.

(** ** Expired sessions (api_client.py) *)

Section ExpiredSession.
Variable stack_overflow : M unit.
Variable self : ApiClient.CapitalComClient.

#[local] Abbreviation session_url := (ApiClient.base_url self ++ "/session").
#[local] Abbreviation accounts_url := (ApiClient.base_url self ++ "/accounts").
#[local] Abbreviation _make_request := (ApiClient._make_request stack_overflow).

(** The refresh of the session exchanges only with [/session] and
    [/accounts]. *)
Lemma authenticate_framed (method url : string) :
  (method, url) <> ("POST", session_url) ->
  (method, url) <> ("GET", accounts_url) ->
  (method, url) <> ("PUT", session_url) ->
  Observed.framed method url (ApiClient._authenticate self).
Proof.
  intros H1 H2 H3.
  unfold ApiClient._authenticate, ApiClient._generate_signature, response_json.
  repeat frame_step.
Qed.

(** The refresh answers its own failures. *)
Lemma authenticate_returns (w : world) : fst (ApiClient._authenticate self w) = Return tt.
Proof.
  unfold ApiClient._authenticate, try_except.
  match goal with |- context [let (_, _) := ?c w in _] => destruct (c w) as [[[]|e] w1] end;
    reflexivity.
Qed.
Lemma append_cancel (base s t : string) : base ++ s = base ++ t -> s = t.
Proof.
  induction base as [|c base IH]; cbn [String.append]; [auto|].
  intros [= E]. auto.
Qed.

Lemma sent_to_transmitted (method url : string) (body : option jval) (w : world) :
  Observed.sent_to method url (set_sent (sent w ++ [mk_request method url body]) w)
  = S (Observed.sent_to method url w).
Proof.
  unfold Observed.sent_to. cbn [sent set_sent].
  rewrite List.filter_app, length_app. cbn [List.filter rq_method rq_url].
  rewrite !String.eqb_refl. cbn. lia.
Qed.

Lemma refreshes_logged (w : world) :
  Observed.refreshes
    (set_log (log w ++ [(INFO, "Token expired, refreshing authentication...")]) w)
  = S (Observed.refreshes w).
Proof.
  unfold Observed.refreshes, Observed.logged. cbn [log set_log].
  rewrite List.filter_app, length_app. cbn. lia.
Qed.

(** What the count of the calls of [_authenticate] depends on: the
    requests sent and the lines logged. *)
Lemma authentications_same (w w' : world) :
  sent w' = sent w -> log w' = log w ->
  Observed.authentications self w' = Observed.authentications self w.
Proof.
  intros Hs Hl. unfold Observed.authentications, Observed.sent_to, Observed.logged.
  rewrite Hs, Hl. reflexivity.
Qed.

Lemma authentications_logged (l : level) (msg : string) (w : world) :
  msg <> "Failed to generate signature" ->
  Observed.authentications self (set_log (log w ++ [(l, msg)]) w)
  = Observed.authentications self w.
Proof.
  intros Hmsg. unfold Observed.authentications, Observed.logged.
  destruct (ApiClient.password self); [reflexivity|].
  cbn [log set_log]. rewrite List.filter_app, length_app. cbn [List.filter fst snd].
  destruct l; cbn [length]; try lia.
  destruct (String.eqb_spec msg "Failed to generate signature"); [contradiction|].
  cbn [length]. lia.
Qed.

Lemma authentications_transmitted (method url : string) (body : option jval) (w : world) :
  (method, url) <> ("POST", session_url) ->
  Observed.authentications self (set_sent (sent w ++ [mk_request method url body]) w)
  = Observed.authentications self w.
Proof.
  intros Hne. unfold Observed.authentications, Observed.sent_to.
  destruct (ApiClient.password self); [|reflexivity].
  cbn [sent set_sent]. rewrite List.filter_app, length_app.
  cbn [List.filter rq_method rq_url].
  destruct (String.eqb_spec method "POST") as [Em|_];
    destruct (String.eqb_spec url session_url) as [Eu|_]; cbn [andb length]; try lia.
  exfalso. apply Hne. congruence.
Qed.

(** The signature of a request: it returns, sends nothing, and is neither
    a refresh nor a call of [_authenticate]. *)
Lemma generate_signature_returns (w : world) :
  exists signed w',
    ApiClient._generate_signature self w = (Return signed, w')
    /\ broker w' = broker w
    /\ sent w' = sent w
    /\ Observed.refreshes w' = Observed.refreshes w
    /\ Observed.authentications self w' = Observed.authentications self w.
Proof.
  unfold ApiClient._generate_signature.
  destruct (ApiClient.password self) as [p|] eqn:Hp.
  - exists true, w. repeat split.
  - exists false, (set_log (log w ++ [(ERROR, "Error generating signature")]) w).
    repeat split.
    + unfold Observed.refreshes, Observed.logged. cbn [log set_log].
      rewrite List.filter_app, length_app. cbn. lia.
    + apply authentications_logged. discriminate.
Qed.

(** Every call of [_authenticate] is counted once, however it ends. *)
Lemma authenticate_counts (w : world) :
  Observed.authentications self (snd (ApiClient._authenticate self w))
  = S (Observed.authentications self w).
Proof.
  destruct (ApiClient.password self) as [p|] eqn:Hp.
  - set (rq := mk_request "POST" session_url
                 (Some (JDict [("identifier", JStr (ApiClient.identifier self));
                               ("password", JStr p);
                               ("encryptedPassword", JBool false)]))).
    set (wa := set_log (log w ++ [(INFO, "Attempting authentication")]) w).
    set (wb := set_log (log wa ++ [(INFO, "Auth headers")]) wa).
    set (w1 := set_log (log wb ++ [(INFO, "Auth data")]) wb).
    assert (H1 : Observed.authentications self
                   (set_sent (sent w1 ++ [rq]) w1)
                 = S (Observed.authentications self w)).
    { unfold Observed.authentications. rewrite Hp.
      unfold rq. rewrite sent_to_transmitted. reflexivity. }
    assert (Hrest : forall (A : Type) (k : M A) (w2 : world),
               Observed.framed "POST" session_url k ->
               Observed.authentications self w2 = S (Observed.authentications self w) ->
               Observed.authentications self (snd (k w2))
               = S (Observed.authentications self w)).
    { intros A k w2 Hk <-. unfold Observed.authentications. rewrite Hp.
      apply (Hk w2). }
    assert (Hhandler : Observed.framed "POST" session_url
                         (logging ERROR "Authentication error")) by frame_step.
    unfold ApiClient._authenticate, ApiClient._generate_signature. rewrite Hp.
    match goal with |- context [bind (requests_send _) ?K] => set (k := K) end.
    change (Observed.authentications self
              (snd (try_except (bind (requests_send rq) k)
                      (fun _ => logging ERROR "Authentication error") w1))
            = S (Observed.authentications self w)).
    assert (Hk : forall response, Observed.framed "POST" session_url (k response)).
    { intros response. unfold k, response_json. repeat frame_step. }
    clearbody k.
    unfold try_except, bind at 1, requests_send.
    change (negb (encodable_body rq)) with false. cbv iota.
    unfold bind at 1, transmit. cbn [rq_method rq_url rq].
    fold rq.
    destruct (broker w1 !! ("POST", session_url)) as [[|[resp|] rest]|].
    + apply (Hrest _ (logging ERROR "Authentication error") _ Hhandler H1).
    + cbn beta iota delta [ret].
      match goal with
      | |- context [k resp ?w2] =>
          assert (H2 : Observed.authentications self (snd (k resp w2))
                       = S (Observed.authentications self w));
          [ apply Hrest;
            [ apply Hk | rewrite <- H1; apply authentications_same; reflexivity ]
          | destruct (k resp w2) as [[[]|e] w3] ]
      end; cbn [snd] in H2 |- *.
      * exact H2.
      * apply (Hrest _ (logging ERROR "Authentication error") _ Hhandler H2).
    + apply (Hrest _ (logging ERROR "Authentication error") _ Hhandler).
      rewrite <- H1. apply authentications_same; reflexivity.
    + apply (Hrest _ (logging ERROR "Authentication error") _ Hhandler H1).
  - unfold ApiClient._authenticate, ApiClient._generate_signature, Observed.authentications.
    rewrite Hp. unfold Observed.logged. cbn.
    rewrite !List.filter_app, !length_app. cbn. lia.
Qed.

(** The request [_make_request] sends for one of the four methods: only
    [POST] and [PUT] carry the data. *)
Lemma dispatch_sends (method url : string) (data : option jval) :
  In method ["GET"; "POST"; "PUT"; "DELETE"] ->
  (In method ["POST"; "PUT"] -> encodable_body (mk_request method url data) = true) ->
  exists body,
    (if String.eqb method "GET" then requests_send (mk_request "GET" url None)
     else if String.eqb method "POST" then requests_send (mk_request "POST" url data)
     else if String.eqb method "PUT" then requests_send (mk_request "PUT" url data)
     else if String.eqb method "DELETE" then requests_send (mk_request "DELETE" url None)
     else raise UnboundLocalError)
    = requests_send (mk_request method url body)
    /\ encodable_body (mk_request method url body) = true.
Proof.
  cbn [In]. intros [<-|[<-|[<-|[<-|[]]]]] He; eexists; (split; [reflexivity|]);
    first [reflexivity | apply He; auto].
Qed.

(** One frame of [_make_request] whose request is answered: the answer is
    returned unless its status is 401, and then the frame goes on with the
    refresh and the replay. *)
Lemma make_request_answered (method endpoint : string) (data : option jval)
    (depth : nat) (resp : response) (rest : list reply) (w : world) :
  In method ["GET"; "POST"; "PUT"; "DELETE"] ->
  endpoint <> "/session" ->
  (In method ["POST"; "PUT"]
   -> encodable_body (mk_request method (ApiClient.base_url self ++ endpoint) data) = true) ->
  broker w !! (method, ApiClient.base_url self ++ endpoint) = Some (Reply resp :: rest) ->
  exists w1,
    _make_request (S depth) self method endpoint data w
    = (if status_code resp =? 401
       then try_except
              (logging INFO "Token expired, refreshing authentication..." ;;
               ApiClient._authenticate self ;;
               _make_request depth self method endpoint data)
              (fun _ => logging ERROR "Request error" ;; ret None) w1
       else (Return (Some resp), w1))
    /\ broker w1 !! (method, ApiClient.base_url self ++ endpoint) = Some rest
    /\ Observed.sent_to method (ApiClient.base_url self ++ endpoint) w1
       = S (Observed.sent_to method (ApiClient.base_url self ++ endpoint) w)
    /\ Observed.refreshes w1 = Observed.refreshes w
    /\ Observed.authentications self w1 = Observed.authentications self w.
Proof.
  intros Hm Hs He Hb. set (url := ApiClient.base_url self ++ endpoint) in *.
  destruct (generate_signature_returns w) as (signed & w0 & E0 & B0 & S0 & L0 & A0).
  destruct (dispatch_sends method url data Hm He) as (body & Hd & Hbody).
  exists (set_broker (<[(method, url) := rest]> (broker w0))
            (set_sent (sent w0 ++ [mk_request method url body]) w0)).
  split; [|repeat split].
  - cbn [ApiClient._make_request]. fold url. rewrite Hd.
    unfold try_except at 1, bind at 1. rewrite E0.
    unfold bind at 1, requests_send. rewrite Hbody. cbn [negb].
    unfold bind at 1, transmit. cbn [rq_method rq_url]. rewrite B0, Hb.
    cbn beta iota delta [ret].
    destruct (status_code resp =? 401); reflexivity.
  - cbn [broker set_broker]. apply lookup_insert_eq.
  - transitivity (Observed.sent_to method url
                    (set_sent (sent w0 ++ [mk_request method url body]) w0));
      [reflexivity|].
    rewrite sent_to_transmitted. f_equal.
    unfold Observed.sent_to. rewrite S0. reflexivity.
  - rewrite <- L0. reflexivity.
  - rewrite <- A0.
    transitivity (Observed.authentications self
                    (set_sent (sent w0 ++ [mk_request method url body]) w0)).
    + apply authentications_same; reflexivity.
    + apply authentications_transmitted.
      intros [= _ E']. apply Hs, (append_cancel _ _ _ E').
Qed.

End ExpiredSession.



(** * Further properties of the code *)

(** ** The price history (bot3.py) *)

(** X1.  [update_price_history] keeps a sliding window: after an update
    the history has one price more, but never more than 100; its last
    entry is the new price; and it is an end piece of the old history
    followed by the new price, so the order of the prices is kept and only
    the oldest ones are dropped. *)
Theorem price_history_window (history : list float) (price : float) :
  let updated := Bot3.update_price_history history price in
  length updated = Nat.min (S (length history)) 100
  /\ last updated = Some price
  /\ exists dropped, (dropped ++ updated)%list = (history ++ [price])%list.
Proof.
  unfold Bot3.update_price_history. cbv zeta.
  rewrite length_app. cbn [length]. rewrite Nat.add_1_r.
  destruct (Nat.ltb_spec 100 (S (length history))) as [Hlong|Hshort].
  - split; [|split].
    + rewrite length_skipn, length_app. cbn [length]. lia.
    + rewrite skipn_app.
      replace (S (length history) - 100 - length history)%nat with 0%nat by lia.
      cbn [skipn]. apply last_snoc.
    + exists (firstn (S (length history) - 100) (history ++ [price])).
      apply firstn_skipn.
  - split; [|split].
    + rewrite length_app. cbn [length]. lia.
    + apply last_snoc.
    + exists []. reflexivity.
Qed.

(** ** Position tracking (strategies.py) *)

Section PositionTracking.
Variable calculate_atr : list float -> list float -> list float -> result (list float).
Variable calculate_moving_averages : list float -> result (list float * list float).
Variable calculate_rsi : list float -> result (list float).

#[local] Abbreviation get_signal :=
  (Strategies.get_signal calculate_atr calculate_moving_averages calculate_rsi).
#[local] Abbreviation highs := (map (fun p => p * 1.001)%float).
#[local] Abbreviation lows := (map (fun p => p * 0.999)%float).

(** A signal is a BUY when the symbol is not tracked, and a SELL of the
    tracked quantity when it is. *)
Lemma get_signal_by_position (self : Strategies.TrendFollowingStrategy) (symbol : string)
    (current_price : float) (price_history : list float) (account_balance : float)
    (s : Strategies.signal) :
  get_signal self symbol current_price price_history account_balance = Return (Some s) ->
  match Strategies.positions self !! symbol with
  | None => Strategies.action s = "BUY"
  | Some held => Strategies.action s = "SELL" /\ Strategies.quantity s = held
  end.
Proof.
  unfold Strategies.get_signal, Strategies.get_signal_try.
  destruct (calculate_atr _ _ _) as [atr|]; [|discriminate].
  destruct (calculate_moving_averages _) as [[sma_short sma_long]|]; [|discriminate].
  destruct (calculate_rsi _) as [rsi|]; [|discriminate].
  destruct (_ || _); [discriminate|].
  destruct (Strategies.last1 atr); [|discriminate].
  destruct (Strategies.last1 rsi); [|discriminate].
  destruct (Strategies.last1 sma_short); [|discriminate].
  destruct (Strategies.last1 sma_long); [|discriminate].
  destruct (Strategies.last2 sma_short); [|discriminate].
  destruct (Strategies.last2 sma_long); [|discriminate].
  destruct (Strategies.positions self !! symbol).
  - destruct (_ || _); [|discriminate]. intros [= <-]. split; reflexivity.
  - destruct (_ && _); [|discriminate]. intros [= <-]. reflexivity.
Qed.

(** The signal for a symbol depends on the strategy only through what it
    tracks for that symbol. *)
Lemma get_signal_reads_one_position (self self' : Strategies.TrendFollowingStrategy)
    (symbol : string) (current_price : float) (price_history : list float)
    (account_balance : float) :
  Strategies.positions self' !! symbol = Strategies.positions self !! symbol ->
  get_signal self' symbol current_price price_history account_balance
  = get_signal self symbol current_price price_history account_balance.
Proof.
  intros H. unfold Strategies.get_signal, Strategies.get_signal_try. rewrite H. reflexivity.
Qed.

(** X2.  Whatever the indicators compute, the strategy only ever answers
    with a BUY for a symbol it does not track and with a SELL for a symbol
    it tracks, and the SELL is for exactly the tracked quantity: it never
    adds to a position and never sells what it does not hold. *)
Theorem signal_follows_the_book (self : Strategies.TrendFollowingStrategy) (symbol : string)
    (current_price : float) (price_history : list float) (account_balance : float)
    (s : Strategies.signal) :
  get_signal self symbol current_price price_history account_balance = Return (Some s) ->
  (Strategies.action s = "BUY" /\ Strategies.positions self !! symbol = None)
  \/ (Strategies.action s = "SELL"
      /\ Strategies.positions self !! symbol = Some (Strategies.quantity s)).
Proof.
  intros H. apply get_signal_by_position in H.
  destruct (Strategies.positions self !! symbol) as [held|].
  - right. destruct H as [Ha <-]. auto.
  - left. auto.
Qed.

(** X3.  Recording a trade and asking again: once a BUY of [q] is recorded
    for a symbol, every signal for it is a SELL of [q]; once the SELL is
    recorded, every signal for it is a BUY again; and recording a trade of
    one symbol changes no signal of another symbol. *)
Theorem recorded_trade_decides_next_signal (self : Strategies.TrendFollowingStrategy)
    (symbol other action : string) (q q' : float)
    (current_price : float) (price_history : list float) (account_balance : float) :
  let bought := Strategies.update_position self symbol "BUY" q in
  let sold := Strategies.update_position bought symbol "SELL" q' in
  (forall s,
     get_signal bought symbol current_price price_history account_balance = Return (Some s) ->
     Strategies.action s = "SELL" /\ Strategies.quantity s = q)
  /\ (forall s,
        get_signal sold symbol current_price price_history account_balance = Return (Some s) ->
        Strategies.action s = "BUY")
  /\ (other <> symbol ->
      get_signal (Strategies.update_position self symbol action q) other
        current_price price_history account_balance
      = get_signal self other current_price price_history account_balance).
Proof.
  cbv zeta. split; [|split].
  - intros s H. apply get_signal_by_position in H.
    cbn [Strategies.update_position String.eqb Ascii.eqb Bool.eqb Strategies.positions] in H.
    rewrite lookup_insert_eq in H. exact H.
  - intros s H. apply get_signal_by_position in H.
    cbn [Strategies.update_position String.eqb Ascii.eqb Bool.eqb Strategies.positions] in H.
    rewrite lookup_delete_eq in H. exact H.
  - intros Hne. apply get_signal_reads_one_position.
    unfold Strategies.update_position.
    destruct (String.eqb action "BUY"); [|destruct (String.eqb action "SELL")];
      cbn [Strategies.positions].
    + apply lookup_insert_ne. congruence.
    + apply lookup_delete_ne. congruence.
    + reflexivity.
Qed.

(** X4.  For a tracked symbol the exit test is
    [(short < long and short_before >= long_before) or rsi > 70]: the
    strategy sells the tracked quantity when the averages cross downwards
    at the last index or when the last RSI is above 70, each alone being
    enough, and gives no signal otherwise. *)
Theorem exit_on_reversal_or_overbought (self : Strategies.TrendFollowingStrategy)
    (symbol : string) (current_price : float) (price_history : list float)
    (account_balance : float) (held : float) (atr sma_short sma_long rsi : list float)
    (current_atr atr2 current_rsi rsi2 short1 long1 short2 long2 : float) :
  Strategies.positions self !! symbol = Some held ->
  calculate_atr (highs price_history) (lows price_history) price_history = Return atr ->
  calculate_moving_averages price_history = Return (sma_short, sma_long) ->
  calculate_rsi price_history = Return rsi ->
  Strategies.last1 atr = Return current_atr -> Strategies.last2 atr = Return atr2 ->
  Strategies.last1 rsi = Return current_rsi -> Strategies.last2 rsi = Return rsi2 ->
  Strategies.last1 sma_short = Return short1 -> Strategies.last2 sma_short = Return short2 ->
  Strategies.last1 sma_long = Return long1 -> Strategies.last2 sma_long = Return long2 ->
  let sell :=
    Strategies.mk_signal "SELL" held "Exit signal: trend reversal or overbought" in
  let result := get_signal self symbol current_price price_history account_balance in
  (PyFloat.gtb current_rsi 70 = true -> result = Return (Some sell))
  /\ (PyFloat.ltb short1 long1 = true -> PyFloat.geb short2 long2 = true ->
      result = Return (Some sell))
  /\ (PyFloat.gtb current_rsi 70 = false ->
      PyFloat.ltb short1 long1 && PyFloat.geb short2 long2 = false ->
      result = Return None).
Proof.
  intros Hpos Hatr Hma Hrsi Ha1 Ha2 Hr1 Hr2 Hs1 Hs2 Hl1 Hl2 sell result.
  assert (E : result
              = Return (if PyFloat.ltb short1 long1 && PyFloat.geb short2 long2
                           || PyFloat.gtb current_rsi Strategies.rsi_overbought
                        then Some sell else None)).
  { subst result. unfold Strategies.get_signal, Strategies.get_signal_try.
    rewrite Hatr, Hma, Hrsi.
    rewrite (last2_long _ _ Ha2), (last2_long _ _ Hr2), (last2_long _ _ Hs2),
      (last2_long _ _ Hl2).
    cbn [orb]. rewrite Ha1, Hr1, Hs1, Hl1, Hs2, Hl2, Hpos.
    destruct (_ || _); reflexivity. }
  rewrite E. change Strategies.rsi_overbought with 70%float.
  split; [|split].
  - intros ->. rewrite orb_true_r. reflexivity.
  - intros -> ->. reflexivity.
  - intros -> ->. reflexivity.
Qed.
End PositionTracking.

Lemma signal_follows_the_book_witness :
  let s := Strategies.mk_signal "BUY" 100 "SMA crossover with RSI confirmation" in
  (Strategies.action s = "BUY" /\ Strategies.positions Strategies.init !! "BTCUSD" = None)
  \/ (Strategies.action s = "SELL"
      /\ Strategies.positions Strategies.init !! "BTCUSD" = Some (Strategies.quantity s)).
Proof.
  apply (signal_follows_the_book (Fixtures.constant_atr [1; 1]%float)
           (Fixtures.averages_crossing_at 3) (Fixtures.constant_rsi [50; 50]%float)
           Strategies.init "BTCUSD" 100%float [98; 99; 100]%float 10000%float).
  vm_compute; reflexivity.
Defined.

Lemma exit_on_reversal_or_overbought_witness :
  let self := Strategies.update_position Strategies.init "BTCUSD" "BUY" 100 in
  let sell :=
    Strategies.mk_signal "SELL" 100 "Exit signal: trend reversal or overbought" in
  let result :=
    Strategies.get_signal (Fixtures.constant_atr [1; 1]%float)
      (Fixtures.averages_crossing_at 0) (Fixtures.constant_rsi [50; 80]%float)
      self "BTCUSD" 100%float [98; 99; 100]%float 10000%float in
  (PyFloat.gtb 80 70 = true -> result = Return (Some sell))
  /\ (PyFloat.ltb 1 2 = true -> PyFloat.geb 1 2 = true -> result = Return (Some sell))
  /\ (PyFloat.gtb 80 70 = false ->
      PyFloat.ltb 1 2 && PyFloat.geb 1 2 = false -> result = Return None).
Proof.
  apply (exit_on_reversal_or_overbought (Fixtures.constant_atr [1; 1]%float)
           (Fixtures.averages_crossing_at 0) (Fixtures.constant_rsi [50; 80]%float)
           (Strategies.update_position Strategies.init "BTCUSD" "BUY" 100)
           "BTCUSD" 100%float [98; 99; 100]%float 10000%float 100%float
           [1; 1]%float [1; 1]%float [2; 2]%float [50; 80]%float
           1%float 1%float 80%float 50%float 1%float 2%float 1%float 2%float);
    vm_compute; reflexivity.
Defined.

(** ** Symmetry of the protective levels (bot1.py) *)

Lemma SFadd_opp (x y : spec_float) : SFadd prec emax x (SFopp y) = SFsub prec emax x y.
Proof.
  destruct x as [[]|[]| |[] mx ex], y as [[]|[]| |[] my ey]; reflexivity.
Qed.

Lemma SFsub_opp (x y : spec_float) : SFsub prec emax x (SFopp y) = SFadd prec emax x y.
Proof.
  destruct x as [[]|[]| |[] mx ex], y as [[]|[]| |[] my ey]; reflexivity.
Qed.

(** On floats [x + (-y)] is [x - y] and [x - (-y)] is [x + y], NaN and
    infinities included. *)
Lemma float_add_opp (x y : float) : (x + - y = x - y)%float.
Proof.
  rewrite <- (SF2Prim_Prim2SF (x + - y)), <- (SF2Prim_Prim2SF (x - y)).
  rewrite add_spec, sub_spec, opp_spec, SFadd_opp. reflexivity.
Qed.

Lemma float_sub_opp (x y : float) : (x - - y = x + y)%float.
Proof.
  rewrite <- (SF2Prim_Prim2SF (x - - y)), <- (SF2Prim_Prim2SF (x + y)).
  rewrite add_spec, sub_spec, opp_spec, SFsub_opp. reflexivity.
Qed.

(** X5.  The levels of a SELL mirror those of a BUY: for every price and
    minimum distance, NaN and infinities included, and whether the price is
    a Python float or a numpy one, the take-profit of a SELL is the
    stop-loss of a BUY and the stop-loss of a SELL is the take-profit of a
    BUY; any action that is not the string BUY gets the levels of a SELL. *)
Theorem protective_levels_mirror (k : PyFloat.kind) (action : jval) (p d : float) :
  Bot1.protective_levels k (JStr "SELL") p d
  = (snd (Bot1.protective_levels k (JStr "BUY") p d),
     fst (Bot1.protective_levels k (JStr "BUY") p d))
  /\ (eq_str action "BUY" = false ->
      Bot1.protective_levels k action p d = Bot1.protective_levels k (JStr "SELL") p d).
Proof.
  split.
  - unfold Bot1.protective_levels.
    cbn [eq_str String.eqb Ascii.eqb Bool.eqb fst snd].
    rewrite float_add_opp, float_sub_opp. reflexivity.
  - intros H. unfold Bot1.protective_levels. rewrite H. reflexivity.
Qed.

(** ** The session cache (bot1.py) *)

(** What an exchange leaves as it is: everything but the broker's replies
    and the requests sent. *)
Lemma transmit_keeps (rq : request) (w : world) :
  let w' := snd (transmit rq w) in
  log w' = log w /\ clock w' = clock w /\ threads w' = threads w
  /\ auth_tokens w' = auth_tokens w /\ min_distance w' = min_distance w
  /\ market_data w' = market_data w.
Proof.
  unfold transmit. destruct (broker w !! _) as [[|r rest]|]; repeat split.
Qed.

Lemma send_with_retries_keeps (cfg : Retry) (rq : request) (left : nat) (w : world) :
  let w' := snd (send_with_retries cfg left rq w) in
  log w' = log w /\ clock w' = clock w /\ threads w' = threads w
  /\ auth_tokens w' = auth_tokens w /\ min_distance w' = min_distance w
  /\ market_data w' = market_data w.
Proof.
  revert w. induction left as [|left IH]; intros w; cbn [send_with_retries]; unfold bind;
    pose proof (transmit_keeps rq w) as K; cbv zeta in K;
    destruct (transmit rq w) as [[[resp|]|e] w1]; cbn [snd] in *; try exact K.
  - destruct (_ && _); exact K.
  - destruct (_ && _); [|exact K].
    specialize (IH w1). cbv zeta in IH. destruct IH as (? & ? & ? & ? & ? & ?).
    destruct K as (? & ? & ? & ? & ? & ?). repeat split; congruence.
  - specialize (IH w1). cbv zeta in IH. destruct IH as (? & ? & ? & ? & ? & ?).
    destruct K as (? & ? & ? & ? & ? & ?). repeat split; congruence.
Qed.

(** A response that comes back through the session never has a status of
    the force list (for a method the retries cover): such a reply is
    resent or ends in [RetryError]. *)
Lemma send_with_retries_status (cfg : Retry) (rq : request) (left : nat) (w : world)
    (resp : response) :
  fst (send_with_retries cfg left rq w) = Return resp ->
  is_allowed cfg (rq_method rq) && in_forcelist cfg (status_code resp) = false.
Proof.
  revert w. induction left as [|left IH]; intros w; cbn [send_with_retries]; unfold bind;
    destruct (transmit rq w) as [[[r|]|e] w1]; cbn [fst]; try discriminate.
  - destruct (is_allowed cfg (rq_method rq) && in_forcelist cfg (status_code r)) eqn:E;
      [discriminate|]. intros [= <-]. exact E.
  - destruct (is_allowed cfg (rq_method rq) && in_forcelist cfg (status_code r)) eqn:E;
      [apply IH|]. intros [= <-]. exact E.
  - apply IH.
Qed.

(** A first reply that is not to be retried is the answer, after one
    request. *)
Lemma send_with_retries_once (cfg : Retry) (rq : request) (left : nat) (w : world)
    (resp : response) (rest : list reply) :
  broker w !! (rq_method rq, rq_url rq) = Some (Reply resp :: rest) ->
  is_allowed cfg (rq_method rq) && in_forcelist cfg (status_code resp) = false ->
  send_with_retries cfg left rq w
  = (Return resp,
     set_broker (<[(rq_method rq, rq_url rq) := rest]> (broker w))
       (set_sent (sent w ++ [rq]) w)).
Proof.
  intros Hb Hs. destruct left; cbn [send_with_retries]; unfold bind, transmit;
    rewrite Hb, Hs; reflexivity.
Qed.

(** A body that can be encoded goes on to the adapter. *)
Lemma session_send_encodable (cfg : Retry) (rq : request) :
  encodable_body rq = true -> session_send cfg rq = send_with_retries cfg (total cfg) rq.
Proof. intros H. unfold session_send. rewrite H. reflexivity. Qed.

Section Bot1Session.
Variable rt : runtime.

#[local] Abbreviation session_url := (Bot1.CAPITAL_API_URL ++ "/session").

(** X6.  A session the broker grants (status 200) is cached: one request
    is sent, the tokens of the reply's headers (present or not, their names
    looked up without regard to case) are returned and stored with an
    expiry 600 seconds after the request, and
    every call made before that expiry returns the same tokens and leaves
    the world as it is, without an exchange. *)
Theorem authentication_is_cached (w : world) (resp : response) (rest : list reply) :
  match auth_tokens w with
  | Some (_, _, expiry) => PyFloat.ltb (clock w) expiry = false
  | None => True
  end ->
  broker w !! ("POST", session_url) = Some (Reply resp :: rest) ->
  status_code resp = 200 ->
  let r := Bot1.authenticate rt w in
  let tokens :=
    (header_get "CST" (headers resp), header_get "X-SECURITY-TOKEN" (headers resp)) in
  let now := (clock w + uniform_01_05 rt)%float in
  fst r = Return tokens
  /\ Observed.sent_to "POST" session_url (snd r) = S (Observed.sent_to "POST" session_url w)
  /\ auth_tokens (snd r) = Some (fst tokens, snd tokens, (now + 600)%float)
  /\ forall w', auth_tokens w' = auth_tokens (snd r) ->
                PyFloat.ltb (clock w') (now + 600) = true ->
                Bot1.authenticate rt w' = (Return tokens, w').
Proof.
  intros Hstale Hb H200 r tokens now.
  eassert (E : r = (Return tokens, _)).
  { subst r. unfold Bot1.authenticate. unfold bind at 1, get_world.
    assert (Hf : match auth_tokens w with
                 | Some (cst, x_security, expiry) =>
                     if PyFloat.ltb (clock w) expiry then Some (cst, x_security) else None
                 | None => None
                 end = None).
    { destruct (auth_tokens w) as [[[c x] e]|]; [rewrite Hstale|]; reflexivity. }
    rewrite Hf. unfold bind at 1, time_sleep at 1, modify at 1.
    unfold try_except, bind at 1. rewrite session_send_encodable by reflexivity.
    erewrite send_with_retries_once; [|exact Hb|rewrite H200; reflexivity].
    rewrite H200. cbn [Z.eqb Pos.eqb].
    unfold bind, time_time, modify, ret. cbn [clock set_clock set_broker set_sent].
    reflexivity. }
  rewrite E. cbn [fst snd]. split; [reflexivity|]. split; [|split].
  - rewrite <- (sent_to_transmitted "POST" session_url
                  (Some (JDict [("identifier", JStr "CAPITAL_IDENTIFIER");
                                ("password", JStr "CAPITAL_API_PASSWORD")])) w).
    reflexivity.
  - reflexivity.
  - intros w' Ha Hf.
    apply (bot1_authenticate_cached rt w' _ _ (now + 600)%float); [|exact Hf].
    rewrite Ha. reflexivity.
Qed.

End Bot1Session.

Lemma authentication_is_cached_witness :
  let w := Fixtures.signed_out
             [("POST", Bot1.CAPITAL_API_URL ++ "/session", [Reply Fixtures.session_granted])] in
  let r := Bot1.authenticate Fixtures.runtime0 w in
  let tokens := (Some "cst-1", Some "token-1") in
  fst r = Return tokens
  /\ Observed.sent_to "POST" (Bot1.CAPITAL_API_URL ++ "/session") (snd r) = 1%nat
  /\ auth_tokens (snd r) = Some (Some "cst-1", Some "token-1", 600.25%float)
  /\ forall w', auth_tokens w' = auth_tokens (snd r) ->
                PyFloat.ltb (clock w') 600.25 = true ->
                Bot1.authenticate Fixtures.runtime0 w' = (Return tokens, w').
Proof.
  apply (authentication_is_cached Fixtures.runtime0
           (Fixtures.signed_out
              [("POST", Bot1.CAPITAL_API_URL ++ "/session", [Reply Fixtures.session_granted])])
           Fixtures.session_granted []).
  - exact I.
  - vm_compute; reflexivity.
  - reflexivity.
Defined.

(** ** The minimum distance (bot1.py) *)

Section Bot1MinDistance.
Variable rt : runtime.

(** X8.  With a session and no fresh cached distance, a market description
    answered with 200 gives the distance [minNormalStopOrLimitDistance],
    else [minStopDistance], else 1 (1.0 when both are absent); one request
    is sent, the distance is cached for 3600 seconds, and every lookup
    before that expiry returns it and leaves the world as it is. *)
Theorem min_distance_is_fetched_once (w : world) (symbol : jval) (cst x_security : string)
    (e1 : float) (resp : response) (market : list (string * jval)) (rest : list reply)
    (d : float) :
  auth_tokens w = Some (Some cst, Some x_security, e1) ->
  PyFloat.ltb (clock w) e1 = true ->
  no_tokens (Some cst) (Some x_security) = false ->
  match min_distance w !! str_ rt symbol with
  | Some (_, expiry) => PyFloat.ltb (clock w) expiry = false
  | None => True
  end ->
  broker w !! ("GET", Bot1.CAPITAL_API_URL ++ "/markets/" ++ str_ rt symbol)
    = Some (Reply resp :: rest) ->
  status_code resp = 200 ->
  json resp = Some (JDict market) ->
  float_ rt (dict_get_default "minNormalStopOrLimitDistance"
               (dict_get_default "minStopDistance" (JInt 1) market) market) = Return d ->
  let r := Bot1.get_min_distance rt symbol w in
  let expiry := (clock w + 3600)%float in
  fst r = Return (Some d)
  /\ (dict_get "minNormalStopOrLimitDistance" market = None ->
      dict_get "minStopDistance" market = None -> d = 1%float)
  /\ min_distance (snd r) !! str_ rt symbol = Some (d, expiry)
  /\ sent (snd r)
     = (sent w ++ [mk_request "GET" (Bot1.CAPITAL_API_URL ++ "/markets/" ++ str_ rt symbol)
                     None])%list
  /\ forall w', min_distance w' !! str_ rt symbol = Some (d, expiry) ->
                PyFloat.ltb (clock w') expiry = true ->
                Bot1.get_min_distance rt symbol w' = (Return (Some d), w').
Proof.
  intros Ha Hf1 Htok Hstale Hb H200 Hjson Hd r expiry.
  eassert (E : r = (Return (Some d), _)).
  { subst r. unfold Bot1.get_min_distance. unfold bind at 1, get_world.
    assert (Hf : match min_distance w !! str_ rt symbol with
                 | Some (distance, expiry) =>
                     if PyFloat.ltb (clock w) expiry then Some distance else None
                 | None => None
                 end = None).
    { destruct (min_distance w !! str_ rt symbol) as [[c e]|]; [rewrite Hstale|];
        reflexivity. }
    rewrite Hf. unfold bind at 1. rewrite (bot1_authenticate_cached rt w _ _ _ Ha Hf1).
    rewrite Htok. unfold try_except, bind at 1.
    rewrite session_send_encodable by reflexivity.
    erewrite send_with_retries_once; [|exact Hb|rewrite H200; reflexivity].
    rewrite H200. cbn [Z.eqb Pos.eqb].
    unfold bind at 1, response_json. rewrite Hjson.
    cbn [ret get_default lift]. unfold bind at 1. cbn [lift]. unfold bind at 1. cbn [lift].
    unfold bind at 1. cbn [lift].
    rewrite Hd. unfold bind, time_time, modify, ret.
    cbn [clock set_clock set_broker set_sent]. reflexivity. }
  rewrite E. cbn [fst snd]. split; [reflexivity|]. split; [|split; [|split]].
  - intros H1 H2. unfold dict_get_default in Hd. rewrite H1, H2 in Hd.
    vm_compute in Hd. congruence.
  - cbn [min_distance set_min_distance]. apply lookup_insert_eq.
  - reflexivity.
  - intros w' Hc Hf. apply (bot1_get_min_distance_cached rt w' symbol d expiry Hc Hf).
Qed.
End Bot1MinDistance.

Lemma min_distance_is_fetched_once_witness :
  let market := [("minStopDistance", JFloat 0.5);
                 ("minNormalStopOrLimitDistance", JFloat 0.3)] in
  let url := Bot1.CAPITAL_API_URL ++ "/markets/BTCUSD" in
  let w := Fixtures.world0 [("GET", url, [Fixtures.ok (JDict market)])] in
  let r := Bot1.get_min_distance Fixtures.runtime0 (JStr "BTCUSD") w in
  fst r = Return (Some 0.3%float)
  /\ (dict_get "minNormalStopOrLimitDistance" market = None ->
      dict_get "minStopDistance" market = None -> 0.3%float = 1%float)
  /\ min_distance (snd r) !! "BTCUSD" = Some (0.3%float, 3600%float)
  /\ sent (snd r) = [mk_request "GET" url None]
  /\ forall w', min_distance w' !! "BTCUSD" = Some (0.3%float, 3600%float) ->
                PyFloat.ltb (clock w') 3600 = true ->
                Bot1.get_min_distance Fixtures.runtime0 (JStr "BTCUSD") w'
                = (Return (Some 0.3%float), w').
Proof.
  intros market url w.
  apply (min_distance_is_fetched_once Fixtures.runtime0 w (JStr "BTCUSD") "CST" "TOKEN" 600
           {| status_code := 200; headers := []; json := Some (JDict market) |}
           market [] 0.3);
    vm_compute; reflexivity.
Defined.

(** ** How often a request is sent *)

Section AtMost.
Variable method url : string.

#[local] Abbreviation at_most n := (Observed.at_most n method url).

Lemma at_most_framed {A : Type} (c : M A) : Observed.framed method url c -> at_most 0 c.
Proof. intros H w. destruct (H w) as (_ & S & _). lia. Qed.

Lemma at_most_weaken {A : Type} (n k : nat) (c : M A) :
  (n <= k)%nat -> at_most n c -> at_most k c.
Proof. intros Hle H w. specialize (H w). lia. Qed.

Lemma at_most_bind {A B : Type} (n k : nat) (c : M A) (f : A -> M B) :
  at_most n c -> (forall a, at_most k (f a)) -> at_most (n + k) (bind c f).
Proof.
  intros Hc Hf w. unfold bind. specialize (Hc w).
  destruct (c w) as [[a|e] w1]; cbn [snd] in *.
  - specialize (Hf a w1). lia.
  - lia.
Qed.

Lemma at_most_try_except {A : Type} (n k : nat) (c : M A) (handler : exn -> M A) :
  at_most n c -> (forall e, at_most k (handler e)) -> at_most (n + k) (try_except c handler).
Proof.
  intros Hc Hh w. unfold try_except. specialize (Hc w).
  destruct (c w) as [[a|e] w1]; cbn [snd] in *.
  - lia.
  - specialize (Hh e w1). lia.
Qed.

Lemma at_most_transmit (rq : request) : at_most 1 (transmit rq).
Proof.
  intros w. unfold transmit.
  assert (Hs : (Observed.sent_to method url (set_sent (sent w ++ [rq]) w)
                <= Observed.sent_to method url w + 1)%nat).
  { unfold Observed.sent_to. cbn [sent set_sent].
    rewrite List.filter_app, length_app. cbn [List.filter].
    destruct (_ && _); cbn [length]; lia. }
  destruct (broker w !! (rq_method rq, rq_url rq)) as [[|r rest]|]; cbn [snd]; exact Hs.
Qed.

(** A request through the session is sent at most once more than there
    are retries. *)
Lemma at_most_send_with_retries (cfg : Retry) (rq : request) (left : nat) :
  at_most (S left) (send_with_retries cfg left rq).
Proof.
  induction left as [|left IH]; cbn [send_with_retries].
  - apply (at_most_bind 1 0); [apply at_most_transmit|].
    intros [resp|]; apply at_most_framed;
      [destruct (_ && _); [apply framed_raise|apply framed_ret]|apply framed_raise].
  - apply (at_most_bind 1 (S left)); [apply at_most_transmit|].
    intros [resp|]; [|exact IH].
    destruct (_ && _); [exact IH|].
    apply (at_most_weaken 0); [lia|]. apply at_most_framed, framed_ret.
Qed.
(** So is a request through a session of [create_session]; one whose body
    cannot be encoded is not sent at all. *)
Lemma at_most_session_send (cfg : Retry) (rq : request) :
  at_most (S (total cfg)) (session_send cfg rq).
Proof.
  unfold session_send. destruct (negb (encodable_body rq)).
  - apply (at_most_weaken 0); [lia|]. apply at_most_framed, framed_raise.
  - apply at_most_send_with_retries.
Qed.
End AtMost.

(** Two endpoints of the broker differ: by their methods, or by what
    follows the base URL. *)
Ltac endpoints_differ :=
  cbn [rq_method rq_url];
  first [ congruence
        | let E := fresh "E" in
          intros [= E]; apply append_cancel in E; cbn in E; discriminate ].

Ltac frame_step_at :=
  lazymatch goal with
  | |- Observed.framed _ _ (requests_send _) =>
      apply framed_requests_send; endpoints_differ
  | |- Observed.framed _ _ (send_with_retries _ _ _) =>
      apply framed_send_with_retries; endpoints_differ
  | |- _ => frame_step
  end.

(** ** Orders (bot1.py) *)

Section Bot1Orders.
Variable rt : runtime.

#[local] Abbreviation order_url := (Bot1.CAPITAL_API_URL ++ "/positions").

Lemma bot1_authenticate_leaves_orders :
  Observed.framed "POST" order_url (Bot1.authenticate rt).
Proof.
  unfold Bot1.authenticate, Bot1.log_failure, session_send. repeat frame_step_at.
Qed.

Lemma bot1_get_min_distance_leaves_orders (symbol : jval) :
  Observed.framed "POST" order_url (Bot1.get_min_distance rt symbol).
Proof.
  unfold Bot1.get_min_distance, Bot1.log_failure, session_send, response_json.
  repeat first [apply bot1_authenticate_leaves_orders | frame_step_at].
Qed.

Lemma bot1_update_tp_leaves_orders (deal_id new_tp : jval) :
  Observed.framed "POST" order_url (Bot1.update_tp rt deal_id new_tp).
Proof.
  unfold Bot1.update_tp, Bot1.log_failure, session_send.
  repeat first [apply bot1_authenticate_leaves_orders | frame_step_at].
Qed.

Lemma bot1_authenticate_returns (w : world) :
  exists tokens, fst (Bot1.authenticate rt w) = Return tokens.
Proof.
  unfold Bot1.authenticate. unfold bind at 1, get_world.
  destruct (match auth_tokens w with Some _ => _ | None => _ end) as [tokens|];
    [eexists; reflexivity|].
  unfold bind at 1, time_sleep at 1, modify at 1. unfold try_except.
  match goal with |- context [let (_, _) := ?c ?w1 in _] => destruct (c w1) as [[a|e] w2] end;
    eexists; reflexivity.
Qed.

Lemma bot1_get_min_distance_returns (symbol : jval) (w : world) :
  exists found, fst (Bot1.get_min_distance rt symbol w) = Return found.
Proof.
  unfold Bot1.get_min_distance. unfold bind at 1, get_world.
  destruct (match min_distance w !! str_ rt symbol with Some _ => _ | None => _ end)
    as [d|]; [eexists; reflexivity|].
  unfold bind at 1. destruct (bot1_authenticate_returns w) as [[cst x_security] R].
  destruct (Bot1.authenticate rt w) as [[tokens|e] w1]; [|discriminate R].
  injection R as ->. destruct (no_tokens cst x_security); [eexists; reflexivity|].
  unfold try_except.
  match goal with |- context [let (_, _) := ?c ?w1 in _] => destruct (c w1) as [[a|e] w2] end;
    eexists; reflexivity.
Qed.

Section AnyVerification.
Variable verify_position_and_orders : jval -> option string -> option string -> M unit.
Variable verify_tp : jval -> float -> M unit.

#[local] Abbreviation trade_action :=
  (Bot1.trade_action rt verify_position_and_orders verify_tp).

(** X9.  [trade_action] answers its failures itself: for a symbol that
    can be looked up in [LOT_SIZES] and an action other than UPDATE_TP the
    call returns in every world, whatever the broker answers and whatever
    the verification chain does or raises. *)
Theorem trade_action_answers_its_failures (symbol action : jval) (k : PyFloat.kind) (price : float)
    (mode : string) (lot_size : jval) (w : world) :
  Bot1.lot_size_of symbol = Return lot_size ->
  eq_str action "UPDATE_TP" = false ->
  fst (trade_action symbol action k price mode w) = Return tt.
Proof.
  intros Hlot Hact. unfold Bot1.trade_action. unfold bind at 1.
  destruct (bot1_authenticate_returns w) as [[cst x_security] R].
  destruct (Bot1.authenticate rt w) as [[tokens|e] w1]; [|discriminate R].
  injection R as ->. destruct (no_tokens cst x_security); [reflexivity|].
  rewrite Hact, Hlot. unfold bind at 1. cbn [lift]. unfold bind at 1.
  destruct (bot1_get_min_distance_returns symbol w1) as [found R].
  destruct (Bot1.get_min_distance rt symbol w1) as [[found'|e] w2]; [|discriminate R].
  injection R as ->. destruct found as [d|]; [|reflexivity].
  destruct (Bot1.protective_levels k action price d) as [tp sl].
  unfold bind at 1, logging at 1, modify at 1. unfold try_except.
  match goal with |- context [let (_, _) := ?c ?w1 in _] => destruct (c w1) as [[[]|e] w3] end;
    reflexivity.
Qed.

(** X10.  No order without a session or without a minimum distance: when
    [authenticate] gives no tokens, or gives tokens but the distance
    lookup returns [None], [trade_action] returns after one error line and
    no order has been sent. *)
Theorem no_order_without_session_or_distance (symbol action : jval) (k : PyFloat.kind) (price : float)
    (mode : string) (w : world) :
  let a := Bot1.authenticate rt w in
  let found := Bot1.get_min_distance rt symbol (snd a) in
  let r := trade_action symbol action k price mode w in
  (forall cst x_security,
     fst a = Return (cst, x_security) -> no_tokens cst x_security = true ->
     fst r = Return tt
     /\ Observed.orders (snd r) = Observed.orders w
     /\ log (snd r)
        = (log (snd a) ++ [(ERROR, "Authentication failed. Cannot execute trade.")])%list)
  /\ (forall cst x_security lot_size,
        fst a = Return (cst, x_security) -> no_tokens cst x_security = false ->
        eq_str action "UPDATE_TP" = false ->
        Bot1.lot_size_of symbol = Return lot_size ->
        fst found = Return None ->
        fst r = Return tt
        /\ Observed.orders (snd r) = Observed.orders w
        /\ log (snd r)
           = (log (snd found)
              ++ [(ERROR, "Failed to get minimum TP/SL distance. Skipping trade.")])%list).
Proof.
  intros a found r.
  pose proof (bot1_authenticate_leaves_orders w) as (_ & Sa & _). fold a in Sa.
  pose proof (bot1_get_min_distance_leaves_orders symbol (snd a)) as (_ & Sd & _).
  fold found in Sd.
  change (Observed.sent_to "POST" order_url) with Observed.orders in Sa, Sd.
  split.
  - intros cst x_security Ha Htok.
    assert (E : r = (Return tt,
                     set_log (log (snd a)
                              ++ [(ERROR, "Authentication failed. Cannot execute trade.")])
                       (snd a))).
    { subst r. unfold Bot1.trade_action. unfold bind at 1. fold a.
      destruct a as [[tokens|e] w1]; cbn [fst snd] in *; [|discriminate Ha].
      injection Ha as ->. rewrite Htok. reflexivity. }
    rewrite E. cbn [fst snd log set_log]. repeat split. exact Sa.
  - intros cst x_security lot_size Ha Htok Hact Hlot Hfound.
    assert (E : r = (Return tt,
                     set_log (log (snd found)
                              ++ [(ERROR,
                                   "Failed to get minimum TP/SL distance. Skipping trade.")])
                       (snd found))).
    { subst r. unfold Bot1.trade_action. unfold bind at 1. subst found. fold a.
      destruct a as [[tokens|e] w1]; cbn [fst snd] in *; [|discriminate Ha].
      injection Ha as ->. rewrite Htok, Hact, Hlot.
      unfold bind at 1. cbn [lift]. unfold bind at 1.
      destruct (Bot1.get_min_distance rt symbol w1) as [[d|e] w2]; cbn [fst snd] in *;
        [|discriminate Hfound].
      injection Hfound as ->. reflexivity. }
    rewrite E. cbn [fst snd log set_log]. repeat split.
    transitivity (Observed.orders (snd found)); [reflexivity|congruence].
Qed.

Hypothesis verification_leaves_orders :
  forall deal_reference cst x_security,
    Observed.framed "POST" order_url
      (verify_position_and_orders deal_reference cst x_security).
Hypothesis verify_tp_leaves_orders :
  forall deal_id tp, Observed.framed "POST" order_url (verify_tp deal_id tp).

Lemma trade_action_at_most (symbol action : jval) (k : PyFloat.kind) (price : float) (mode : string) :
  Observed.at_most 4 "POST" order_url (trade_action symbol action k price mode).
Proof.
  unfold Bot1.trade_action.
  apply (at_most_bind _ _ 0 4); [apply at_most_framed, bot1_authenticate_leaves_orders|].
  intros [cst x_security].
  destruct (no_tokens cst x_security);
    [apply (at_most_weaken _ _ 0 4); [lia|]; apply at_most_framed; frame_step|].
  destruct (eq_str action "UPDATE_TP");
    [apply (at_most_weaken _ _ 0 4); [lia|]; apply at_most_framed, framed_raise|].
  apply (at_most_bind _ _ 0 4); [apply at_most_framed, framed_lift|]. intros lot_size.
  apply (at_most_bind _ _ 0 4);
    [apply at_most_framed, bot1_get_min_distance_leaves_orders|].
  intros [d|]; [|apply (at_most_weaken _ _ 0 4); [lia|]; apply at_most_framed; frame_step].
  destruct (Bot1.protective_levels k action price d) as [tp sl].
  apply (at_most_bind _ _ 0 4); [apply at_most_framed; frame_step|]. intros _.
  apply (at_most_try_except _ _ 4 0); [|intros e; apply at_most_framed; frame_step].
  apply (at_most_bind _ _ 4 0); [apply (at_most_session_send _ _ Bot1.create_session)|].
  intros response.
  apply at_most_framed. unfold Bot1.log_failure, response_json.
  repeat first [apply verification_leaves_orders | apply verify_tp_leaves_orders | frame_step].
Qed.
End AnyVerification.

(** The verification chain sends no order. *)
Lemma verification_chain_leaves_orders (deal_reference : jval)
    (cst x_security : option string) :
  Observed.framed "POST" order_url
    (Bot1Verification.verify_position_and_orders rt deal_reference cst x_security).
Proof.
  assert (Hdetails : forall deal_id,
             Observed.framed "POST" order_url
               (Bot1Verification.get_position_details deal_id cst x_security)).
  { intros deal_id.
    unfold Bot1Verification.get_position_details, Bot1Verification.listed_positions,
      session_send, response_json.
    repeat frame_step_at. }
  assert (Hupdate : forall symbol tp,
             Observed.framed "POST" order_url
               (Bot1Verification.update_take_profit rt symbol tp cst x_security)).
  { intros symbol tp.
    unfold Bot1Verification.update_take_profit, Bot1Verification.listed_positions,
      Bot1.log_failure, session_send, response_json.
    repeat frame_step_at. }
  assert (Hset : forall deal_id symbol price direction,
             Observed.framed "POST" order_url
               (Bot1Verification.set_take_profit_after_open rt deal_id symbol price
                  direction cst x_security)).
  { intros deal_id symbol price direction.
    unfold Bot1Verification.set_take_profit_after_open, Bot1.log_failure, session_send.
    repeat first [apply bot1_get_min_distance_leaves_orders | frame_step_at]. }
  assert (Hinspect : forall position_data,
             Observed.framed "POST" order_url
               (Bot1Verification.inspect_confirmation rt position_data cst x_security)).
  { intros position_data. unfold Bot1Verification.inspect_confirmation.
    repeat first [frame_step_at | apply Hdetails | apply Hupdate | apply Hset]. }
  assert (Hverify : Observed.framed "POST" order_url
                      (Bot1Verification.verify_position rt deal_reference cst x_security)).
  { unfold Bot1Verification.verify_position, Bot1.log_failure, session_send, response_json.
    repeat first [apply Hinspect | frame_step_at]. }
  assert (Horders : Observed.framed "POST" order_url (Bot1Verification.get_working_orders rt)).
  { unfold Bot1Verification.get_working_orders, session_send, response_json.
    repeat first [apply bot1_authenticate_leaves_orders | frame_step_at]. }
  assert (Hcreate : forall deal_id position,
             Observed.framed "POST" order_url
               (Bot1Verification.create_take_profit_order rt deal_id position)).
  { intros deal_id position.
    unfold Bot1Verification.create_take_profit_order, session_send, response_json.
    repeat first [apply bot1_authenticate_leaves_orders | frame_step_at]. }
  unfold Bot1Verification.verify_position_and_orders.
  repeat first [frame_step_at | apply Hverify | apply Horders | apply Hcreate].
Qed.

Lemma verify_tp_leaves_orders (deal_id : jval) (tp : float) :
  Observed.framed "POST" order_url (Bot1Verification.verify_tp rt deal_id tp).
Proof.
  unfold Bot1Verification.verify_tp, Bot1.log_failure, session_send, response_json.
  repeat first [frame_step_at | apply bot1_authenticate_leaves_orders
               | apply bot1_update_tp_leaves_orders].
Qed.

End Bot1Orders.

Lemma trade_action_answers_its_failures_witness :
  fst (Bot1.trade_action Fixtures.runtime0 Fixtures.no_verification Fixtures.no_verify_tp
         (JStr "BTCUSD") (JStr "BUY") PyFloat.numpy 100 "SCALP" (Fixtures.signed_out []))
  = Return tt.
Proof.
  apply (trade_action_answers_its_failures Fixtures.runtime0 Fixtures.no_verification
           Fixtures.no_verify_tp (JStr "BTCUSD") (JStr "BUY") PyFloat.numpy 100 "SCALP" (JFloat 0.001)
           (Fixtures.signed_out []));
    reflexivity.
Defined.

(** ** Positions that are no JSON objects (bot1.py) *)

Section Bot1Malformed.
Variable rt : runtime.
Variable verify_position_and_orders : jval -> option string -> option string -> M unit.
Variable verify_tp : jval -> float -> M unit.

#[local] Abbreviation monitor_position :=
  (Bot1.monitor_position rt verify_position_and_orders verify_tp).
#[local] Abbreviation monitor_positions :=
  (Bot1.monitor_positions rt verify_position_and_orders verify_tp).

(** X12.  The handler of bot1's loop protects the pass from a bad position
    only when the position is a JSON object: a listed position that is
    anything else makes the handler itself raise ([trade.get] in its log
    line), the loop ends there with [AttributeError] in the world the
    positions before it left, and the positions after it are not
    processed. *)
Theorem bot1_pass_ends_at_a_position_that_is_no_object (before after : list jval)
    (bad : jval) (w : world) :
  Forall (fun t => exists d, t = JDict d) before ->
  (forall d, bad <> JDict d) ->
  monitor_positions (before ++ bad :: after) w
  = (Raise AttributeError, snd (monitor_positions before w)).
Proof.
  intros Hbefore Hbad.
  assert (Hone : forall w, monitor_position bad w = (Raise AttributeError, w)).
  { intros w0. unfold Bot1.monitor_position, Bot1.adjust_take_profit, try_except.
    destruct bad; try reflexivity. exfalso. eapply Hbad. reflexivity. }
  revert w. induction Hbefore as [|t before [d ->] _ IH]; intros w.
  - cbn [app]. rewrite bot1_monitor_positions_cons, Hone. reflexivity.
  - cbn [app]. rewrite !bot1_monitor_positions_cons.
    pose proof (bot1_monitor_position_returns rt verify_position_and_orders verify_tp d w)
      as R.
    destruct (monitor_position (JDict d) w) as [[[]|e] w1]; [apply IH|discriminate R].
Qed.
End Bot1Malformed.

Lemma bot1_pass_ends_at_a_position_that_is_no_object_witness :
  let first := Fixtures.position "D1" "BTCUSD" "BUY" (JInt 100) [("limitLevel", JInt 101)] in
  let last := Fixtures.position "D2" "ETHUSD" "BUY" (JInt 100) [("limitLevel", JInt 100)] in
  let w := Fixtures.world0 [] in
  Bot1.monitor_positions Fixtures.runtime0 Fixtures.no_verification Fixtures.no_verify_tp
    ([first] ++ JNull :: [last]) w
  = (Raise AttributeError,
     snd (Bot1.monitor_positions Fixtures.runtime0 Fixtures.no_verification
            Fixtures.no_verify_tp [first] w)).
Proof.
  intros first last w.
  apply (bot1_pass_ends_at_a_position_that_is_no_object Fixtures.runtime0
           Fixtures.no_verification Fixtures.no_verify_tp [first] [last] JNull w).
  - repeat constructor. eexists. reflexivity.
  - discriminate.
Defined.

(** ** Repair of missing take-profits (bot1.py) *)

Section Bot1Repair.
Variable rt : runtime.

#[local] Abbreviation positions_url := (Bot1.CAPITAL_API_URL ++ "/positions").

(** A position [fix_missing_take_profits] can read and finds complete: an
    object whose [level] converts to a float and whose [limitLevel] is
    there and not null. *)
#[local] Abbreviation has_take_profit :=
  (fun p : jval =>
     exists d, p = JDict d
               /\ (exists entry, float_ rt (dict_get_default "level" (JInt 0) d) = Return entry)
               /\ (exists tp, dict_get "limitLevel" d = Some tp /\ tp <> JNull)).

Lemma fix_positions_idle (cst x_security : option string) (positions : list jval)
    (w : world) :
  Forall has_take_profit positions ->
  Bot1Verification.fix_positions rt cst x_security positions w = (Return tt, w).
Proof.
  induction 1 as [|p positions (d & -> & (entry & He) & (tp & Htp & Hnull)) _ IH].
  - reflexivity.
  - cbn [Bot1Verification.fix_positions]. unfold bind at 1.
    assert (E : Bot1Verification.fix_position rt cst x_security (JDict d) w = (Return tt, w)).
    { unfold Bot1Verification.fix_position, bind, lift. cbn [get get_default].
      rewrite He. unfold PyOps.lacks, contains, item, dict_has, dict_item. rewrite Htp.
      destruct tp; try reflexivity. contradiction. }
    rewrite E. exact IH.
Qed.

(** X13.  [fix_missing_take_profits] changes nothing where nothing is
    missing: with a session, when the broker lists positions that all have
    a [level] that converts and a [limitLevel] that is there and not null,
    the call sends the listing request and nothing else, logs nothing and
    returns. *)
Theorem fix_missing_take_profits_is_idle (w : world) (cst x_security : string)
    (expiry : float) (resp : response) (rest : list reply) (data : list (string * jval))
    (positions : list jval) :
  auth_tokens w = Some (Some cst, Some x_security, expiry) ->
  PyFloat.ltb (clock w) expiry = true ->
  no_tokens (Some cst) (Some x_security) = false ->
  broker w !! ("GET", positions_url) = Some (Reply resp :: rest) ->
  status_code resp = 200 ->
  json resp = Some (JDict data) ->
  dict_get_default "positions" (JList []) data = JList positions ->
  Forall has_take_profit positions ->
  Bot1Verification.fix_missing_take_profits rt w
  = (Return tt,
     set_broker (<[("GET", positions_url) := rest]> (broker w))
       (set_sent (sent w ++ [mk_request "GET" positions_url None]) w)).
Proof.
  intros Ha Hf Htok Hb H200 Hjson Hpos Hall.
  unfold Bot1Verification.fix_missing_take_profits. unfold bind at 1.
  rewrite (bot1_authenticate_cached rt w _ _ _ Ha Hf), Htok.
  unfold try_except, bind at 1. rewrite session_send_encodable by reflexivity.
  erewrite send_with_retries_once; [|exact Hb|rewrite H200; reflexivity].
  rewrite H200. cbn [Z.eqb Pos.eqb].
  unfold bind at 1, Bot1Verification.listed_positions, bind at 1, response_json.
  rewrite Hjson. cbn [ret]. unfold bind at 1. cbn [lift get_default]. rewrite Hpos.
  cbn [lift iter_]. rewrite (fix_positions_idle _ _ _ _ Hall). reflexivity.
Qed.

End Bot1Repair.

Lemma fix_missing_take_profits_is_idle_witness :
  let positions :=
    [Fixtures.position "D1" "BTCUSD" "BUY" (JInt 100) [("limitLevel", JFloat 100.5)];
     Fixtures.position "D2" "ETHUSD" "SELL" (JInt 200) [("limitLevel", JInt 199)]] in
  let url := Bot1.CAPITAL_API_URL ++ "/positions" in
  let w := Fixtures.world0 [("GET", url, [Fixtures.ok (JDict [("positions", JList positions)])])] in
  Bot1Verification.fix_missing_take_profits Fixtures.runtime0 w
  = (Return tt,
     set_broker (<[("GET", url) := []]> (broker w))
       (set_sent (sent w ++ [mk_request "GET" url None]) w)).
Proof.
  intros positions url w.
  apply (fix_missing_take_profits_is_idle Fixtures.runtime0 w "CST" "TOKEN" 600
           {| status_code := 200; headers := [];
              json := Some (JDict [("positions", JList positions)]) |}
           [] [("positions", JList positions)] positions);
    try (vm_compute; reflexivity).
  repeat constructor; eexists; (split; [reflexivity|]); split; eexists;
    try (split; [reflexivity|discriminate]); vm_compute; reflexivity.
Defined.


(** ** Verification of an opened position (bot1.py) *)

Section Bot1Confirmation.
Variable rt : runtime.

#[local] Abbreviation confirmation deal_reference :=
  (mk_request "GET" (Bot1.CAPITAL_API_URL ++ "/confirms/" ++ str_ rt deal_reference) None).

Lemma verify_position_unbound (deal_reference : jval) (cst x_security : option string)
    (w : world) :
  (forall resp,
     fst (session_send Bot1.create_session (confirmation deal_reference)
            (set_clock (clock w + 2) w)) = Return resp ->
     status_code resp <> 200) ->
  exists w',
    Bot1Verification.verify_position rt deal_reference cst x_security w
    = (Raise UnboundLocalError, w').
Proof.
  intros Hno. unfold Bot1Verification.verify_position.
  unfold bind at 1, time_sleep at 1, modify at 1. unfold bind at 1, try_except, bind at 1.
  destruct (session_send Bot1.create_session (confirmation deal_reference)
              (set_clock (clock w + 2) w)) as [[resp|e] w1].
  - specialize (Hno resp eq_refl).
    destruct (Z.eqb_spec (status_code resp) 200) as [H200|_]; [contradiction|].
    eexists. reflexivity.
  - eexists. reflexivity.
Qed.

(** X15.  [verify_position] ends in [return position_data], a name that
    is bound only after the confirmation was answered with 200: when the
    request for the confirmation fails or is answered with another status,
    the handler logs the failure and the function then raises
    [UnboundLocalError], and so does [verify_position_and_orders], which
    has no handler. *)
Theorem unconfirmed_position_raises (deal_reference : jval)
    (cst x_security : option string) (w : world) :
  (forall resp,
     fst (session_send Bot1.create_session (confirmation deal_reference)
            (set_clock (clock w + 2) w)) = Return resp ->
     status_code resp <> 200) ->
  fst (Bot1Verification.verify_position rt deal_reference cst x_security w)
  = Raise UnboundLocalError
  /\ fst (Bot1Verification.verify_position_and_orders rt deal_reference cst x_security w)
     = Raise UnboundLocalError.
Proof.
  intros Hno.
  destruct (verify_position_unbound deal_reference cst x_security w Hno) as [w' E].
  split.
  - rewrite E. reflexivity.
  - unfold Bot1Verification.verify_position_and_orders. unfold bind at 1. rewrite E.
    reflexivity.
Qed.

End Bot1Confirmation.

Lemma unconfirmed_position_raises_witness :
  fst (Bot1Verification.verify_position Fixtures.runtime0 (JStr "REF1") (Some "CST")
         (Some "TOKEN") (Fixtures.world0 []))
  = Raise UnboundLocalError
  /\ fst (Bot1Verification.verify_position_and_orders Fixtures.runtime0 (JStr "REF1")
            (Some "CST") (Some "TOKEN") (Fixtures.world0 []))
     = Raise UnboundLocalError.
Proof.
  apply (unconfirmed_position_raises Fixtures.runtime0 (JStr "REF1") (Some "CST")
           (Some "TOKEN") (Fixtures.world0 [])).
  intros resp. vm_compute. discriminate.
Defined.


(** ** Looking up a position (bot1.py) *)

(** A value equal to a string is that string. *)
Lemma eq_string (v : jval) (s : string) : PyOps.eq_ v (JStr s) = true -> v = JStr s.
Proof.
  destruct v; cbn; try discriminate. intros H. apply String.eqb_eq in H. congruence.
Qed.

Lemma find_by_sound (key : string) (value : jval) (positions : list jval) (p : jval) :
  Bot1Verification.find_by key value positions = Return (Some p) ->
  In p positions /\ exists v, get key p = Return v /\ PyOps.eq_ v value = true.
Proof.
  induction positions as [|q positions IH]; cbn [Bot1Verification.find_by]; [discriminate|].
  destruct (get key q) as [v|e] eqn:G; [|discriminate].
  destruct (PyOps.eq_ v value) eqn:E.
  - intros [= <-]. split; [left; reflexivity|eauto].
  - intros H. destruct (IH H) as [Hin Hv]. split; [right; exact Hin|exact Hv].
Qed.


(** ** What a caller of [_make_request] sees (api_client.py) *)

Section ApiRequests.
Variable stack_overflow : M unit.
Variable self : ApiClient.CapitalComClient.

#[local] Abbreviation _make_request := (ApiClient._make_request stack_overflow).

(** The signature of a request logs at most its own failure. *)
Lemma generate_signature_logs (w : world) :
  exists signed w' between,
    ApiClient._generate_signature self w = (Return signed, w')
    /\ broker w' = broker w
    /\ sent w' = sent w
    /\ log w' = (log w ++ between)%list
    /\ Forall (fun e => snd e = "Error generating signature") between.
Proof.
  unfold ApiClient._generate_signature.
  destruct (ApiClient.password self) as [p|].
  - exists true, w, []. rewrite app_nil_r. repeat split. constructor.
  - exists false, (set_log (log w ++ [(ERROR, "Error generating signature")]) w),
      [(ERROR, "Error generating signature")].
    repeat split. repeat constructor.
Qed.

(** A request whose first answer is not a 401 is sent once, with the data
    when it is a [POST] or a [PUT], and that answer is returned. *)
Lemma make_request_first_answer (method endpoint : string) (data : option jval)
    (depth : nat) (resp : response) (rest : list reply) (w : world) :
  let url := ApiClient.base_url self ++ endpoint in
  let body := if String.eqb method "POST" || String.eqb method "PUT" then data else None in
  In method ["GET"; "POST"; "PUT"; "DELETE"] ->
  encodable_body (mk_request method url body) = true ->
  broker w !! (method, url) = Some (Reply resp :: rest) ->
  status_code resp <> 401 ->
  exists w' between,
    _make_request (S depth) self method endpoint data w = (Return (Some resp), w')
    /\ sent w' = (sent w ++ [mk_request method url body])%list
    /\ log w' = (log w ++ between)%list
    /\ Forall (fun e => snd e = "Error generating signature") between.
Proof.
  intros url body Hm Henc Hb Hn401.
  destruct (generate_signature_logs w) as (signed & w0 & between & E0 & B0 & S0 & L0 & F0).
  assert (Hd : (if String.eqb method "GET" then requests_send (mk_request "GET" url None)
                else if String.eqb method "POST"
                     then requests_send (mk_request "POST" url data)
                else if String.eqb method "PUT"
                     then requests_send (mk_request "PUT" url data)
                else if String.eqb method "DELETE"
                     then requests_send (mk_request "DELETE" url None)
                else raise UnboundLocalError)
               = requests_send (mk_request method url body)).
  { subst body. cbn [In] in Hm. destruct Hm as [<-|[<-|[<-|[<-|[]]]]]; reflexivity. }
  exists (set_broker (<[(method, url) := rest]> (broker w0))
            (set_sent (sent w0 ++ [mk_request method url body]) w0)), between.
  split; [|cbn [sent log set_broker set_sent]; rewrite S0; auto].
  cbn [ApiClient._make_request]. fold url. rewrite Hd.
  unfold try_except at 1, bind at 1. rewrite E0.
  unfold bind at 1, requests_send. rewrite Henc. cbn [negb].
  unfold bind at 1, transmit. cbn [rq_method rq_url]. rewrite B0, Hb.
  cbn beta iota delta [ret].
  destruct (Z.eqb_spec (status_code resp) 401); [contradiction|reflexivity].
Qed.

Lemma make_request_no_401 (method endpoint : string) (data : option jval) :
  forall (depth : nat) (w : world) (resp : response),
  fst (_make_request depth self method endpoint data w) = Return (Some resp) ->
  status_code resp <> 401.
Proof.
  induction depth as [|depth IH]; intros w resp; cbn [ApiClient._make_request].
  { unfold bind. destruct (stack_overflow w) as [[[]|e] w1]; discriminate. }
  unfold try_except, bind at 1.
  destruct (generate_signature_returns self w) as (signed & w0 & -> & _).
  unfold bind at 1.
  match goal with
  | |- context [let (_, _) := ?c w0 in _] => destruct (c w0) as [[resp0|e] w1]
  end; [|discriminate].
  destruct (Z.eqb_spec (status_code resp0) 401) as [H401|H401];
    [|intros [= <-]; exact H401].
  unfold bind at 1, logging at 1, modify at 1. unfold bind at 1.
  match goal with
  | |- context [ApiClient._authenticate self ?w2] =>
      destruct (ApiClient._authenticate self w2) as [[[]|e] w3]
  end; [|discriminate].
  specialize (IH w3 resp).
  destruct (_make_request depth self method endpoint data w3) as [[answer|e] w4];
    [exact IH|discriminate].
Qed.

(** X18.  A caller of [_make_request] never sees a 401 and never an
    exception: with at least one frame left the call returns, in every
    world and whatever the frame in which the stack runs out does, [None]
    or a response whose status is not 401. *)
Theorem make_request_hides_unauthorized (method endpoint : string) (data : option jval)
    (depth : nat) (w : world) :
  exists answer,
    fst (_make_request (S depth) self method endpoint data w) = Return answer
    /\ forall resp, answer = Some resp -> status_code resp <> 401.
Proof.
  assert (R : exists answer,
             fst (_make_request (S depth) self method endpoint data w)
             = Return answer).
  { cbn [ApiClient._make_request]. unfold try_except.
    match goal with
    | |- context [let (_, _) := ?c w in _] => destruct (c w) as [[answer|e] w1]
    end; eexists; reflexivity. }
  destruct R as [answer R]. exists answer. split; [exact R|].
  intros resp ->. exact (make_request_no_401 method endpoint data (S depth) w resp R).
Qed.

(** X19.  The replay of an unauthorized request is bounded by the
    interpreter only.  When the broker answers the request with 401 as
    often as there are frames that fit on the stack, each of these frames
    sends the request, logs the expiry and calls [_authenticate]; the
    stack then runs out, in a world [w0] that shows as many requests, log
    lines and calls of [_authenticate] as there were frames; whatever the
    frame that does not fit still does, the error is logged once and the
    caller gets [None], also when the broker would have answered the next
    request. *)
Theorem unanswered_session_exhausts_the_frames
    (method endpoint : string) (data : option jval) (unauthorized : list response) :
  forall (depth : nat) (rest : list reply) (w : world),
  In method ["GET"; "POST"; "PUT"; "DELETE"] ->
  endpoint <> "/session" ->
  endpoint <> "/accounts" ->
  (In method ["POST"; "PUT"]
   -> encodable_body (mk_request method (ApiClient.base_url self ++ endpoint) data) = true) ->
  Forall (fun r => status_code r = 401) unauthorized ->
  length unauthorized = S depth ->
  broker w !! (method, ApiClient.base_url self ++ endpoint)
    = Some (map Reply unauthorized ++ rest)%list ->
  let url := ApiClient.base_url self ++ endpoint in
  exists w0,
    let w' := snd (stack_overflow w0) in
    _make_request (S depth) self method endpoint data w
    = (Return None, set_log (log w' ++ [(ERROR, "Request error")]) w')
    /\ Observed.sent_to method url w0 = (Observed.sent_to method url w + S depth)%nat
    /\ Observed.refreshes w0 = (Observed.refreshes w + S depth)%nat
    /\ Observed.authentications self w0
       = (Observed.authentications self w + S depth)%nat.
Proof.
  induction unauthorized as [|r0 unauthorized IH];
    intros depth rest w Hm Hs Ha He H401 Hlen Hb url; [discriminate Hlen|].
  cbn [map app] in Hb.
  destruct (make_request_answered stack_overflow self method endpoint data depth _ _ w
              Hm Hs He Hb) as (w1 & E & B1 & S1 & L1 & A1).
  fold url in B1, S1.
  pose proof (List.Forall_inv H401) as H0.
  pose proof (List.Forall_inv_tail H401) as H401'. cbn beta in H0.
  assert (Hkey1 : (method, url) <> ("POST", ApiClient.base_url self ++ "/session")).
  { intros [= _ E']. apply Hs, (append_cancel _ _ _ E'). }
  assert (Hkey2 : (method, url) <> ("GET", ApiClient.base_url self ++ "/accounts")).
  { intros [= _ E']. apply Ha, (append_cancel _ _ _ E'). }
  assert (Hkey3 : (method, url) <> ("PUT", ApiClient.base_url self ++ "/session")).
  { intros [= _ E']. apply Hs, (append_cancel _ _ _ E'). }
  rewrite H0 in E. cbn [Z.eqb Pos.eqb] in E.
  set (w2 := set_log (log w1 ++ [(INFO, "Token expired, refreshing authentication...")])
               w1).
  pose proof (authenticate_returns self w2) as R.
  pose proof (authenticate_counts self w2) as A3.
  destruct (authenticate_framed self method url Hkey1 Hkey2 Hkey3 w2) as (B & S' & L).
  destruct (ApiClient._authenticate self w2) as [[[]|e] w3] eqn:Eauth; [|discriminate R].
  cbn [snd] in B, S', L, A3.
  unfold w2 in L, A3. rewrite refreshes_logged in L.
  rewrite authentications_logged in A3 by discriminate.
  assert (S'' : Observed.sent_to method url w3 = S (Observed.sent_to method url w)).
  { rewrite S', <- S1. reflexivity. }
  assert (Hb3 : broker w3 !! (method, url) = Some (map Reply unauthorized ++ rest)%list).
  { rewrite B. exact B1. }
  assert (Hstep : forall answer,
             _make_request depth self method endpoint data w3 = answer ->
             _make_request (S depth) self method endpoint data w
             = match answer with
               | (Return a, w4) => (Return a, w4)
               | (Raise _, w4) =>
                   (Return None, set_log (log w4 ++ [(ERROR, "Request error")]) w4)
               end).
  { intros answer <-. rewrite E.
    unfold try_except. unfold bind at 1, logging at 1, modify at 1.
    unfold bind at 1. fold w2. rewrite Eauth.
    destruct (_make_request depth self method endpoint data w3) as [[a|e] w4];
      reflexivity. }
  cbn [length] in Hlen. injection Hlen as Hlen.
  destruct depth as [|depth].
  - exists w3. cbv zeta. split; [|lia].
    rewrite (Hstep _ eq_refl). cbn [ApiClient._make_request]. unfold bind, raise.
    destruct (stack_overflow w3) as [[[]|e] w4]; reflexivity.
  - destruct (IH depth rest w3 Hm Hs Ha He H401' Hlen Hb3) as (w0 & E0 & S0 & L0 & A0).
    fold url in S0. exists w0. cbv zeta in E0 |- *. split; [|lia].
    rewrite (Hstep _ eq_refl), E0. reflexivity.
Qed.

End ApiRequests.

Lemma unanswered_session_exhausts_the_frames_witness :
  let url := ApiClient.BASE_URL ++ "/positions" in
  let w := Fixtures.world0
             [("GET", url, [Fixtures.failed 401; Fixtures.failed 401; Fixtures.failed 401;
                            Fixtures.ok (JDict [])])] in
  exists w0,
    let w' := snd (Fixtures.on_entry w0) in
    ApiClient._make_request Fixtures.on_entry 3 Fixtures.client "GET" "/positions" None w
    = (Return None, set_log (log w' ++ [(ERROR, "Request error")]) w')
    /\ Observed.sent_to "GET" url w0 = (Observed.sent_to "GET" url w + 3)%nat
    /\ Observed.refreshes w0 = (Observed.refreshes w + 3)%nat
    /\ Observed.authentications Fixtures.client w0
       = (Observed.authentications Fixtures.client w + 3)%nat.
Proof.
  intros url w.
  apply (unanswered_session_exhausts_the_frames Fixtures.on_entry Fixtures.client
           "GET" "/positions" None
           [Fixtures.status_only 401; Fixtures.status_only 401; Fixtures.status_only 401]
           2 [Fixtures.ok (JDict [])] w).
  - simpl; auto.
  - discriminate.
  - discriminate.
  - intros _; reflexivity.
  - repeat constructor.
  - reflexivity.
  - vm_compute; reflexivity.
Defined.

(** When the stack runs out in the frame that does not fit only after that
    frame has sent its request, the run shows one request more than calls
    of [_authenticate]. *)
Example exhausted_frame_may_send_once_more :
  let url := ApiClient.BASE_URL ++ "/positions" in
  let w := Fixtures.world0
             [("GET", url, [Fixtures.failed 401; Fixtures.failed 401; Fixtures.failed 401;
                            Fixtures.failed 401])] in
  let r := ApiClient._make_request (Fixtures.after_request (mk_request "GET" url None)) 3
             Fixtures.client "GET" "/positions" None w in
  fst r = Return None
  /\ Observed.sent_to "GET" url (snd r) = 4%nat
  /\ Observed.refreshes (snd r) = 3%nat
  /\ Observed.authentications Fixtures.client (snd r) = 3%nat
  /\ Observed.logged ERROR "Request error" (snd r) = 1%nat.
Proof. repeat split; vm_compute; reflexivity. Qed.

(** ** The market price (api_client.py) *)

Section ApiPrices.
Variable stack_overflow : M unit.
Variable rt : runtime.
Variable self : ApiClient.CapitalComClient.

(** X20.  [get_market_price] reads the first entry of [prices] only: when
    the request is answered 200 with a JSON object whose [prices] is a list
    that starts with an object, the price is the mean of that entry's [bid]
    and [ask] when both are there and convert to floats, and [None] (after
    an error line, without an exception) when one of them is missing or
    does not convert; one request is sent. *)
Theorem market_price_is_mid_of_first_entry (depth : nat) (symbol : string) (w : world)
    (resp : response) (rest : list reply) (data first : list (string * jval))
    (others : list jval) :
  broker w !! ("GET", ApiClient.base_url self ++ "/prices/" ++ symbol)
    = Some (Reply resp :: rest) ->
  status_code resp = 200 ->
  json resp = Some (JDict data) ->
  dict_get "prices" data = Some (JList (JDict first :: others)) ->
  let r := ApiClientCalls.get_market_price stack_overflow rt (S depth) self symbol w in
  let quote key :=
    match dict_get key first with
    | Some v => match float_ rt v with Return f => Some f | Raise _ => None end
    | None => None
    end in
  fst r = Return match quote "bid", quote "ask" with
                 | Some bid, Some ask => Some ((bid + ask) / 2)%float
                 | _, _ => None
                 end
  /\ sent (snd r)
     = (sent w ++ [mk_request "GET" (ApiClient.base_url self ++ "/prices/" ++ symbol) None])%list.
Proof.
  intros Hb H200 Hjson Hprices r quote.
  assert (E : exists w1,
             ApiClient._make_request stack_overflow (S depth) self "GET"
               ("/prices/" ++ symbol) None w
             = (Return (Some resp), w1)
             /\ sent w1
                = (sent w ++ [mk_request "GET"
                                (ApiClient.base_url self ++ "/prices/" ++ symbol) None])%list).
  { destruct (make_request_first_answer stack_overflow self "GET" ("/prices/" ++ symbol)
                None depth resp rest w) as (w1 & between & E & Hsent & _);
      [cbn; auto|reflexivity|exact Hb|rewrite H200; discriminate|].
    exists w1. split; [exact E|exact Hsent]. }
  destruct E as (w1 & E & Hsent).
  assert (Er : exists w2,
             r = (Return match quote "bid", quote "ask" with
                         | Some bid, Some ask => Some ((bid + ask) / 2)%float
                         | _, _ => None
                         end, w2)
             /\ sent w2 = sent w1).
  { subst r. unfold ApiClientCalls.get_market_price, try_except. unfold bind at 1.
    rewrite E. unfold ApiClientCalls.answered_200. rewrite H200.
    cbn [Z.ltb Z.eqb Z.compare Pos.compare Pos.compare_cont Pos.eqb andb].
    unfold bind at 1, response_json. rewrite Hjson. cbn [ret].
    unfold bind at 1. cbn [lift contains]. unfold dict_has. rewrite Hprices.
    unfold bind at 1. cbn [lift item]. unfold dict_item. rewrite Hprices.
    cbn [truthy andb]. unfold bind at 1. cbn [lift PyOps.index0].
    unfold bind at 1. cbn [lift item]. unfold dict_item. subst quote. cbn beta.
    destruct (dict_get "bid" first) as [b|]; [|eexists; split; reflexivity].
    unfold bind at 1. cbn [lift].
    destruct (float_ rt b) as [bid|e]; [|eexists; split; reflexivity].
    unfold bind at 1.
    destruct (dict_get "ask" first) as [a|]; [|eexists; split; reflexivity].
    unfold bind at 1. cbn [lift].
    destruct (float_ rt a) as [ask|e]; eexists; split; reflexivity. }
  destruct Er as (w2 & -> & Hsent2). cbn [fst snd]. split; [reflexivity|congruence].
Qed.
End ApiPrices.

Lemma market_price_is_mid_of_first_entry_witness :
  let url := ApiClient.BASE_URL ++ "/prices/BTCUSD" in
  let first := [("bid", JFloat 100.5); ("ask", JInt 101)] in
  let data := [("prices", JList [JDict first; JDict [("bid", JInt 1)]])] in
  let w := Fixtures.world0 [("GET", url, [Fixtures.ok (JDict data)])] in
  let r := ApiClientCalls.get_market_price Fixtures.on_entry Fixtures.runtime0 3
             Fixtures.client "BTCUSD" w in
  fst r = Return (Some 100.75%float)
  /\ sent (snd r) = [mk_request "GET" url None].
Proof.
  intros url first data w.
  apply (market_price_is_mid_of_first_entry Fixtures.on_entry Fixtures.runtime0
           Fixtures.client 2 "BTCUSD" w
           {| status_code := 200; headers := []; json := Some (JDict data) |}
           [] data first [JDict [("bid", JInt 1)]]);
    vm_compute; reflexivity.
Defined.

(** ** Execution of a signal (bot3.py) *)

Section Bot3Execution.
Variable rt : runtime.
Variable stack_overflow : M unit.

Lemma record_trade_agrees (self : Bot3Trading.TradingBot) (symbol : string)
    (signal : Strategies.signal) (price current_time : float) :
  Observed.books_agree self ->
  Strategies.action signal = "BUY" \/ Strategies.action signal = "SELL" ->
  Observed.books_agree (Bot3Trading.record_trade self symbol signal price current_time).
Proof.
  intros Hagree Haction s. specialize (Hagree s).
  unfold Bot3Trading.record_trade, Strategies.update_position.
  cbn [Bot3Trading.strategy Bot3Trading.active_positions].
  destruct Haction as [-> | ->]; cbn [String.eqb Ascii.eqb Bool.eqb Strategies.positions];
    destruct (decide (s = symbol)) as [->|Hne].
  - rewrite !lookup_insert_eq. reflexivity.
  - rewrite !lookup_insert_ne by congruence. exact Hagree.
  - rewrite !lookup_delete_eq. reflexivity.
  - rewrite !lookup_delete_ne by congruence. exact Hagree.
Qed.

(** What [execute_trade] leaves: the bot as it was, or the bot with the
    trade recorded at the time of the call. *)
Lemma execute_trade_outcomes (depth : nat) (self : Bot3Trading.TradingBot) (symbol : string)
    (signal : option (Strategies.signal * float)) (w : world) :
  exists self',
    fst (Bot3Trading.execute_trade rt stack_overflow depth self symbol signal w) = Return self'
    /\ (self' = self
        \/ exists s price,
             signal = Some (s, price)
             /\ self' = Bot3Trading.record_trade self symbol s price (clock w)).
Proof.
  unfold Bot3Trading.execute_trade, try_except.
  destruct signal as [[s price]|]; [|eexists; split; [reflexivity|left; reflexivity]].
  unfold bind at 1, time_time.
  destruct (match Bot3Trading.last_trade_time self !! symbol with
            | Some last => _
            | None => false
            end); [eexists; split; [reflexivity|left; reflexivity]|].
  unfold bind at 1, logging at 1, modify at 1.
  unfold bind at 1, logging at 1, modify at 1. unfold bind at 1.
  match goal with
  | |- context [ApiClient.place_market_order ?o ?d ?c ?s ?a ?q ?w1] =>
      destruct (ApiClient.place_market_order o d c s a q w1) as [[[data|]|e] w2]
  end; try (eexists; split; [reflexivity|left; reflexivity]).
  destruct (truthy data); [|eexists; split; [reflexivity|left; reflexivity]].
  eexists. split; [reflexivity|]. right. eauto.
Qed.

(** X21.  [execute_trade] keeps the two books of open positions in step:
    when the strategy's positions and [active_positions] agree before the
    call and the signal is a BUY or a SELL, the call returns a bot, in
    every world and whatever the broker answers, and the books of that bot
    agree. *)
Theorem execute_trade_keeps_the_books (depth : nat) (self : Bot3Trading.TradingBot)
    (symbol : string) (signal : Strategies.signal) (price : float) (w : world) :
  Observed.books_agree self ->
  Strategies.action signal = "BUY" \/ Strategies.action signal = "SELL" ->
  exists self',
    fst (Bot3Trading.execute_trade rt stack_overflow depth self symbol (Some (signal, price)) w)
    = Return self'
    /\ Observed.books_agree self'.
Proof.
  intros Hagree Haction.
  destruct (execute_trade_outcomes depth self symbol (Some (signal, price)) w)
    as (self' & R & [-> | (s & p & [= <- <-] & ->)]).
  - eauto.
  - exists (Bot3Trading.record_trade self symbol signal price (clock w)).
    split; [exact R|]. apply record_trade_agrees; assumption.
Qed.

(** X22.  After a trade of a symbol has been recorded, every signal for
    that symbol that arrives less than [TRADE_INTERVAL] seconds later is
    skipped: the bot stays as it is, one line is logged and nothing is
    sent. *)
Theorem traded_symbol_rests_for_the_interval (depth : nat) (self : Bot3Trading.TradingBot)
    (symbol : string) (done next : Strategies.signal) (price price' traded_at : float)
    (w : world) :
  PyFloat.ltb (clock w - traded_at) Bot3.TRADE_INTERVAL = true ->
  let after := Bot3Trading.record_trade self symbol done price traded_at in
  Bot3Trading.execute_trade rt stack_overflow depth after symbol (Some (next, price')) w
  = (Return after,
     set_log (log w ++ [(INFO, "Skipping trade, too soon since last trade")]) w).
Proof.
  intros Hsoon after.
  unfold Bot3Trading.execute_trade, try_except, bind at 1, time_time.
  assert (Hlast : Bot3Trading.last_trade_time after !! symbol = Some traded_at).
  { subst after. cbn [Bot3Trading.record_trade Bot3Trading.last_trade_time].
    apply lookup_insert_eq. }
  rewrite Hlast, Hsoon. reflexivity.
Qed.

(** What [place_market_order] makes of a first answer with status 200:
    the parsed body, or [None] when the body is not JSON; the order has
    been sent once. *)
Lemma order_answered (depth : nat) (self : ApiClient.CapitalComClient)
    (symbol direction quantity : string) (w : world) (resp : response) (rest : list reply) :
  (0 < depth)%nat ->
  broker w !! ("POST", ApiClient.base_url self ++ "/positions") = Some (Reply resp :: rest) ->
  status_code resp = 200 ->
  exists w' between,
  ApiClient.place_market_order stack_overflow depth self symbol direction quantity w
  = (Return (json resp), w')
  /\ sent w'
     = (sent w ++ [mk_request "POST" (ApiClient.base_url self ++ "/positions")
                     (Some (JDict [("epic", JStr symbol); ("direction", JStr direction);
                                   ("size", JStr quantity); ("orderType", JStr "MARKET");
                                   ("guaranteedStop", JBool false);
                                   ("forceOpen", JBool true)]))])%list
  /\ log w' = (log w ++ between)%list
  /\ Forall (fun e => snd e <> "Trade execution failed") between.
Proof.
  intros Hdepth Hb H200. destruct depth as [|depth]; [lia|].
  destruct (make_request_first_answer stack_overflow self "POST" "/positions"
              (Some (JDict [("epic", JStr symbol); ("direction", JStr direction);
                            ("size", JStr quantity); ("orderType", JStr "MARKET");
                            ("guaranteedStop", JBool false); ("forceOpen", JBool true)]))
              depth resp rest w) as (w1 & signature & E & Hsent & Hlog & Hsignature);
    [cbn; auto|reflexivity|exact Hb|rewrite H200; discriminate|].
  cbn [String.eqb Ascii.eqb Bool.eqb orb] in Hsent.
  assert (Hquiet : Forall (fun e : level * string => snd e <> "Trade execution failed")
                     signature).
  { eapply List.Forall_impl; [|exact Hsignature]. intros e ->. discriminate. }
  unfold ApiClient.place_market_order, try_except. unfold bind at 1.
  rewrite E. rewrite H200.
  cbn [Z.ltb Z.eqb Z.compare Pos.compare Pos.compare_cont Pos.eqb andb].
  unfold bind at 1, response_json.
  destruct (json resp) as [data|]; unfold raise, bind, logging, modify, ret.
  - eexists. exists (signature ++ [(INFO, "Order placed successfully")])%list.
    split; [reflexivity|]. cbn [sent log set_log set_broker set_sent].
    rewrite Hlog, <- app_assoc. repeat split; [exact Hsent|].
    apply Forall_app. split; [exact Hquiet|]. repeat constructor; discriminate.
  - eexists. exists (signature ++ [(ERROR, "Error placing market order")])%list.
    split; [reflexivity|]. cbn [sent log set_log set_broker set_sent].
    rewrite Hlog, <- app_assoc. repeat split; [exact Hsent|].
    apply Forall_app. split; [exact Hquiet|]. repeat constructor; discriminate.
Qed.

(** X23.  An order that the broker accepts but answers without a usable
    body is not recorded: when the symbol has not been traded within the
    last [TRADE_INTERVAL] seconds and the order is answered 200 with a body
    that is not JSON or is an empty JSON value, the order has been sent
    once, the failure is logged, and the bot is left as it was, so the
    strategy does not track the position that was opened. *)
Theorem accepted_order_without_body_is_not_recorded (depth : nat)
    (self : Bot3Trading.TradingBot) (symbol : string) (signal : Strategies.signal)
    (price : float) (w : world) (resp : response) (rest : list reply) :
  let client := Bot3Trading.api_client self in
  let url := ApiClient.base_url client ++ "/positions" in
  match Bot3Trading.last_trade_time self !! symbol with
  | Some last => PyFloat.ltb (clock w - last) Bot3.TRADE_INTERVAL = false
  | None => True
  end ->
  broker w !! ("POST", url) = Some (Reply resp :: rest) ->
  status_code resp = 200 ->
  match json resp with Some data => truthy data = false | None => True end ->
  let r := Bot3Trading.execute_trade rt stack_overflow (S depth) self symbol (Some (signal, price)) w in
  fst r = Return self
  /\ Observed.sent_to "POST" url (snd r) = S (Observed.sent_to "POST" url w)
  /\ Observed.logged ERROR "Trade execution failed" (snd r)
     = S (Observed.logged ERROR "Trade execution failed" w).
Proof.
  intros client url Hlast Hb H200 Hbody r.
  assert (E : exists w',
             r = (Return self, w')
             /\ sent w' = (sent w ++ [mk_request "POST" url
                                        (Some (JDict
                                           [("epic", JStr symbol);
                                            ("direction",
                                             JStr (if String.eqb (Strategies.action signal) "BUY"
                                                   then "BUY" else "SELL"));
                                            ("size",
                                             JStr (str_ rt (JFloat (Strategies.quantity signal))));
                                            ("orderType", JStr "MARKET");
                                            ("guaranteedStop", JBool false);
                                            ("forceOpen", JBool true)]))])%list
             /\ exists between,
                  log w' = (log w ++ between ++ [(ERROR, "Trade execution failed")])%list
                  /\ Forall (fun e => snd e <> "Trade execution failed") between).
  { pose proof (order_answered (S depth) client symbol
                  (if String.eqb (Strategies.action signal) "BUY" then "BUY" else "SELL")
                  (str_ rt (JFloat (Strategies.quantity signal)))
                  (set_log (log (set_log (log w ++ [(INFO, "Executing trade")]) w)
                            ++ [(INFO, "Trade details")])
                     (set_log (log w ++ [(INFO, "Executing trade")]) w))
                  resp rest ltac:(lia) Hb H200)
      as (w2 & between & Hplace & Hsent & Hlog & Hbetween).
    assert (Hgo : match Bot3Trading.last_trade_time self !! symbol with
                  | Some last => PyFloat.ltb (clock w - last)%float Bot3.TRADE_INTERVAL
                  | None => false
                  end = false).
    { destruct (Bot3Trading.last_trade_time self !! symbol); [exact Hlast|reflexivity]. }
    subst r. unfold Bot3Trading.execute_trade, try_except. unfold bind at 1, time_time.
    rewrite Hgo.
    unfold bind at 1, logging at 1, modify at 1.
    unfold bind at 1, logging at 1, modify at 1. unfold bind at 1.
    fold client. rewrite Hplace.
    exists (set_log (log w2 ++ [(ERROR, "Trade execution failed")]) w2).
    split.
    - destruct (json resp) as [data|]; [rewrite Hbody|]; reflexivity.
    - cbn [sent log set_log]. split; [exact Hsent|].
      exists ([(INFO, "Executing trade"); (INFO, "Trade details")] ++ between)%list.
      split.
      + rewrite Hlog. cbn [log set_log]. rewrite <- !app_assoc. reflexivity.
      + repeat constructor; try discriminate. exact Hbetween. }
  destruct E as (w' & -> & Hsent & between & Hlog & Hbetween). cbn [fst snd].
  split; [reflexivity|]. split.
  - unfold Observed.sent_to. rewrite Hsent, List.filter_app, length_app.
    cbn [List.filter rq_method rq_url]. rewrite !String.eqb_refl. cbn. lia.
  - unfold Observed.logged. rewrite Hlog, !List.filter_app, !length_app.
    cbn [List.filter fst snd]. rewrite String.eqb_refl. cbn [length].
    assert (Hnone : List.filter
                      (fun e : level * string =>
                         match fst e with
                         | ERROR => String.eqb (snd e) "Trade execution failed"
                         | _ => false
                         end) between = []).
    { clear Hlog. induction Hbetween as [|[l msg] between Hne _ IH]; [reflexivity|].
      cbn [List.filter fst snd] in *.
      destruct l; try exact IH.
      destruct (String.eqb_spec msg "Trade execution failed"); [contradiction|exact IH]. }
    rewrite Hnone. cbn [length]. lia.
Qed.
End Bot3Execution.

Lemma execute_trade_keeps_the_books_witness :
  exists self',
    fst (Bot3Trading.execute_trade Fixtures.runtime0 Fixtures.on_entry 3 Fixtures.bot0
           "BTCUSD" (Some (Fixtures.buy_signal 100, 100.5%float))
           (Fixtures.world0
              [("POST", ApiClient.BASE_URL ++ "/positions",
                [Fixtures.ok (JDict [("dealReference", JStr "REF1")])])]))
    = Return self'
    /\ Observed.books_agree self'.
Proof.
  apply (execute_trade_keeps_the_books Fixtures.runtime0 Fixtures.on_entry 3 Fixtures.bot0
           "BTCUSD" (Fixtures.buy_signal 100) 100.5%float).
  - intros symbol. reflexivity.
  - left. reflexivity.
Defined.

Lemma traded_symbol_rests_for_the_interval_witness :
  let after :=
    Bot3Trading.record_trade Fixtures.bot0 "BTCUSD" (Fixtures.buy_signal 100) 100.5 0 in
  let w := set_clock 299 (Fixtures.world0 []) in
  Bot3Trading.execute_trade Fixtures.runtime0 Fixtures.on_entry 3 after "BTCUSD"
    (Some (Fixtures.buy_signal 50, 101%float)) w
  = (Return after,
     set_log (log w ++ [(INFO, "Skipping trade, too soon since last trade")]) w).
Proof.
  apply (traded_symbol_rests_for_the_interval Fixtures.runtime0 Fixtures.on_entry 3
           Fixtures.bot0 "BTCUSD" (Fixtures.buy_signal 100) (Fixtures.buy_signal 50) 100.5 101 0
           (set_clock 299 (Fixtures.world0 []))).
  vm_compute; reflexivity.
Defined.

Lemma accepted_order_without_body_is_not_recorded_witness :
  let url := ApiClient.BASE_URL ++ "/positions" in
  let traded :=
    Bot3Trading.record_trade Fixtures.bot0 "BTCUSD" (Fixtures.buy_signal 100) 100.5 0 in
  let w := set_clock 300 (Fixtures.world0 [("POST", url, [Fixtures.ok (JDict [])])]) in
  let r := Bot3Trading.execute_trade Fixtures.runtime0 Fixtures.on_entry 3 traded "BTCUSD"
             (Some (Fixtures.buy_signal 50, 101%float)) w in
  fst r = Return traded
  /\ Observed.sent_to "POST" url (snd r) = S (Observed.sent_to "POST" url w)
  /\ Observed.logged ERROR "Trade execution failed" (snd r)
     = S (Observed.logged ERROR "Trade execution failed" w).
Proof.
  intros url traded w.
  apply (accepted_order_without_body_is_not_recorded Fixtures.runtime0 Fixtures.on_entry 2
           traded "BTCUSD" (Fixtures.buy_signal 50) 101 w
           {| status_code := 200; headers := []; json := Some (JDict []) |} []);
    vm_compute; reflexivity.
Defined.

(** ** Outcomes of the market analysis (bot1.py) *)

Section Bot1Analysis.
Variable talib_ATR : list float -> list float -> list float -> result (list float).
Variable series_mean : list float -> float.
Variable DataFrame_of_columns : list (string * jval) -> result Bot1.frame.

#[local] Abbreviation analyze := (Bot1.analyze talib_ATR series_mean DataFrame_of_columns).

End Bot1Analysis.

(** ** Runs of the loops and of the strategy on concrete inputs *)

Lemma bot1_monitor_isolates_witness :
  let first := Fixtures.position "D1" "BTCUSD" "BUY" (JInt 100) [("limitLevel", JInt 101)] in
  let last := Fixtures.position "D3" "ETHUSD" "BUY" (JInt 100) [("limitLevel", JInt 100)] in
  let bad := [("dealId", JStr "D2")] in
  let w := Fixtures.world0 [] in
  let monitor_positions :=
    Bot1.monitor_positions Fixtures.runtime0 Fixtures.no_verification Fixtures.no_verify_tp in
  monitor_positions ([first] ++ JDict bad :: [last])%list w
  = monitor_positions [last]
      (snd (Bot1.monitor_position Fixtures.runtime0 Fixtures.no_verification
              Fixtures.no_verify_tp (JDict bad) (snd (monitor_positions [first] w)))).
Proof.
  intros first last bad w monitor_positions.
  apply (bot1_monitor_isolates Fixtures.runtime0 Fixtures.no_verification
           Fixtures.no_verify_tp [first] [last] bad w).
  repeat constructor. eexists. reflexivity.
Defined.

Lemma bot4_failure_skips_the_rest_witness :
  let adjust_positions :=
    Bot4.adjust_positions Fixtures.runtime0 Fixtures.authenticated Fixtures.latest_price
      Fixtures.stop_loss_logged in
  let adjust_position :=
    Bot4.adjust_position Fixtures.runtime0 Fixtures.authenticated Fixtures.latest_price
      Fixtures.stop_loss_logged in
  let w := Fixtures.world0
             (Fixtures.listing Bot4.CAPITAL_API_URL Fixtures.five_positions
                ["BTCUSD"; "ETHUSD"; "XRPUSD"; "LTCUSD"; "ADAUSD"]) in
  let before := firstn 2 Fixtures.five_positions in
  let bad := Fixtures.position "D3" "XRPUSD" "BUY" (JInt 50) [] in
  let after := skipn 3 Fixtures.five_positions in
  adjust_positions (before ++ bad :: after)%list w
  = (Raise (KeyError "profitLevel"), snd (adjust_position bad (snd (adjust_positions before w)))).
Proof.
  intros adjust_positions adjust_position w before bad after.
  apply (bot4_failure_skips_the_rest Fixtures.runtime0 Fixtures.authenticated
           Fixtures.latest_price Fixtures.stop_loss_logged before after bad
           (KeyError "profitLevel") w);
    vm_compute; reflexivity.
Defined.

Lemma get_signal_short_arrays_witness :
  Strategies.get_signal (Fixtures.constant_atr [1]%float) (Fixtures.averages_crossing_at 3)
    (Fixtures.constant_rsi [50; 50]%float) Strategies.init "BTCUSD" 100%float
    [98; 99; 100]%float 10000%float
  = Return None.
Proof.
  apply (get_signal_short_arrays (Fixtures.constant_atr [1]%float)
           (Fixtures.averages_crossing_at 3) (Fixtures.constant_rsi [50; 50]%float)
           Strategies.init "BTCUSD" 100%float [98; 99; 100]%float 10000%float
           [1]%float [1; 3]%float [2; 2]%float [50; 50]%float);
    try reflexivity.
  left. simpl. lia.
Defined.

(** ** The market data cache and the take-profit check (bot1.py) *)

Section Bot1Checks.
Variable rt : runtime.

(** X29.  Market data are fetched once a minute at most: with a session
    and no fresh cached data, a price request answered with 200 and a JSON
    body returns that body after one request and caches it for 60 seconds,
    and every call before that expiry returns it without any exchange. *)
Theorem market_data_is_fetched_once (w : world) (symbol : jval) (cst x_security : string)
    (e1 : float) (resp : response) (data : jval) (rest : list reply) :
  let url := Bot1.CAPITAL_API_URL ++ "/prices/" ++ str_ rt symbol
             ++ "?resolution=MINUTE_5&max=100" in
  auth_tokens w = Some (Some cst, Some x_security, e1) ->
  PyFloat.ltb (clock w) e1 = true ->
  no_tokens (Some cst) (Some x_security) = false ->
  match market_data w !! str_ rt symbol with
  | Some (_, expiry) => PyFloat.ltb (clock w) expiry = false
  | None => True
  end ->
  broker w !! ("GET", url) = Some (Reply resp :: rest) ->
  status_code resp = 200 ->
  json resp = Some data ->
  let r := Bot1.get_market_data rt symbol w in
  let expiry := (clock w + 60)%float in
  fst r = Return (Some data)
  /\ market_data (snd r) !! str_ rt symbol = Some (data, expiry)
  /\ sent (snd r) = (sent w ++ [mk_request "GET" url None])%list
  /\ forall w', market_data w' !! str_ rt symbol = Some (data, expiry) ->
                PyFloat.ltb (clock w') expiry = true ->
                Bot1.get_market_data rt symbol w' = (Return (Some data), w').
Proof.
  intros url Ha Hf1 Htok Hstale Hb H200 Hjson r expiry.
  eassert (E : r = (Return (Some data), _)).
  { subst r. unfold Bot1.get_market_data. unfold bind at 1, get_world.
    assert (Hf : match market_data w !! str_ rt symbol with
                 | Some (cached, expiry) =>
                     if PyFloat.ltb (clock w) expiry then Some cached else None
                 | None => None
                 end = None).
    { destruct (market_data w !! str_ rt symbol) as [[c e]|]; [rewrite Hstale|];
        reflexivity. }
    rewrite Hf. unfold bind at 1. rewrite (bot1_authenticate_cached rt w _ _ _ Ha Hf1).
    rewrite Htok. unfold try_except, bind at 1.
    rewrite session_send_encodable by reflexivity.
    erewrite send_with_retries_once; [|exact Hb|rewrite H200; reflexivity].
    rewrite H200. cbn [Z.eqb Pos.eqb].
    unfold bind at 1, response_json. rewrite Hjson.
    unfold bind, time_time, modify, ret.
    cbn [clock set_clock set_broker set_sent]. reflexivity. }
  rewrite E. cbn [fst snd]. split; [reflexivity|]. split; [|split].
  - cbn [market_data set_market_data]. apply lookup_insert_eq.
  - reflexivity.
  - intros w' Hc Hf. unfold Bot1.get_market_data, bind, get_world.
    rewrite Hc, Hf. reflexivity.
Qed.

End Bot1Checks.

Lemma market_data_is_fetched_once_witness :
  let url := Bot1.CAPITAL_API_URL ++ "/prices/BTCUSD?resolution=MINUTE_5&max=100" in
  let data := JDict [("prices", JList [])] in
  let w := Fixtures.world0 [("GET", url, [Fixtures.ok data])] in
  let r := Bot1.get_market_data Fixtures.runtime0 (JStr "BTCUSD") w in
  fst r = Return (Some data)
  /\ market_data (snd r) !! "BTCUSD" = Some (data, 60%float)
  /\ sent (snd r) = [mk_request "GET" url None]
  /\ forall w', market_data w' !! "BTCUSD" = Some (data, 60%float) ->
                PyFloat.ltb (clock w') 60 = true ->
                Bot1.get_market_data Fixtures.runtime0 (JStr "BTCUSD") w'
                = (Return (Some data), w').
Proof.
  intros url data w.
  apply (market_data_is_fetched_once Fixtures.runtime0 w (JStr "BTCUSD") "CST" "TOKEN" 600
           {| status_code := 200; headers := []; json := Some data |} data []);
    vm_compute; reflexivity.
Defined.

